(** * Edit history, session persistence and edit orchestration of the
      photo editor (App component and services/geminiService.ts)

    The development embeds the state held by the [App] component, its
    event handlers, the mount-time restore effect, the autosave callback
    and the response handling of the generation service, and proves the
    properties of the history / persistence / orchestration core.

    Conventions of the embedding.
    - A JavaScript string is a [string]; every character stands for one
      code unit below 256 (the binary strings produced by [atob], data
      URLs and MIME types all live there).
    - A JavaScript number that is used as an index or a seed is a [Z].
    - A [throw] is the [Throw] constructor of [result]; a rejected promise
      is a [Throw] delivered when the promise settles.
    - React state is a record; a handler is a function from the state it
      closed over to the state after its updates were applied.  Each event
      is handled to completion and the view is rendered again before the
      next event is dispatched. *)

From Stdlib Require Import List ZArith String Ascii Bool Lia Arith.
From Stdlib Require Import DecimalString.
From Stdlib Require QArith Qminmax Lqa.
Import ListNotations.

Set Warnings "-register-all".

Local Open Scope string_scope.
Local Open Scope list_scope.
Local Open Scope Z_scope.

(** ** Exceptions and results *)

Inductive ErrClass :=
| PlainError                      (* new Error(msg) *)
| TypeErrorC                      (* TypeError raised by the engine *)
| DOMExceptionC (name : string).  (* DOMException with its name *)

(** What a [catch] clause can receive: an [Error] instance (DOMException
    and TypeError are [Error] instances, too) or some other value. *)
Inductive Thrown :=
| ErrorObj (cls : ErrClass) (message : string)
| NonError.

Inductive result (A : Type) :=
| Ok (a : A)
| Throw (e : Thrown).
Arguments Ok {A} a.
Arguments Throw {A} e.

Definition bind {A B} (r : result A) (k : A -> result B) : result B :=
  match r with
  | Ok a => k a
  | Throw e => Throw e
  end.

Notation "x <- r ;; k" := (bind r (fun x => k))
  (at level 61, r at next level, right associativity).

(** [err instanceof Error ? err.message : 'An unknown error occurred.'] *)
Definition errorMessage (e : Thrown) : string :=
  match e with
  | ErrorObj _ m => m
  | NonError => "An unknown error occurred."
  end.

(** ** The JavaScript built-ins the code calls *)

Module JS.

(** [Array.prototype.slice(start, end)], negative indices counted from
    the end and both bounds clamped to the array. *)
Definition relative (len k : Z) : Z :=
  if k <? 0 then Z.max (len + k) 0 else Z.min k len.

Definition slice {A} (l : list A) (start : Z) (stop : option Z) : list A :=
  let len := Z.of_nat (List.length l) in
  let from := relative len start in
  let upto := match stop with Some e => relative len e | None => len end in
  firstn (Z.to_nat (upto - from)) (skipn (Z.to_nat from) l).

(** [l[i] ?? null] for a number [i]: [None] stands for null. *)
Definition index {A} (l : list A) (i : Z) : option A :=
  if i <? 0 then None else nth_error l (Z.to_nat i).

(** [String.prototype.split(sep)] for a one-character separator. *)
Fixpoint split (sep : ascii) (s : string) : list string :=
  match s with
  | EmptyString => [EmptyString]
  | String c r =>
      if Ascii.eqb c sep then EmptyString :: split sep r
      else match split sep r with
           | hd :: tl => String c hd :: tl
           | [] => [String c EmptyString]
           end
  end.

Definition code (c : ascii) : Z := Z.of_nat (nat_of_ascii c).

(** White space and line terminators removed by [trim] (those below
    256: TAB, LF, VT, FF, CR, SPACE, NBSP). *)
Definition is_space (c : ascii) : bool :=
  let n := code c in
  ((9 <=? n) && (n <=? 13)) || (n =? 32) || (n =? 160).

Fixpoint trimStart (s : string) : string :=
  match s with
  | String c r => if is_space c then trimStart r else s
  | EmptyString => EmptyString
  end.

Fixpoint rev_string (s acc : string) : string :=
  match s with
  | EmptyString => acc
  | String c r => rev_string r (String c acc)
  end.

Definition trim (s : string) : string :=
  rev_string (trimStart (rev_string (trimStart s) "")) "".

(** Truthiness of a string: non-empty. *)
Definition truthy (s : string) : bool :=
  match s with EmptyString => false | _ => true end.

(** The characters [.] does not match (those below 256). *)
Definition is_line_terminator (c : ascii) : bool :=
  (code c =? 10) || (code c =? 13).

(** The rest of the pattern [(.*?);] once [:] was matched: the
    shortest run without line terminator that is followed by [;]. *)
Fixpoint lazy_until_semicolon (s : string) : option string :=
  match s with
  | EmptyString => None
  | String c r =>
      if Ascii.eqb c ";" then Some EmptyString
      else if is_line_terminator c then None
      else option_map (String c) (lazy_until_semicolon r)
  end.

(** [s.match(/:(.*?);/)]: the capture group of the leftmost match. *)
Fixpoint match_mime (s : string) : option string :=
  match s with
  | EmptyString => None
  | String c r =>
      if Ascii.eqb c ":" then
        match lazy_until_semicolon r with
        | Some cap => Some cap
        | None => match_mime r
        end
      else match_mime r
  end.

(** *** [atob]: forgiving base64 decoding *)

Definition is_ascii_whitespace (c : ascii) : bool :=
  let n := code c in
  (n =? 9) || (n =? 10) || (n =? 12) || (n =? 13) || (n =? 32).

Definition sextet (c : ascii) : option Z :=
  let n := code c in
  if (65 <=? n) && (n <=? 90) then Some (n - 65)
  else if (97 <=? n) && (n <=? 122) then Some (n - 71)
  else if (48 <=? n) && (n <=? 57) then Some (n + 4)
  else if n =? 43 then Some 62
  else if n =? 47 then Some 63
  else None.

Fixpoint chars (s : string) : list ascii :=
  match s with
  | EmptyString => []
  | String c r => c :: chars r
  end.

Fixpoint of_chars (l : list ascii) : string :=
  match l with
  | [] => EmptyString
  | c :: r => String c (of_chars r)
  end.

(** When the length is a multiple of four, one or two trailing [=]
    are dropped (the list is given reversed). *)
Definition strip_padding (rev_data : list ascii) : list ascii :=
  if Z.of_nat (List.length rev_data) mod 4 =? 0 then
    match rev_data with
    | "="%char :: "="%char :: r => r
    | "="%char :: r => r
    | _ => rev_data
    end
  else rev_data.

Fixpoint sextets (l : list ascii) : option (list Z) :=
  match l with
  | [] => Some []
  | c :: r =>
      match sextet c, sextets r with
      | Some v, Some vs => Some (v :: vs)
      | _, _ => None
      end
  end.

Definition byte_char (n : Z) : ascii := ascii_of_nat (Z.to_nat (n mod 256)).

Fixpoint decode_groups (l : list Z) : list ascii :=
  match l with
  | a :: b :: c :: d :: r =>
      let n := ((a * 64 + b) * 64 + c) * 64 + d in
      byte_char (n / 65536) :: byte_char (n / 256) :: byte_char n
        :: decode_groups r
  | [a; b; c] =>
      let n := ((a * 64 + b) * 64 + c) / 4 in
      [byte_char (n / 256); byte_char n]
  | [a; b] => [byte_char ((a * 64 + b) / 16)]
  | _ => []
  end.

Definition atob_error : Thrown :=
  ErrorObj (DOMExceptionC "InvalidCharacterError")
           "The string to be decoded is not correctly encoded.".

Definition atob (s : string) : result string :=
  let data := filter (fun c => negb (is_ascii_whitespace c)) (chars s) in
  let data := rev (strip_padding (rev data)) in
  if Z.of_nat (List.length data) mod 4 =? 1 then Throw atob_error
  else match sextets data with
       | Some vs => Ok (of_chars (decode_groups vs))
       | None => Throw atob_error
       end.

(** [`${n}`] for a non-negative integer. *)
Definition decimal (n : nat) : string :=
  NilEmpty.string_of_uint (Nat.to_uint n).

End JS.

(** ** Files *)

(** A [File]: its name, its [type] and its bytes (a binary string). *)
Record File := mkFile {
  file_name : string;
  file_type : string;
  file_bytes : string
}.

Module FileCtor.

Definition printable (c : ascii) : bool :=
  (32 <=? JS.code c) && (JS.code c <=? 126).

Definition lower (c : ascii) : ascii :=
  let n := JS.code c in
  if (65 <=? n) && (n <=? 90) then ascii_of_nat (Z.to_nat (n + 32)) else c.

(** The [type] option of [new File(bits, name, {type})]: emptied when a
    character lies outside U+0020..U+007E, lower-cased otherwise. *)
Definition normalize_type (t : string) : string :=
  if forallb printable (JS.chars t)
  then JS.of_chars (map lower (JS.chars t))
  else EmptyString.

Definition new_File (bits name type : string) : File :=
  mkFile name (normalize_type type) bits.

End FileCtor.

(** [dataURLtoFile(dataurl, filename)]. *)
Definition dataURLtoFile (dataurl filename : string) : result File :=
  let arr := JS.split "," dataurl in
  if (List.length arr <? 2)%nat then Throw (ErrorObj PlainError "Invalid data URL")
  else
    match JS.match_mime (nth 0 arr EmptyString) with
    | None =>
        Throw (ErrorObj PlainError "Could not parse MIME type from data URL")
    | Some EmptyString =>
        Throw (ErrorObj PlainError "Could not parse MIME type from data URL")
    | Some mime =>
        bstr <- JS.atob (nth 1 arr EmptyString) ;;
        Ok (FileCtor.new_File bstr filename mime)
    end.

(** ** The state of the [App] component *)

Definition Hotspot : Type := (Z * Z)%type.

(** [PixelCrop] of react-image-crop, in whole pixels. *)
Record PixelCrop := mkCrop {
  crop_x : Z; crop_y : Z; crop_width : Z; crop_height : Z
}.

(** The [useState] cells that the history, persistence and orchestration
    code reads or writes.  The purely visual cells ([crop], [aspect],
    [isComparing], zoom and pan, the object URLs) are left out. *)
Record AppState := mkApp {
  history : list File;
  historyIndex : Z;
  prompt : string;
  isLoading : bool;
  error : option string;
  editHotspot : option Hotspot;
  displayHotspot : option Hotspot;
  activeTab : string;
  completedCrop : option PixelCrop;
  referenceImage : option File;
  isStyleLocked : bool;
  designSeed : option Z
}.

(** The state of the first render. *)
Definition initialState : AppState :=
  mkApp [] (-1) "" true None None None "retouch" None None false None.

Definition setHistory v s :=
  mkApp v (historyIndex s) (prompt s) (isLoading s) (error s) (editHotspot s)
    (displayHotspot s) (activeTab s) (completedCrop s) (referenceImage s)
    (isStyleLocked s) (designSeed s).
Definition setHistoryIndex v s :=
  mkApp (history s) v (prompt s) (isLoading s) (error s) (editHotspot s)
    (displayHotspot s) (activeTab s) (completedCrop s) (referenceImage s)
    (isStyleLocked s) (designSeed s).
Definition setPrompt v s :=
  mkApp (history s) (historyIndex s) v (isLoading s) (error s) (editHotspot s)
    (displayHotspot s) (activeTab s) (completedCrop s) (referenceImage s)
    (isStyleLocked s) (designSeed s).
Definition setIsLoading v s :=
  mkApp (history s) (historyIndex s) (prompt s) v (error s) (editHotspot s)
    (displayHotspot s) (activeTab s) (completedCrop s) (referenceImage s)
    (isStyleLocked s) (designSeed s).
Definition setError v s :=
  mkApp (history s) (historyIndex s) (prompt s) (isLoading s) v (editHotspot s)
    (displayHotspot s) (activeTab s) (completedCrop s) (referenceImage s)
    (isStyleLocked s) (designSeed s).
Definition setEditHotspot v s :=
  mkApp (history s) (historyIndex s) (prompt s) (isLoading s) (error s) v
    (displayHotspot s) (activeTab s) (completedCrop s) (referenceImage s)
    (isStyleLocked s) (designSeed s).
Definition setDisplayHotspot v s :=
  mkApp (history s) (historyIndex s) (prompt s) (isLoading s) (error s)
    (editHotspot s) v (activeTab s) (completedCrop s) (referenceImage s)
    (isStyleLocked s) (designSeed s).
Definition setActiveTab v s :=
  mkApp (history s) (historyIndex s) (prompt s) (isLoading s) (error s)
    (editHotspot s) (displayHotspot s) v (completedCrop s) (referenceImage s)
    (isStyleLocked s) (designSeed s).
Definition setCompletedCrop v s :=
  mkApp (history s) (historyIndex s) (prompt s) (isLoading s) (error s)
    (editHotspot s) (displayHotspot s) (activeTab s) v (referenceImage s)
    (isStyleLocked s) (designSeed s).
Definition setReferenceImage v s :=
  mkApp (history s) (historyIndex s) (prompt s) (isLoading s) (error s)
    (editHotspot s) (displayHotspot s) (activeTab s) (completedCrop s) v
    (isStyleLocked s) (designSeed s).
Definition setIsStyleLocked v s :=
  mkApp (history s) (historyIndex s) (prompt s) (isLoading s) (error s)
    (editHotspot s) (displayHotspot s) (activeTab s) (completedCrop s)
    (referenceImage s) v (designSeed s).
Definition setDesignSeed v s :=
  mkApp (history s) (historyIndex s) (prompt s) (isLoading s) (error s)
    (editHotspot s) (displayHotspot s) (activeTab s) (completedCrop s)
    (referenceImage s) (isStyleLocked s) v.

(** Updates are written in the order of the source: [s |> f |> g]. *)
Notation "s |> f" := (f s) (at level 45, left associativity, only parsing).

Definition len (s : AppState) : Z := Z.of_nat (List.length (history s)).

(** [const currentImage = history[historyIndex] ?? null] *)
Definition currentImage (s : AppState) : option File :=
  JS.index (history s) (historyIndex s).

(** [const originalImage = history[0] ?? null] *)
Definition originalImage (s : AppState) : option File :=
  JS.index (history s) 0.

Definition canUndo (s : AppState) : bool := 0 <? historyIndex s.
Definition canRedo (s : AppState) : bool := historyIndex s <? len s - 1.

(** ** Edit History Store *)

(** [addImageToHistory(newImageFile)].  The callback reads [history] and
    [historyIndex] of the render that created it ([h] and [i]); its
    updates are applied to the state [s] that is current when it runs. *)
Definition addImageToHistory (h : list File) (i : Z) (newImageFile : File)
    (s : AppState) : AppState :=
  let newHistory := JS.slice h 0 (Some (i + 1)) ++ [newImageFile] in
  s |> setHistory newHistory
    |> setHistoryIndex (Z.of_nat (List.length newHistory) - 1)
    |> setCompletedCrop None.

(** The callback of the current render. *)
Definition commit (f : File) (s : AppState) : AppState :=
  addImageToHistory (history s) (historyIndex s) f s.

Definition handleImageUpload (file : File) (s : AppState) : AppState :=
  s |> setError None |> setHistory [file] |> setHistoryIndex 0
    |> setEditHotspot None |> setDisplayHotspot None
    |> setActiveTab "retouch" |> setCompletedCrop None
    |> setReferenceImage None |> setIsStyleLocked false
    |> setDesignSeed None.

Definition handleSetReferenceImage (file : option File) (s : AppState)
    : AppState :=
  s |> setReferenceImage file |> setDesignSeed None.

Definition handleHistoryStepClick (index : Z) (s : AppState) : AppState :=
  if (0 <=? index) && (index <? len s) then
    s |> setHistoryIndex index |> setEditHotspot None
      |> setDisplayHotspot None |> setCompletedCrop None
  else s.

Definition handleUndo (s : AppState) : AppState :=
  if canUndo s then handleHistoryStepClick (historyIndex s - 1) s else s.

Definition handleRedo (s : AppState) : AppState :=
  if canRedo s then handleHistoryStepClick (historyIndex s + 1) s else s.

Definition handleReset (s : AppState) : AppState :=
  if 0 <? len s then handleHistoryStepClick 0 s |> setError None else s.

Definition handleUploadNew (s : AppState) : AppState :=
  s |> setHistory [] |> setHistoryIndex (-1) |> setError None
    |> setPrompt "" |> setEditHotspot None |> setDisplayHotspot None
    |> setIsStyleLocked false |> setDesignSeed None.

(** ** services/geminiService.ts: the response of the model *)

Module Service.

(** The fields of [GenerateContentResponse] that [handleApiResponse]
    reads; [None] stands for an absent (undefined) property. *)
Record InlineData := mkInline {
  mimeType : option string;
  data : option string
}.

Record Part := mkPart { inlineData : option InlineData }.

Record Candidate := mkCandidate {
  parts : option (list Part);            (* content?.parts *)
  finishReason : option string
}.

Record GenerateContentResponse := mkResponse {
  blockReason : option string;           (* promptFeedback?.blockReason *)
  blockReasonMessage : option string;
  candidates : list Candidate;
  text : option string
}.

Definition truthy_opt (o : option string) : bool :=
  match o with Some s => JS.truthy s | None => false end.

(** A value interpolated in a template literal. *)
Definition interpolate (o : option string) : string :=
  match o with Some s => s | None => "undefined" end.

Definition dquote : string := String (ascii_of_nat 34) EmptyString.

Definition concat (l : list string) : string :=
  fold_right String.append EmptyString l.

(** [response.candidates?.[0]?.content?.parts?.find(part => part.inlineData)] *)
Definition imagePartFromResponse (response : GenerateContentResponse)
    : option InlineData :=
  match candidates response with
  | c :: _ =>
      match parts c with
      | Some ps =>
          match find (fun p => match inlineData p with
                               | Some _ => true | None => false end) ps with
          | Some p => inlineData p
          | None => None
          end
      | None => None
      end
  | [] => None
  end.

Definition blocked_message (reason : string) (msg : option string) : string :=
  concat ["Request was blocked. Reason: "; reason; ". ";
          if truthy_opt msg then interpolate msg else ""].

Definition stopped_message (context reason : string) : string :=
  concat ["Image generation for "; context;
          " stopped unexpectedly. Reason: "; reason;
          ". This often relates to safety settings."].

Definition no_image_message (context : string) (txt : option string)
    : string :=
  let textFeedback := option_map JS.trim txt in
  concat ["The AI model did not return an image for the "; context; ". ";
          if truthy_opt textFeedback
          then concat ["The model responded with text: "; dquote;
                       interpolate textFeedback; dquote]
          else "This can happen due to safety filters or if the request is too complex. Please try rephrasing your prompt to be more direct."].

(** [handleApiResponse(response, context)]: the data URL of the image,
    or the [Error] it throws. *)
Definition handleApiResponse (response : GenerateContentResponse)
    (context : string) : result string :=
  if truthy_opt (blockReason response) then
    Throw (ErrorObj PlainError
             (blocked_message (interpolate (blockReason response))
                              (blockReasonMessage response)))
  else
    match imagePartFromResponse response with
    | Some img =>
        Ok (concat ["data:"; interpolate (mimeType img); ";base64,";
                    interpolate (data img)])
    | None =>
        let reason := match candidates response with
                      | c :: _ => finishReason c
                      | [] => None
                      end in
        if truthy_opt reason
           && negb (String.eqb (interpolate reason) "STOP")
        then Throw (ErrorObj PlainError
                      (stopped_message context (interpolate reason)))
        else Throw (ErrorObj PlainError
                      (no_image_message context (text response)))
    end.

(** The three failures of the generation contract. *)
Inductive Failure := Blocked | AbnormalStop | NoImage.

Definition classify (response : GenerateContentResponse) : option Failure :=
  if truthy_opt (blockReason response) then Some Blocked
  else match imagePartFromResponse response with
       | Some _ => None
       | None =>
           match candidates response with
           | c :: _ =>
               if truthy_opt (finishReason c)
                  && negb (String.eqb (interpolate (finishReason c)) "STOP")
               then Some AbnormalStop else Some NoImage
           | [] => Some NoImage
           end
       end.

(** The message thrown for each failure. *)
Definition failure_message (response : GenerateContentResponse)
    (context : string) (f : Failure) : string :=
  match f with
  | Blocked =>
      blocked_message (interpolate (blockReason response))
                      (blockReasonMessage response)
  | AbnormalStop =>
      stopped_message context
        (interpolate match candidates response with
                     | c :: _ => finishReason c
                     | [] => None
                     end)
  | NoImage => no_image_message context (text response)
  end.

End Service.

(** ** Edit Orchestrator *)

Inductive TryOnDetails :=
| TryOnPrompt (prompt : string)
| TryOnGarment (garmentImage : File).

(** A call of one of the generation functions of the service, with its
    arguments. *)
Inductive Request :=
| generateEditedImage (originalImage : File) (userPrompt : string)
    (hotspot : Hotspot)
| generateFilteredImage (originalImage : File) (filterPrompt : string)
| generateAdjustedImage (originalImage : File) (adjustmentPrompt : string)
| generateVirtualTryOnImage (originalImage : File) (hotspot : Hotspot)
    (editDetails : TryOnDetails)
| generateStyledImage (targetImage referenceImage : File)
    (textPrompt : string) (seed : option Z)
| generatePersonaImage (originalImage : File) (personaPrompt : string).

(** The [context] each service function passes to [handleApiResponse];
    [generatePersonaImage] is not part of the service file at hand. *)
Definition context_of (r : Request) : option string :=
  match r with
  | generateEditedImage _ _ _ => Some "edit"
  | generateFilteredImage _ _ => Some "filter"
  | generateAdjustedImage _ _ => Some "adjustment"
  | generateVirtualTryOnImage _ _ _ => Some "try-on"
  | generateStyledImage _ _ _ _ => Some "design style"
  | generatePersonaImage _ _ => None
  end.

(** [if (seed) { config.seed = seed; }] in [generateStyledImage]. *)
Definition config_seed (seed : option Z) : option Z :=
  match seed with
  | Some n => if n =? 0 then None else Some n
  | None => None
  end.

(** The name prefix of the new file, the text put in front of the error
    message, and whether the hotspot is cleared after a commit. *)
Definition file_prefix (r : Request) : string :=
  match r with
  | generateEditedImage _ _ _ => "edited-"
  | generateFilteredImage _ _ => "filtered-"
  | generateAdjustedImage _ _ => "adjusted-"
  | generateVirtualTryOnImage _ _ _ => "tryon-"
  | generateStyledImage _ _ _ _ => "styled-"
  | generatePersonaImage _ _ => "persona-"
  end.

Definition failure_prefix (r : Request) : string :=
  match r with
  | generateEditedImage _ _ _ => "Failed to generate the image. "
  | generateFilteredImage _ _ => "Failed to apply the filter. "
  | generateAdjustedImage _ _ => "Failed to apply the adjustment. "
  | generateVirtualTryOnImage _ _ _ => "Failed to generate the image. "
  | generateStyledImage _ _ _ _ => "Failed to apply the style. "
  | generatePersonaImage _ _ => "Failed to generate the persona image. "
  end.

Definition clears_hotspot (r : Request) : bool :=
  match r with
  | generateEditedImage _ _ _ | generateVirtualTryOnImage _ _ _ => true
  | _ => false
  end.

(** A handler suspended at its [await]: the call it made and the
    [history] and [historyIndex] its [addImageToHistory] closed over. *)
Record Pending := mkPending {
  request : Request;
  seen_history : list File;
  seen_index : Z
}.

(** What a handler did when it was invoked. *)
Inductive Outcome :=
| Returned (s : AppState)
| Awaiting (s : AppState) (p : Pending).

Definition state_of (o : Outcome) : AppState :=
  match o with Returned s => s | Awaiting s _ => s end.

Definition call_of (o : Outcome) : option Request :=
  match o with Returned _ => None | Awaiting _ p => Some (request p) end.

(** [setIsLoading(true); setError(null); try { await ... ] *)
Definition start (r : Request) (s : AppState) : Outcome :=
  Awaiting (s |> setIsLoading true |> setError None)
           (mkPending r (history s) (historyIndex s)).

Definition handleGenerate (s : AppState) : Outcome :=
  match currentImage s with
  | None => Returned (setError (Some "No image loaded to edit.") s)
  | Some img =>
      if negb (JS.truthy (JS.trim (prompt s))) then
        Returned (setError (Some "Please enter a description for your edit.") s)
      else
        match editHotspot s with
        | None =>
            Returned (setError
              (Some "Please click on the image to select an area to edit.") s)
        | Some spot => start (generateEditedImage img (prompt s) spot) s
        end
  end.

Definition handleApplyFilter (filterPrompt : string) (s : AppState) : Outcome :=
  match currentImage s with
  | None => Returned (setError (Some "No image loaded to apply a filter to.") s)
  | Some img => start (generateFilteredImage img filterPrompt) s
  end.

Definition handleApplyAdjustment (adjustmentPrompt : string) (s : AppState)
    : Outcome :=
  match currentImage s with
  | None =>
      Returned (setError (Some "No image loaded to apply an adjustment to.") s)
  | Some img => start (generateAdjustedImage img adjustmentPrompt) s
  end.

Definition handleApplyTryOn (details : TryOnDetails) (s : AppState) : Outcome :=
  match currentImage s with
  | None => Returned (setError (Some "No image loaded to edit.") s)
  | Some img =>
      match editHotspot s with
      | None =>
          Returned (setError (Some
            "Please click on the clothing in the image to select an area to replace.") s)
      | Some spot => start (generateVirtualTryOnImage img spot details) s
      end
  end.

(** [random] is the value of [Math.floor(Math.random() * 1_000_000_000)],
    should the handler draw it. *)
Definition handleApplyStyle (stylePrompt : string) (random : Z) (s : AppState)
    : Outcome :=
  match currentImage s with
  | None => Returned (setError (Some "No target image loaded.") s)
  | Some img =>
      match referenceImage s with
      | None =>
          Returned (setError (Some "Please upload a style reference image.") s)
      | Some ref =>
          let fresh := (Some random, setDesignSeed (Some random) s) in
          let '(seedToUse, s1) :=
            if isStyleLocked s then
              match designSeed s with
              | Some seed =>                         (* if (designSeed) *)
                  if seed =? 0 then fresh else (Some seed, s)
              | None => fresh
              end
            else (None, setDesignSeed None s) in
          Awaiting (s1 |> setIsLoading true |> setError None)
            (mkPending (generateStyledImage img ref stylePrompt seedToUse)
                       (history s) (historyIndex s))
      end
  end.

Definition handleGeneratePersona (personaPrompt : string) (s : AppState)
    : Outcome :=
  match currentImage s with
  | None => Returned (setError (Some "No identity image loaded.") s)
  | Some img => start (generatePersonaImage img personaPrompt) s
  end.

(** [`edited-${Date.now()}.png`] and its siblings. *)
Definition filename (r : Request) (now : Z) : string :=
  (file_prefix r ++ JS.decimal (Z.to_nat now) ++ ".png")%string.

(** The rest of a handler, run when its promise settles at time [now]
    ([Date.now()]) with [outcome]: the [try] body after the [await], the
    [catch] and the [finally]. *)
Definition settle (p : Pending) (now : Z) (outcome : result string)
    (s : AppState) : AppState :=
  let r := request p in
  match url <- outcome ;; dataURLtoFile url (filename r now) with
  | Ok newImageFile =>
      let s1 := addImageToHistory (seen_history p) (seen_index p)
                  newImageFile s in
      let s2 := if clears_hotspot r
                then s1 |> setEditHotspot None |> setDisplayHotspot None
                else s1 in
      setIsLoading false s2
  | Throw err =>
      s |> setError (Some (failure_prefix r ++ errorMessage err)%string)
        |> setIsLoading false
  end.

(** [handleApplyCrop]: [imgRef] tells whether [imgRef.current] is set,
    [canvas] is the [toDataURL('image/png')] of the drawn canvas, [None]
    when no 2d context could be obtained.  A throw of [dataURLtoFile] is
    not caught by the handler. *)
Definition handleApplyCrop (imgRef : bool) (canvas : option string) (now : Z)
    (s : AppState) : result AppState :=
  match completedCrop s, imgRef with
  | Some _, true =>
      match canvas with
      | None => Ok (setError (Some "Could not process the crop.") s)
      | Some croppedImageUrl =>
          newImageFile <- dataURLtoFile croppedImageUrl
            ("cropped-" ++ JS.decimal (Z.to_nat now) ++ ".png")%string ;;
          Ok (commit newImageFile s)
      end
  | _, _ => Ok (setError (Some "Please select an area to crop.") s)
  end.

(** ** Session Persistence Manager *)

Module Persist.

(** A value produced by [JSON.parse] (numbers: the integers; the keys
    of an object are distinct). *)
Inductive value :=
| JNull
| JBool (b : bool)
| JNum (n : Z)
| JStr (s : string)
| JArr (elements : list value)
| JObj (fields : list (string * value)).

(** The text stored under the key ['oomify-autosave'], told apart by
    what the restore effect can observe of it: the empty string (which
    is falsy), a text [JSON.parse] rejects, or a text it parses to [v].
    [JSON.stringify] of a value made of strings, integers, arrays and
    plain objects is a text that parses to that value. *)
Inductive Item :=
| EmptyText
| Unparseable
| Json (v : value).

(** [localStorage], restricted to that key; [None]: no such key. *)
Definition Storage := option Item.

Definition syntax_error : Thrown :=
  ErrorObj PlainError "Unexpected token in JSON".

Definition type_error : Thrown :=
  ErrorObj TypeErrorC "Cannot read properties of null".

Definition not_a_function : Thrown :=
  ErrorObj TypeErrorC "dataurl.split is not a function".

Fixpoint assoc (k : string) (fields : list (string * value)) : option value :=
  match fields with
  | [] => None
  | (k', v) :: r => if String.eqb k k' then Some v else assoc k r
  end.

(** [v.k] for one of the keys the code reads ([history],
    [historyIndex], [prompt], [activeTab]): [None] is undefined; reading
    a property of null throws. *)
Definition get (v : value) (k : string) : result (option value) :=
  match v with
  | JNull => Throw type_error
  | JObj fields => Ok (assoc k fields)
  | _ => Ok None
  end.

(** [x ?? d] *)
Definition nullish (x : option value) (d : value) : value :=
  match x with
  | None | Some JNull => d
  | Some v => v
  end.

(** [dataURLtoFile] applied to an element of the parsed array: only a
    string has a [split] method. *)
Definition decode (dataUrl : value) (index : nat) : result File :=
  match dataUrl with
  | JStr s =>
      dataURLtoFile s ("saved-image-" ++ JS.decimal index ++ ".png")%string
  | JNull => Throw type_error
  | _ => Throw not_a_function
  end.

(** [savedState.history.map((dataUrl, index) => ...)], from [index]. *)
Fixpoint decode_all (l : list value) (index : nat) : result (list File) :=
  match l with
  | [] => Ok []
  | d :: r =>
      f <- decode d index ;;
      fs <- decode_all r (S index) ;;
      Ok (f :: fs)
  end.

(** What the restore effect does with the stored text. *)
Inductive Restoration :=
| Nothing                       (* no state is set *)
| Caught (e : Thrown)           (* the catch clause ran *)
| Install (historyFiles : list File) (index prompt tab : value).

(** The body of the [try]. *)
Definition restore_parsed (savedState : value) : result Restoration :=
  h <- get savedState "history" ;;
  match h with
  | Some (JArr urls) =>
      historyFiles <- decode_all urls 0 ;;
      i <- get savedState "historyIndex" ;;
      p <- get savedState "prompt" ;;
      t <- get savedState "activeTab" ;;
      Ok (Install historyFiles (nullish i (JNum (-1)))
            (nullish p (JStr "")) (nullish t (JStr "retouch")))
  | _ => Ok Nothing
  end.

Definition restore (ls : Storage) : Restoration :=
  match ls with
  | None | Some EmptyText => Nothing
  | Some Unparseable => Caught syntax_error
  | Some (Json savedState) =>
      match restore_parsed savedState with
      | Ok r => r
      | Throw e => Caught e
      end
  end.

(** The mount effect: the state and the storage after it ran.
    [restore] gives what the effect installs for every record.  The
    cells of [AppState] are typed: where the record holds for
    [historyIndex] a value that is no number, or for [prompt] or
    [activeTab] one that is no string, the code sets the cell to that
    value, which no [AppState] represents; [mount] is [None] there, and
    the statements on the page either assume a record with cells of the
    right types or are about [restore]. *)
Definition mount (s : AppState) (ls : Storage) : option (AppState * Storage) :=
  match restore ls with
  | Nothing => Some (setIsLoading false s, ls)
  | Caught _ => Some (setIsLoading false s, None)   (* removeItem *)
  | Install historyFiles (JNum i) (JStr p) (JStr t) =>
      Some (s |> setHistory historyFiles |> setHistoryIndex i
              |> setPrompt p |> setActiveTab t |> setIsLoading false, ls)
  | Install _ _ _ _ => None
  end.

(** The browser at the time of a save: the promise of
    [createImageThumbnail(file)] (it resolves with the JPEG data URL of
    the scaled canvas, or rejects), and what [localStorage.setItem]
    throws for a record, if anything. *)
Record Browser := mkBrowser {
  createImageThumbnail : File -> result string;
  setItem_throws : value -> option Thrown
}.

Definition MAX_HISTORY_AUTOSAVE : Z := 5.

(** [Promise.all(historyToSave.map(file => createImageThumbnail(file)))] *)
Fixpoint thumbnails (b : Browser) (l : list File) : result (list string) :=
  match l with
  | [] => Ok []
  | f :: r =>
      u <- createImageThumbnail b f ;;
      us <- thumbnails b r ;;
      Ok (u :: us)
  end.

Definition historyToSave (s : AppState) : list File :=
  JS.slice (history s) (- MAX_HISTORY_AUTOSAVE) None.

Definition truncatedCount (s : AppState) : Z :=
  len s - Z.of_nat (List.length (historyToSave s)).

Definition historyIndexToSave (s : AppState) : Z :=
  Z.max 0 (historyIndex s - truncatedCount s).

Definition stateToSave (s : AppState) (historyDataUrls : list string) : value :=
  JObj [("history", JArr (map JStr historyDataUrls));
        ("historyIndex", JNum (historyIndexToSave s));
        ("prompt", JStr (prompt s));
        ("activeTab", JStr (activeTab s))].

(** [error instanceof DOMException && (error.name === ... )] *)
Definition is_quota_error (e : Thrown) : bool :=
  match e with
  | ErrorObj (DOMExceptionC name) _ =>
      String.eqb name "QuotaExceededError"
      || String.eqb name "NS_ERROR_DOM_QUOTA_REACHED"
  | _ => false
  end.

(** The body of the [try] of [saveData]: the storage after it, or what
    was thrown. *)
Definition save_try (b : Browser) (s : AppState) (ls : Storage)
    : result Storage :=
  historyDataUrls <- thumbnails b (historyToSave s) ;;
  let record := stateToSave s historyDataUrls in
  match setItem_throws b record with
  | Some e => Throw e
  | None => Ok (Some (Json record))
  end.

Definition removeItem (ls : Storage) : Storage := None.

(** The [catch] clause of [saveData]. *)
Definition save_catch (error : Thrown) (ls : Storage) : result Storage :=
  if is_quota_error error then Ok (removeItem ls) else Ok ls.

(** [saveData()]: the storage when its promise is fulfilled, or the
    reason of its rejection.  The callback is the one of the current
    render; its awaits are taken in one step. *)
Definition saveData (b : Browser) (s : AppState) (ls : Storage)
    : result Storage :=
  if 0 <? len s then
    match save_try b s ls with
    | Ok ls' => Ok ls'
    | Throw error => save_catch error ls
    end
  else Ok (removeItem ls).

End Persist.

(** ** The view: which controls are rendered and enabled *)

Inductive Screen := SpinnerScreen | ErrorScreen | StartScreen | EditorScreen.

(** [renderContent()]: which of the four views is shown.  The object
    URL [currentImageUrl] is set from [currentImage] by an effect and is
    null exactly when [currentImage] is. *)
Definition renderContent (s : AppState) : Screen :=
  if isLoading s && (len s =? 0) then SpinnerScreen
  else match error s with
       | Some _ => ErrorScreen
       | None => match currentImage s with
                 | None => StartScreen
                 | Some _ => EditorScreen
                 end
       end.

Definition tabs : list string :=
  ["retouch"; "try-on"; "design"; "persona"; "crop"; "adjust"; "filters"].

(** The controls of the page that reach the state of [App], with the
    data the browser or the panel hands over when they are used. *)
Inductive Control :=
| Logo                                        (* Header and Footer *)
| TryAgain
| FileSelect (file : File)                    (* StartScreen *)
| TabButton (tab : string)
| ImageClick (display edit : Hotspot)
| PromptInput (text : string)
| GenerateButton                              (* retouch form *)
| TryOnButton (details : TryOnDetails)
| ReferenceInput (file : File)
| LockSwitch (locked : bool)
| StyleButton (stylePrompt : string) (random : Z)
| PersonaButton (personaPrompt : string)
| CropComplete (c : PixelCrop)
| CropButton (canvas : option string) (now : Z)
| AdjustButton (adjustmentPrompt : string)
| FilterButton (filterPrompt : string)
| HistoryThumb (index : Z)
| UndoButton
| RedoButton
| ResetButton
| UploadNewButton
| DownloadButton.

Definition on_tab (t : string) (s : AppState) : bool :=
  String.eqb (activeTab s) t.

Definition has {A} (o : option A) : bool :=
  match o with Some _ => true | None => false end.

(** [!!completedCrop?.width && completedCrop.width > 0] *)
Definition isCropping (s : AppState) : bool :=
  match completedCrop s with
  | Some c => 0 <? crop_width c
  | None => false
  end.

Section View.

(** components/FilterPanel.tsx is not among the sources: whether its
    apply control is enabled is a function of the [isLoading] prop it
    is given. *)
Variable FilterPanel_enabled : bool -> bool.

(** Whether the control is on the page and not disabled. *)
Definition enabled (s : AppState) (c : Control) : bool :=
  match c with
  | Logo => true
  | TryAgain =>
      match renderContent s with ErrorScreen => true | _ => false end
  | FileSelect _ =>
      match renderContent s with StartScreen => true | _ => false end
  | _ =>
      match renderContent s with
      | EditorScreen =>
          match c with
          | TabButton t => existsb (String.eqb t) tabs
          | ImageClick _ _ => negb (on_tab "crop" s)
          | PromptInput _ =>
              on_tab "retouch" s
              && negb (isLoading s || negb (has (editHotspot s)))
          | GenerateButton =>
              on_tab "retouch" s
              && negb (isLoading s || negb (JS.truthy (JS.trim (prompt s)))
                       || negb (has (editHotspot s)))
          | TryOnButton d =>
              on_tab "try-on" s
              && (has (editHotspot s) && negb (isLoading s)
                  && match d with
                     | TryOnPrompt p => JS.truthy (JS.trim p)
                     | TryOnGarment _ => true
                     end)
          | ReferenceInput _ => on_tab "design" s
          | LockSwitch _ => on_tab "design" s && negb (isLoading s)
          | StyleButton _ random =>      (* random: what Math.floor yields *)
              on_tab "design" s
              && (negb (isLoading s) && has (referenceImage s))
              && (0 <=? random) && (random <? 1000000000)
          | PersonaButton _ => on_tab "persona" s && negb (isLoading s)
          | CropComplete _ => on_tab "crop" s
          | CropButton _ _ =>
              on_tab "crop" s && negb (isLoading s || negb (isCropping s))
          | AdjustButton p =>
              on_tab "adjust" s && negb (isLoading s) && JS.truthy p
          | FilterButton _ =>
              on_tab "filters" s && FilterPanel_enabled (isLoading s)
          | HistoryThumb i =>            (* historyThumbUrls.length > 1 *)
              (1 <? len s) && (0 <=? i) && (i <? len s)
          | UndoButton => canUndo s              (* disabled={!canUndo} *)
          | RedoButton => canRedo s              (* disabled={!canRedo} *)
          | ResetButton => canUndo s             (* disabled={!canUndo} *)
          | UploadNewButton => true
          | DownloadButton => true
          | _ => false
          end
      | _ => false
      end
  end.

(** [handleImageClick] *)
Definition handleImageClick (display edit : Hotspot) (s : AppState)
    : AppState :=
  if negb (on_tab "retouch" s) && negb (on_tab "try-on" s) then s
  else s |> setDisplayHotspot (Some display) |> setEditHotspot (Some edit).

(** The handler behind each control. *)
Definition handler (c : Control) (s : AppState) : Outcome :=
  match c with
  | Logo | UploadNewButton => Returned (handleUploadNew s)
  | TryAgain => Returned (setError None s)
  | FileSelect file => Returned (handleImageUpload file s)
  | TabButton t => Returned (setActiveTab t s)
  | ImageClick d e => Returned (handleImageClick d e s)
  | PromptInput t => Returned (setPrompt t s)
  | GenerateButton => handleGenerate s
  | TryOnButton d => handleApplyTryOn d s
  | ReferenceInput f => Returned (handleSetReferenceImage (Some f) s)
  | LockSwitch b => Returned (setIsStyleLocked b s)
  | StyleButton p random => handleApplyStyle p random s
  | PersonaButton p => handleGeneratePersona p s
  | CropComplete c => Returned (setCompletedCrop (Some c) s)
  | CropButton canvas now =>           (* the image is on the page *)
      match handleApplyCrop true canvas now s with
      | Ok s' => Returned s'
      | Throw _ => Returned s
      end
  | AdjustButton p => handleApplyAdjustment p s
  | FilterButton p => handleApplyFilter p s
  | HistoryThumb i => Returned (handleHistoryStepClick i s)
  | UndoButton => Returned (handleUndo s)
  | RedoButton => Returned (handleRedo s)
  | ResetButton => Returned (handleReset s)
  | DownloadButton => Returned s
  end.

(** ** The page as a transition system *)

(** The component state, the handlers suspended at an [await], the
    storage, whether the mount effect has run, and (for the statements
    only) the file of the last upload, or what [boot] was given while
    there was none. *)
Record World := mkWorld {
  app : AppState;
  inflight : list Pending;
  storage : Persist.Storage;
  mounted : bool;
  uploaded : option File
}.

Inductive Event :=
| Mount
| Use (c : Control)
| Settled (n : nat) (now : Z) (outcome : result string)
| Autosave (b : Persist.Browser)
| Reload.

(** The page just loaded, before its effects ran. *)
Definition boot (ls : Persist.Storage) (up : option File) : World :=
  mkWorld initialState [] ls false up.

Fixpoint remove_nth {A} (n : nat) (l : list A) : list A :=
  match n, l with
  | _, [] => []
  | O, _ :: r => r
  | S n, x :: r => x :: remove_nth n r
  end.

Definition step (w : World) (e : Event) : World :=
  match e with
  | Mount =>
      if mounted w then w
      else match Persist.mount (app w) (storage w) with
           | Some (s, ls) => mkWorld s (inflight w) ls true (uploaded w)
           | None => w
           end
  | Use c =>
      if mounted w && enabled (app w) c then
        let up := match c with
                  | FileSelect f => Some f
                  | _ => uploaded w
                  end in
        match handler c (app w) with
        | Returned s => mkWorld s (inflight w) (storage w) true up
        | Awaiting s p =>
            mkWorld s (inflight w ++ [p]) (storage w) true up
        end
      else w
  | Settled n now outcome =>
      match nth_error (inflight w) n with
      | Some p =>
          mkWorld (settle p now outcome (app w))
                  (remove_nth n (inflight w)) (storage w) (mounted w)
                  (uploaded w)
      | None => w
      end
  | Autosave b =>
      if mounted w then
        match Persist.saveData b (app w) (storage w) with
        | Ok ls => mkWorld (app w) (inflight w) ls true (uploaded w)
        | Throw _ => w
        end
      else w
  | Reload => boot (storage w) (uploaded w)
  end.

Definition run (w : World) (es : list Event) : World :=
  fold_left step es w.

End View.

(** ** Sequences of history operations *)

Module History.

(** The operations on a loaded history. *)
Inductive Op :=
| OpCommit (next : File)
| OpUndo
| OpRedo
| OpJumpTo (index : Z)
| OpReset.

Definition apply (s : AppState) (o : Op) : AppState :=
  match o with
  | OpCommit f => commit f s
  | OpUndo => handleUndo s
  | OpRedo => handleRedo s
  | OpJumpTo i => handleHistoryStepClick i s
  | OpReset => handleReset s
  end.

Definition apply_all (s : AppState) (ops : list Op) : AppState :=
  fold_left apply ops s.

(** The cursor points into a non-empty history. *)
Definition cursor_ok (s : AppState) : Prop :=
  history s <> [] /\ 0 <= historyIndex s < len s.

End History.

(** ** Saved records that cannot be restored *)

(** The stored records from which the restore effect installs nothing:
    no record, a text that does not parse, a parsed value without an
    array under [history], or an array with an entry that does not decode
    to a file. *)
Inductive Unusable : Persist.Storage -> Prop :=
| unusable_absent : Unusable None
| unusable_empty : Unusable (Some Persist.EmptyText)
| unusable_unparseable : Unusable (Some Persist.Unparseable)
| unusable_no_history (v : Persist.value) :
    (forall urls,
        Persist.get v "history" <> Ok (Some (Persist.JArr urls))) ->
    Unusable (Some (Persist.Json v))
| unusable_undecodable (v : Persist.value) urls e :
    Persist.get v "history" = Ok (Some (Persist.JArr urls)) ->
    Persist.decode_all urls 0 = Throw e ->
    Unusable (Some (Persist.Json v)).

(** ** Data of the worked examples *)

Definition imgA : File := mkFile "a.png" "image/png" "A".
Definition imgB : File := mkFile "b.png" "image/png" "B".
Definition imgC : File := mkFile "c.png" "image/png" "C".
Definition imgD : File := mkFile "d.png" "image/png" "D".
Definition imgE : File := mkFile "e.png" "image/png" "E".
Definition imgF : File := mkFile "f.png" "image/png" "F".
Definition imgG : File := mkFile "g.png" "image/png" "G".

(** A browser whose canvas turns a file into a JPEG data URL that
    carries the first byte of the file, and whose storage has room. *)
Definition roomy : Persist.Browser :=
  Persist.mkBrowser
    (fun f =>
       Ok ("data:image/jpeg;base64,"
           ++ match file_bytes f with
              | String c _ =>
                  if Ascii.eqb c "A" then "QQ=="
                  else if Ascii.eqb c "B" then "Qg=="
                  else if Ascii.eqb c "C" then "Qw=="
                  else if Ascii.eqb c "D" then "RA=="
                  else if Ascii.eqb c "E" then "RQ=="
                  else if Ascii.eqb c "F" then "Rg=="
                  else if Ascii.eqb c "G" then "Rw=="
                  else "/9j/"
              | EmptyString => ""
              end)%string)
    (fun _ => None).

(** A browser whose storage is full. *)
Definition full : Persist.Browser :=
  Persist.mkBrowser
    (Persist.createImageThumbnail roomy)
    (fun _ => Some (ErrorObj (DOMExceptionC "QuotaExceededError")
                             "The quota has been exceeded.")).

(** Seven entries, the cursor on the last one. *)
Definition seven : AppState :=
  initialState |> setHistory [imgA; imgB; imgC; imgD; imgE; imgF; imgG]
               |> setHistoryIndex 6 |> setIsLoading false.

(** ** Reachable worlds and their invariants *)

(** The request an event starts, if any. *)
Definition started (FilterPanel_enabled : bool -> bool) (w : World)
    (e : Event) : option Request :=
  match e with
  | Use c =>
      if mounted w && enabled FilterPanel_enabled (app w) c
      then call_of (handler c (app w)) else None
  | _ => None
  end.

(** The controls that submit an edit request. *)
Definition is_submit (c : Control) : bool :=
  match c with
  | GenerateButton | TryOnButton _ | StyleButton _ _ | PersonaButton _
  | CropButton _ _ | AdjustButton _ | FilterButton _ => true
  | _ => false
  end.

(** All worlds: any stored text at the first visit, any number of
    visits. *)
Definition reachable (FilterPanel_enabled : bool -> bool) (w : World) : Prop :=
  exists ls es, w = run FilterPanel_enabled (boot ls None) es.

Definition session_event (e : Event) : bool :=
  match e with Reload => false | _ => true end.

(** At most one handler is suspended, and the loading flag is set while
    one is. *)
Definition single_flight (w : World) : Prop :=
  (mounted w = false -> inflight w = [])
  /\ match inflight w with
     | [] => True
     | [p] =>
         isLoading (app w) = true
         /\ 0 <= seen_index p < Z.of_nat (List.length (seen_history p))
     | _ => False
     end.

(** What a suspended handler closed over: a cursor inside its history,
    whose first entry is the file that began the history. *)
Definition pending_ok (up : option File) (p : Pending) : Prop :=
  0 <= seen_index p < Z.of_nat (List.length (seen_history p))
  /\ hd_error (seen_history p) = up.

(** ** Style lock *)

Definition seed_of (r : option Request) : option (option Z) :=
  match r with
  | Some (generateStyledImage _ _ _ seed) => Some seed
  | _ => None
  end.

(** Events that leave the reference image alone, start no new session
    and make no style request while the lock is off. *)
Definition keeps_seed (s : AppState) (e : Event) : bool :=
  match e with
  | Reload => false
  | Use Logo | Use UploadNewButton | Use (FileSelect _)
  | Use (ReferenceInput _) => false
  | Use (StyleButton _ _) => isStyleLocked s
  | _ => true
  end.

Fixpoint seed_kept (FilterPanel_enabled : bool -> bool) (w : World)
    (es : list Event) : bool :=
  match es with
  | [] => true
  | e :: r =>
      keeps_seed (app w) e
      && seed_kept FilterPanel_enabled (step FilterPanel_enabled w e) r
  end.

(** A filter request pending on the upload [imgA]. *)
Definition filtering : World :=
  run negb (boot None None)
    [Mount; Use (FileSelect imgA); Use (TabButton "filters");
     Use (FilterButton "vintage")].

(** A response without image part that stopped for safety, one blocked
    at the prompt, and one that only holds text. *)
Definition stopped_response : Service.GenerateContentResponse :=
  Service.mkResponse None None
    [Service.mkCandidate (Some []) (Some "SAFETY")] None.

Definition blocked_response : Service.GenerateContentResponse :=
  Service.mkResponse (Some "PROHIBITED_CONTENT") None [] None.

Definition text_response : Service.GenerateContentResponse :=
  Service.mkResponse None None
    [Service.mkCandidate (Some [Service.mkPart None]) (Some "STOP")]
    (Some " I cannot edit this image. ").

(** One visit with an upload and six filter edits, the autosave, and a
    second visit. *)
Definition six_filters : list Event :=
  [Mount; Use (FileSelect imgA); Use (TabButton "filters");
   Use (FilterButton "b"); Settled 0 1 (Ok "data:image/png;base64,Qg==");
   Use (FilterButton "c"); Settled 0 2 (Ok "data:image/png;base64,Qw==");
   Use (FilterButton "d"); Settled 0 3 (Ok "data:image/png;base64,RA==");
   Use (FilterButton "e"); Settled 0 4 (Ok "data:image/png;base64,RQ==");
   Use (FilterButton "f"); Settled 0 5 (Ok "data:image/png;base64,Rg==");
   Use (FilterButton "g"); Settled 0 6 (Ok "data:image/png;base64,Rw==")].

Definition revisit : World :=
  run negb (boot None None) (six_filters ++ [Autosave roomy; Reload; Mount]).

(** Events that set or clear the reference image. *)
Definition changes_reference (e : Event) : bool :=
  match e with
  | Use (ReferenceInput _) | Use (FileSelect _) => true
  | _ => false
  end.

(** The upload [imgA] on the design tab, reference [imgB], lock on. *)
Definition designing : World :=
  run negb (boot None None)
    [Mount; Use (FileSelect imgA); Use (TabButton "design");
     Use (ReferenceInput imgB); Use (LockSwitch true)].

(** After a first locked request: its success, an unlocked request and
    its success, and the lock switched on again. *)
Definition unlocked_between : list Event :=
  [Settled 0 1 (Ok "data:image/png;base64,Qw==");
   Use (LockSwitch false);
   Use (StyleButton "" 5);
   Settled 0 2 (Ok "data:image/png;base64,RA==");
   Use (LockSwitch true)].

(** After a first locked request: Upload New while it is pending, its
    success, and the lock switched on again. *)
Definition upload_new_between : list Event :=
  [Use UploadNewButton;
   Settled 0 1 (Ok "data:image/png;base64,Qw==");
   Use (LockSwitch true)].

(** ** Stored records across visits *)

(** Nothing is restored from the stored record, or what the restore
    effect installs is a number for the cursor, inside the history when
    there are entries, and strings for the prompt and the tab. *)
Definition stored_in_range (ls : Persist.Storage) : Prop :=
  match Persist.restore ls with
  | Persist.Install files (Persist.JNum i) (Persist.JStr _) (Persist.JStr _) =>
      files <> [] -> 0 <= i < Z.of_nat (List.length files)
  | Persist.Install _ _ _ _ => False
  | _ => True
  end.

(** The cursor of a loaded history points into it, and so does the one
    of the stored record. *)
Definition cursor_kept (w : World) : Prop :=
  (history (app w) <> [] -> 0 <= historyIndex (app w) < len (app w))
  /\ stored_in_range (storage w).

(** ** The file that began the history *)

(** The first entry the restore effect installs from the stored record. *)
Definition restored_first (ls : Persist.Storage) : option File :=
  match Persist.restore ls with
  | Persist.Install files _ _ _ => hd_error files
  | _ => None
  end.

(** Nothing is restored from the stored record, or what the restore
    effect installs for the cursor is a number and for the prompt and
    the tab a string. *)
Definition stored_typed (ls : Persist.Storage) : Prop :=
  match Persist.restore ls with
  | Persist.Install _ (Persist.JNum _) (Persist.JStr _) (Persist.JStr _) =>
      True
  | Persist.Install _ _ _ _ => False
  | _ => True
  end.

(** The worlds of one visit of the page.  The visit began with no
    record, with a record from which nothing is restored, or with a
    restored session; [uploaded] starts as the first restored entry, and
    is the file of the last upload once there was one. *)
Definition in_visit (FilterPanel_enabled : bool -> bool) (w : World) : Prop :=
  exists ls es,
    stored_typed ls /\ forallb session_event es = true
    /\ w = run FilterPanel_enabled (boot ls (restored_first ls)) es.

Definition visit_ok (w : World) : Prop :=
  (mounted w = false ->
   app w = initialState /\ stored_typed (storage w)
   /\ restored_first (storage w) = uploaded w)
  /\ (history (app w) <> [] -> hd_error (history (app w)) = uploaded w)
  /\ (inflight w <> [] -> history (app w) <> [] ->
      0 <= historyIndex (app w) < len (app w))
  /\ Forall (pending_ok (uploaded w)) (inflight w).

(** The record the autosave writes for [seven] in the browser [roomy],
    and a visit that begins with it: the five entries are restored, a
    filter edit is committed, and the cursor is moved back twice. *)
Definition seven_saved : Persist.Storage :=
  Some (Persist.Json (Persist.stateToSave seven
    ["data:image/jpeg;base64,Qw=="; "data:image/jpeg;base64,RA==";
     "data:image/jpeg;base64,RQ=="; "data:image/jpeg;base64,Rg==";
     "data:image/jpeg;base64,Rw=="])).

Definition restored_edit : list Event :=
  [Mount; Use (TabButton "filters"); Use (FilterButton "vintage");
   Settled 0 1 (Ok "data:image/png;base64,Qg=="); Use UndoButton;
   Use UndoButton].

(** ** The image part of a request *)

(** [fileToPart(file)] of the service: [readAsDataURL] stands for the
    promise around the [FileReader], which resolves with the data URL of
    the file or rejects. *)
Definition fileToPart (readAsDataURL : File -> result string) (file : File)
    : result Service.InlineData :=
  dataUrl <- readAsDataURL file ;;
  let arr := JS.split "," dataUrl in
  if (List.length arr <? 2)%nat then Throw (ErrorObj PlainError "Invalid data URL")
  else
    match JS.match_mime (nth 0 arr EmptyString) with
    | None =>
        Throw (ErrorObj PlainError "Could not parse MIME type from data URL")
    | Some EmptyString =>
        Throw (ErrorObj PlainError "Could not parse MIME type from data URL")
    | Some mimeType =>
        Ok (Service.mkInline (Some mimeType) (Some (nth 1 arr EmptyString)))
    end.

(** A response whose only content is the given image part. *)
Definition image_response (img : Service.InlineData)
    : Service.GenerateContentResponse :=
  Service.mkResponse None None
    [Service.mkCandidate (Some [Service.mkPart (Some img)]) (Some "STOP")]
    None.

(** Characters that end the head of a data URL or its MIME type. *)
Definition mime_char (c : ascii) : bool :=
  negb (Ascii.eqb c ",") && negb (Ascii.eqb c ";")
  && negb (JS.is_line_terminator c).

Definition payload_char (c : ascii) : bool := negb (Ascii.eqb c ",").

(** ** Zoom and pan *)

Module Viewport.
Import QArith Qminmax.
Local Open Scope Q_scope.

(** The [zoom], [pan] and [isPanning] cells of [App] and the ref that
    holds the start of a drag.  Numbers are rationals: every zoom the
    handlers produce from 1 is a multiple of 0.5 between 1 and 5, on
    which doubles are exact; the rounding of the two divisions of
    [handlePanMouseMove] is not modelled. *)
Record View := mkView {
  zoom : Q;
  pan : Q * Q;
  isPanning : bool;
  panStartRef : Q * Q
}.

Definition MAX_ZOOM : Q := 5.
Definition MIN_ZOOM : Q := 1.
Definition ZOOM_STEP : Q := 0.5.

Definition initialView : View := mkView 1 (0, 0) false (0, 0).

Definition setZoom (z : Q) (v : View) : View :=
  mkView z (pan v) (isPanning v) (panStartRef v).

Definition setPan (p : Q * Q) (v : View) : View :=
  mkView (zoom v) p (isPanning v) (panStartRef v).

Definition setIsPanning (b : bool) (v : View) : View :=
  mkView (zoom v) (pan v) b (panStartRef v).

Definition resetZoomAndPan (v : View) : View :=
  setPan (0, 0) (setZoom 1 v).

Definition handleZoomIn (v : View) : View :=
  setZoom (Qmin (zoom v + ZOOM_STEP) MAX_ZOOM) v.

Definition handleZoomOut (v : View) : View :=
  let newZoom := Qmax (zoom v - ZOOM_STEP) MIN_ZOOM in
  if Qle_bool newZoom MIN_ZOOM then resetZoomAndPan v
  else setZoom newZoom v.

(** [zoom < MAX_ZOOM] and [zoom > MIN_ZOOM], the props of
    [ZoomControls]. *)
Definition canZoomIn (v : View) : bool := negb (Qle_bool MAX_ZOOM (zoom v)).
Definition canZoomOut (v : View) : bool := negb (Qle_bool (zoom v) MIN_ZOOM).

Definition handlePanMouseDown (clientX clientY : Q) (v : View) : View :=
  if Qle_bool (zoom v) 1 then v
  else mkView (zoom v) (pan v) true
         (clientX - fst (pan v), clientY - snd (pan v)).

(** [wrapper] and [image] are the client width and height of
    [imageWrapperRef.current] and [imgRef.current], [None] for a null
    ref. *)
Definition handlePanMouseMove (wrapper image : option (Q * Q))
    (clientX clientY : Q) (v : View) : View :=
  if negb (isPanning v) || Qle_bool (zoom v) 1 then v
  else
    match wrapper, image with
    | Some (wrapperWidth, wrapperHeight), Some (imageWidth, imageHeight) =>
        let scaledWidth := imageWidth * zoom v in
        let scaledHeight := imageHeight * zoom v in
        let overhangX := Qmax 0 ((scaledWidth - wrapperWidth) / 2) in
        let overhangY := Qmax 0 ((scaledHeight - wrapperHeight) / 2) in
        let minPanX := - overhangX / zoom v in
        let maxPanX := overhangX / zoom v in
        let minPanY := - overhangY / zoom v in
        let maxPanY := overhangY / zoom v in
        let newX := clientX - fst (panStartRef v) in
        let newY := clientY - snd (panStartRef v) in
        setPan (Qmax minPanX (Qmin maxPanX newX),
                Qmax minPanY (Qmin maxPanY newY)) v
    | _, _ => v
    end.

Definition handlePanMouseUp (v : View) : View := setIsPanning false v.

(** What is done to the view: the three buttons of [ZoomControls], the
    [resetZoomAndPan] of a history change, and the mouse on the image. *)
Inductive Gesture :=
| ZoomIn
| ZoomOut
| ResetView
| PanMouseDown (clientX clientY : Q)
| PanMouseMove (wrapper image : option (Q * Q)) (clientX clientY : Q)
| PanMouseUp.

Definition gesture (v : View) (g : Gesture) : View :=
  match g with
  | ZoomIn => handleZoomIn v
  | ZoomOut => handleZoomOut v
  | ResetView => resetZoomAndPan v
  | PanMouseDown x y => handlePanMouseDown x y v
  | PanMouseMove w i x y => handlePanMouseMove w i x y v
  | PanMouseUp => handlePanMouseUp v
  end.

Definition gestures (v : View) (gs : list Gesture) : View :=
  fold_left gesture gs v.

(** The zoom is one of 1, 1.5, ..., 5, and an image shown at 1x is not
    displaced. *)
Definition at_rest (v : View) : Prop :=
  (MIN_ZOOM <= zoom v <= MAX_ZOOM)
  /\ (exists k : Z, zoom v == inject_Z k * ZOOM_STEP)
  /\ (zoom v <= MIN_ZOOM -> pan v = (0, 0)).

End Viewport.

(** ** The panels of the editor *)

(** [String.prototype.toLowerCase] on code units below 256. *)
Definition toLowerCase (s : string) : string :=
  JS.of_chars
    (map (fun c =>
            let n := JS.code c in
            if ((65 <=? n) && (n <=? 90))
               || ((192 <=? n) && (n <=? 222) && negb (n =? 215))
            then ascii_of_nat (Z.to_nat (n + 32)) else c)
         (JS.chars s)).

(** [Array.prototype.join(sep)] on strings. *)
Fixpoint join (sep : string) (l : list string) : string :=
  match l with
  | [] => EmptyString
  | [x] => x
  | x :: r => (x ++ sep ++ join sep r)%string
  end.

Module AdjustmentPanel.

Record State := mkState {
  selectedPresetPrompt : option string;
  customPrompt : string;
  color : string
}.

Definition initial : State := mkState None "" "#7C5CFF".

Definition presets : list (string * string) :=
  [("Blur Background",
    "Apply a realistic depth-of-field effect, making the background blurry while keeping the main subject in sharp focus.");
   ("Enhance Details",
    "Slightly enhance the sharpness and details of the image without making it look unnatural.");
   ("Warmer Lighting",
    "Adjust the color temperature to give the image warmer, golden-hour style lighting.");
   ("Studio Light",
    "Add dramatic, professional studio lighting to the main subject.")].

Definition colorPresets (st : State) : list (string * string) :=
  [("Apply Tint",
    Service.concat ["Apply a subtle, photorealistic tint of the color ";
                    color st; " to the entire image."]);
   ("Change Sky",
    Service.concat ["Realistically change the color of the sky to ";
                    color st; ", if a sky is present."])].

(** [selectedPresetPrompt || customPrompt] *)
Definition activePrompt (st : State) : string :=
  match selectedPresetPrompt st with
  | Some p => if JS.truthy p then p else customPrompt st
  | None => customPrompt st
  end.

Definition handlePresetClick (prompt : string) (st : State) : State :=
  mkState (Some prompt) "" (color st).

Definition handleCustomChange (value : string) (st : State) : State :=
  mkState None value (color st).

Definition setColor (c : string) (st : State) : State :=
  mkState (selectedPresetPrompt st) (customPrompt st) c.

(** [handleApply]: the argument of [onApplyAdjustment], if it is
    called. *)
Definition handleApply (st : State) : option string :=
  if JS.truthy (activePrompt st) then Some (activePrompt st) else None.

(** The apply button is rendered when [activePrompt] is truthy, with
    [disabled={isLoading || !activePrompt.trim()}]. *)
Definition apply_enabled (isLoading : bool) (st : State) : bool :=
  JS.truthy (activePrompt st)
  && negb (isLoading || negb (JS.truthy (JS.trim (activePrompt st)))).

(** What the user does to the panel: a click on the n-th preset, typing
    in the text field, picking a colour. *)
Inductive Action :=
| PresetClick (n : nat)
| CustomChange (value : string)
| ColorChange (c : string).

Definition act (st : State) (a : Action) : State :=
  match a with
  | PresetClick n =>
      match nth_error presets n with
      | Some (_, p) => handlePresetClick p st
      | None => st
      end
  | CustomChange value => handleCustomChange value st
  | ColorChange c => setColor c st
  end.

(** The prompt of the last preset clicked or text typed. *)
Definition last_choice (acts : list Action) : string :=
  fold_left (fun acc a =>
               match a with
               | PresetClick n =>
                   match nth_error presets n with
                   | Some (_, p) => p
                   | None => acc
                   end
               | CustomChange value => value
               | ColorChange _ => acc
               end) acts EmptyString.

End AdjustmentPanel.

Module TryOnPanel.

Inductive TryOnMode := TextMode | ImageMode.

Record State := mkState {
  mode : TryOnMode;
  prompt : string;
  garmentFile : option File
}.

Definition initial : State := mkState TextMode "" None.

(** [handleGenerate]: the argument of [onApplyTryOn], if it is called. *)
Definition handleGenerate (st : State) : option TryOnDetails :=
  match mode st with
  | TextMode =>
      if JS.truthy (JS.trim (prompt st)) then Some (TryOnPrompt (prompt st))
      else None
  | ImageMode =>
      match garmentFile st with
      | Some f => Some (TryOnGarment f)
      | None => None
      end
  end.

Definition canGenerate (isHotspotSelected isLoading : bool) (st : State)
    : bool :=
  isHotspotSelected && negb isLoading
  && (match mode st with
      | TextMode => JS.truthy (JS.trim (prompt st))
      | ImageMode => false
      end
      || match mode st with
         | ImageMode => has (garmentFile st)
         | TextMode => false
         end).

End TryOnPanel.

Module DesignPanel.

Record State := mkState {
  prompt : string;
  selectedModifier : option string
}.

Definition initial : State := mkState "" None.

Definition styleModifiers : list (string * string) :=
  [("Enhance Realism",
    "Focus on creating ultra-realistic lighting, shadows, and material textures to make the scene look like a high-quality photograph.");
   ("Modern Minimalist",
    "Apply a modern minimalist style with clean lines, neutral colors (like whites, greys, and blacks), and natural materials like light wood and concrete.");
   ("Cozy & Warm",
    "Create a cozy and warm ambiance. Use soft, warm lighting, comfortable textures like wool and plush fabrics, and a warm color palette.");
   ("Luxurious & Elegant",
    "Infuse the scene with a sense of luxury and elegance. Use rich materials like marble, velvet, and brass, with sophisticated lighting.")].

Definition handleModifierClick (name : string) (st : State) : State :=
  match selectedModifier st with
  | Some selected =>
      if String.eqb selected name then mkState (prompt st) None
      else mkState (prompt st) (Some name)
  | None => mkState (prompt st) (Some name)
  end.

(** [styleModifiers.find(m => m.name === selectedModifier)?.prompt || ''] *)
Definition modifierPrompt (st : State) : string :=
  match selectedModifier st with
  | Some selected =>
      match find (fun m => String.eqb (fst m) selected) styleModifiers with
      | Some m => snd m
      | None => EmptyString
      end
  | None => EmptyString
  end.

(** [handleGenerate]: the argument of [onApplyStyle], if it is called. *)
Definition handleGenerate (referenceImage : option File) (st : State)
    : option string :=
  match referenceImage with
  | Some _ =>
      Some (join " " (filter JS.truthy [prompt st; modifierPrompt st]))
  | None => None
  end.

Definition canGenerate (isLoading : bool) (referenceImage : option File)
    : bool :=
  negb isLoading && has referenceImage.

End DesignPanel.

Module PersonaPanel.

Inductive SuggestionType := PoseS | OutfitS | BackgroundS | AgeS.

Record State := mkState {
  basePrompt : string;
  selectedStyle : string;
  pose : string;
  outfit : string;
  background : string;
  selectedEmotion : string;
  age : string;
  suggestionLoading : option SuggestionType
}.

Definition initial : State :=
  mkState "A headshot of the person" "Photorealistic" "" "" "" "Neutral" ""
          None.

Definition setSuggestionLoading (l : option SuggestionType) (st : State)
    : State :=
  mkState (basePrompt st) (selectedStyle st) (pose st) (outfit st)
    (background st) (selectedEmotion st) (age st) l.

(** [setPose], [setOutfit], [setBackground] or [setAge]. *)
Definition setField (t : SuggestionType) (v : string) (st : State) : State :=
  match t with
  | PoseS =>
      mkState (basePrompt st) (selectedStyle st) v (outfit st)
        (background st) (selectedEmotion st) (age st) (suggestionLoading st)
  | OutfitS =>
      mkState (basePrompt st) (selectedStyle st) (pose st) v
        (background st) (selectedEmotion st) (age st) (suggestionLoading st)
  | BackgroundS =>
      mkState (basePrompt st) (selectedStyle st) (pose st) (outfit st)
        v (selectedEmotion st) (age st) (suggestionLoading st)
  | AgeS =>
      mkState (basePrompt st) (selectedStyle st) (pose st) (outfit st)
        (background st) (selectedEmotion st) v (suggestionLoading st)
  end.

Definition optional (label value tail : string) : list string :=
  if JS.truthy (JS.trim value)
  then [Service.concat [label; JS.trim value; tail]]
  else [].

(** [handleGenerate]: the prompt handed to [onGenerate]. *)
Definition handleGenerate (st : State) : string :=
  let parts :=
    [JS.trim (basePrompt st);
     Service.concat ["Style: "; selectedStyle st; "."]]
    ++ optional "Pose: " (pose st) "."
    ++ optional "Outfit: wearing " (outfit st) "."
    ++ optional "Background: " (background st) "."
    ++ (if JS.truthy (selectedEmotion st)
        then [Service.concat ["Emotion: a "; toLowerCase (selectedEmotion st);
                              " expression."]]
        else [])
    ++ optional "Age: appearing to be " (age st) "." in
  join " " parts.

Definition canGenerate (isLoading : bool) (st : State) : bool :=
  negb isLoading && JS.truthy (JS.trim (basePrompt st)).

Definition isSuggesting (st : State) : bool := has (suggestionLoading st).

(** The submit button: [disabled={!canGenerate || isSuggesting}]. *)
Definition submit_enabled (isLoading : bool) (st : State) : bool :=
  negb (negb (canGenerate isLoading st) || isSuggesting st).

(** [handleGenerateSuggestion(suggestionType)] up to its [await]: the
    state, and whether [generatePromptSuggestion] was called. *)
Definition handleGenerateSuggestion (currentImage : option File)
    (t : SuggestionType) (st : State) : State * bool :=
  if negb (has currentImage) || has (suggestionLoading st) then (st, false)
  else (setSuggestionLoading (Some t) st, true).

(** The rest of the handler when the promise settles. *)
Definition settleSuggestion (t : SuggestionType) (outcome : result string)
    (st : State) : State :=
  match outcome with
  | Ok suggestion => setSuggestionLoading None (setField t suggestion st)
  | Throw _ => setSuggestionLoading None st
  end.

(** The panel with the suggestion requests that are pending. *)
Record Panel := mkPanel {
  state : State;
  pending : list SuggestionType
}.

Inductive Action :=
| Typed (field : SuggestionType) (value : string)
| Suggest (t : SuggestionType)
| SuggestionSettled (n : nat) (outcome : result string).

Definition act (currentImage : option File) (w : Panel) (a : Action)
    : Panel :=
  match a with
  | Typed field value => mkPanel (setField field value (state w)) (pending w)
  | Suggest t =>
      let '(st, called) := handleGenerateSuggestion currentImage t (state w) in
      mkPanel st (if called then pending w ++ [t] else pending w)
  | SuggestionSettled n outcome =>
      match nth_error (pending w) n with
      | Some t =>
          mkPanel (settleSuggestion t outcome (state w))
                  (remove_nth n (pending w))
      | None => w
      end
  end.

End PersonaPanel.

(** * Properties *)

(** ** Data URLs *)

Example dataURLtoFile_png :
  dataURLtoFile "data:image/PNG;base64,SGk=" "a.png"
  = Ok (mkFile "a.png" "image/png" "Hi").
Proof. reflexivity. Qed.

Example dataURLtoFile_no_comma :
  dataURLtoFile "data:image/png;base64" "a.png"
  = Throw (ErrorObj PlainError "Invalid data URL").
Proof. reflexivity. Qed.

Example dataURLtoFile_empty_canvas :
  dataURLtoFile "data:," "a.png"
  = Throw (ErrorObj PlainError "Could not parse MIME type from data URL").
Proof. reflexivity. Qed.

Example dataURLtoFile_bad_base64 :
  dataURLtoFile "data:image/jpeg;base64,@@@@" "a.png" = Throw JS.atob_error.
Proof. reflexivity. Qed.


Example split_trailing : JS.split "," "a,b," = ["a"; "b"; ""].
Proof. reflexivity. Qed.

Example match_mime_lazy : JS.match_mime "x:a:b;c;" = Some "a:b".
Proof. reflexivity. Qed.

Example atob_three_bytes : JS.atob "TWFu" = Ok "Man".
Proof. reflexivity. Qed.

Example atob_length_one : JS.atob "A" = Throw JS.atob_error.
Proof. reflexivity. Qed.

Example trim_both_ends : JS.trim "  a b  " = "a b".
Proof. reflexivity. Qed.

(** ** Responses of the model *)

Example blocked_response_message :
  Service.handleApiResponse blocked_response "edit"
  = Throw (ErrorObj PlainError
             "Request was blocked. Reason: PROHIBITED_CONTENT. ").
Proof. reflexivity. Qed.

Example text_response_message :
  Service.classify text_response = Some Service.NoImage
  /\ Service.handleApiResponse text_response "filter"
     = Throw (ErrorObj PlainError
                (Service.concat
                   ["The AI model did not return an image for the filter. ";
                    "The model responded with text: "; Service.dquote;
                    "I cannot edit this image."; Service.dquote])).
Proof. split; reflexivity. Qed.

Example image_response_url :
  Service.handleApiResponse
    (Service.mkResponse None None
       [Service.mkCandidate
          (Some [Service.mkPart None;
                 Service.mkPart (Some (Service.mkInline (Some "image/png")
                                                        (Some "QQ==")))])
          (Some "STOP")] None) "edit"
  = Ok "data:image/png;base64,QQ==".
Proof. reflexivity. Qed.

(** A seed of 0 is never put in the configuration of the call. *)
Example seed_zero_not_sent : config_seed (Some 0) = None.
Proof. reflexivity. Qed.

(** ** Arrays *)

Lemma relative_nonneg (n k : Z) : 0 <= n -> 0 <= k -> JS.relative n k = Z.min k n.
Proof.
  intros Hn Hk. unfold JS.relative.
  destruct (Z.ltb_spec k 0); [lia | reflexivity].
Qed.

Lemma slice_prefix {A} (l : list A) (k : Z) :
  0 <= k -> JS.slice l 0 (Some k) = firstn (Z.to_nat k) l.
Proof.
  intros Hk. unfold JS.slice.
  rewrite !relative_nonneg by lia.
  replace (Z.min 0 (Z.of_nat (List.length l))) with 0 by lia.
  cbn [Z.to_nat skipn]. rewrite Z.sub_0_r.
  destruct (Z.le_ge_cases k (Z.of_nat (List.length l))) as [Hle | Hge].
  - now rewrite Z.min_l by lia.
  - rewrite Z.min_r by lia. rewrite Nat2Z.id.
    rewrite firstn_all. symmetry. apply firstn_all2. lia.
Qed.

Lemma slice_suffix {A} (l : list A) (k : Z) :
  0 < k ->
  JS.slice l (- k) None
  = skipn (Z.to_nat (Z.of_nat (List.length l) - k)) l.
Proof.
  intros Hk. unfold JS.slice, JS.relative.
  destruct (Z.ltb_spec (- k) 0); [| lia].
  set (n := Z.of_nat (List.length l)).
  destruct (Z.le_ge_cases (n + - k) 0) as [Hle | Hge].
  - rewrite Z.max_r by lia.
    replace (Z.to_nat (n - k)) with 0%nat by lia.
    cbn [Z.to_nat skipn]. rewrite Z.sub_0_r. unfold n.
    rewrite Nat2Z.id. apply firstn_all.
  - rewrite Z.max_l by lia.
    replace (n + - k) with (n - k) by lia.
    apply firstn_all2. rewrite length_skipn. unfold n. lia.
Qed.

Lemma length_slice_suffix {A} (l : list A) (k : Z) :
  0 < k ->
  Z.of_nat (List.length (JS.slice l (- k) None))
  = Z.min k (Z.of_nat (List.length l)).
Proof.
  intros Hk. rewrite slice_suffix by assumption.
  rewrite length_skipn. lia.
Qed.

Lemma index_in_range {A} (l : list A) (i : Z) :
  0 <= i < Z.of_nat (List.length l) -> exists x, JS.index l i = Some x.
Proof.
  intros Hi. unfold JS.index.
  destruct (Z.ltb_spec i 0); [lia |].
  destruct (nth_error l (Z.to_nat i)) eqn:E; [eauto |].
  apply nth_error_None in E. lia.
Qed.

Lemma index_out_of_range {A} (l : list A) (i : Z) :
  ~ (0 <= i < Z.of_nat (List.length l)) -> JS.index l i = None.
Proof.
  intros Hi. unfold JS.index.
  destruct (Z.ltb_spec i 0); [reflexivity |].
  apply nth_error_None. lia.
Qed.

Lemma index_some_range {A} (l : list A) (i : Z) (x : A) :
  JS.index l i = Some x -> 0 <= i < Z.of_nat (List.length l).
Proof.
  intros E.
  destruct (Z.lt_ge_cases i 0) as [Hlt | Hge];
    [| destruct (Z.lt_ge_cases i (Z.of_nat (List.length l)))]; try lia;
    rewrite index_out_of_range in E by lia; discriminate.
Qed.

Example slice_negative_start :
  JS.slice [1; 2; 3; 4; 5; 6; 7] (-5) None = [3; 4; 5; 6; 7].
Proof. reflexivity. Qed.

Example slice_short_array : JS.slice [1; 2] (-5) None = [1; 2].
Proof. reflexivity. Qed.

Example slice_negative_stop : JS.slice [1; 2; 3] 0 (Some (-1)) = [1; 2].
Proof. reflexivity. Qed.

(** ** Edit History Store *)

Module HistoryFacts.
Import History.

Lemma commit_history (s : AppState) (f : File) :
  -1 <= historyIndex s ->
  history (commit f s)
  = firstn (Z.to_nat (historyIndex s + 1)) (history s) ++ [f].
Proof.
  intros Hc. unfold commit, addImageToHistory. cbn.
  now rewrite slice_prefix by lia.
Qed.

Lemma commit_index (s : AppState) (f : File) :
  historyIndex (commit f s) = len (commit f s) - 1.
Proof. reflexivity. Qed.

Lemma undo_moves_back (s : AppState) :
  0 < historyIndex s < len s ->
  historyIndex (handleUndo s) = historyIndex s - 1
  /\ history (handleUndo s) = history s.
Proof.
  intros Hc. unfold handleUndo, canUndo, handleHistoryStepClick.
  destruct (Z.ltb_spec 0 (historyIndex s)); [| lia].
  destruct (Z.leb_spec 0 (historyIndex s - 1)); [| lia].
  destruct (Z.ltb_spec (historyIndex s - 1) (len s)); [| lia].
  cbn. split; reflexivity.
Qed.

Lemma step_click_cursor (i : Z) (s : AppState) :
  cursor_ok s -> cursor_ok (handleHistoryStepClick i s).
Proof.
  intros [Hne Hc]. unfold handleHistoryStepClick.
  destruct (Z.leb_spec 0 i); cbn [andb]; [| now split].
  destruct (Z.ltb_spec i (len s)); [| now split].
  split; [exact Hne | unfold len in *; cbn; lia].
Qed.

Lemma apply_cursor (o : Op) (s : AppState) :
  cursor_ok s -> cursor_ok (apply s o).
Proof.
  intros H. destruct o; cbn [apply].
  - split.
    + unfold commit, addImageToHistory; cbn.
      intros E. now apply app_eq_nil in E as [_ E].
    + rewrite commit_index. unfold len, commit, addImageToHistory; cbn.
      rewrite length_app; cbn. lia.
  - unfold handleUndo. destruct (canUndo s); [now apply step_click_cursor | exact H].
  - unfold handleRedo. destruct (canRedo s); [now apply step_click_cursor | exact H].
  - now apply step_click_cursor.
  - unfold handleReset. destruct (0 <? len s); [| exact H].
    destruct (step_click_cursor 0 s H) as [Hne Hc].
    split; [exact Hne | exact Hc].
Qed.

Lemma apply_all_cursor (ops : list Op) :
  forall s, cursor_ok s -> cursor_ok (apply_all s ops).
Proof.
  induction ops as [| o ops IH]; intros s H; [exact H |].
  cbn. apply IH. now apply apply_cursor.
Qed.

Lemma upload_cursor (f : File) (s : AppState) :
  cursor_ok (handleImageUpload f s).
Proof. split; [discriminate | unfold len; cbn; lia]. Qed.

Lemma undo_at_zero (s : AppState) :
  historyIndex s = 0 -> handleUndo s = s.
Proof. intros E. unfold handleUndo, canUndo. now rewrite E. Qed.

Lemma redo_at_last (s : AppState) :
  historyIndex s = len s - 1 -> handleRedo s = s.
Proof.
  intros E. unfold handleRedo, canRedo. rewrite E.
  now rewrite Z.ltb_irrefl.
Qed.

End HistoryFacts.

(** C1. Committing a new image keeps the entries at the indices [0..c],
    where [c] is the cursor, appends the new image and moves the cursor
    to the new last index.  In particular, from [A,B,C] at cursor 2, undo
    moves the cursor to 1 and the commit of D then gives [A,B,D] at
    cursor 2: C is gone. *)
Theorem commit_truncates_then_appends :
  forall (s : AppState) (next : File),
    -1 <= historyIndex s ->
    (history (commit next s)
       = firstn (Z.to_nat (historyIndex s + 1)) (history s) ++ [next]
     /\ historyIndex (commit next s) = len (commit next s) - 1)
    /\ (forall A B C D : File,
          let s3 := s |> setHistory [A; B; C] |> setHistoryIndex 2 in
          historyIndex (handleUndo s3) = 1
          /\ history (commit D (handleUndo s3)) = [A; B; D]
          /\ historyIndex (commit D (handleUndo s3)) = 2).
Proof.
  intros s next Hc. split.
  - split; [now apply HistoryFacts.commit_history
           | apply HistoryFacts.commit_index].
  - intros A B C D s3. repeat split.
Qed.

Lemma commit_truncates_then_appends_witness :
  -1 <= historyIndex (initialState |> setHistory [imgA; imgB; imgC]
                                   |> setHistoryIndex 1)
  /\ history (commit imgD (initialState |> setHistory [imgA; imgB; imgC]
                                        |> setHistoryIndex 1))
     = [imgA; imgB; imgD].
Proof.
  split; [cbn; lia |].
  exact (proj1 (proj1 (commit_truncates_then_appends
                         (initialState |> setHistory [imgA; imgB; imgC]
                                       |> setHistoryIndex 1) imgD
                         ltac:(cbn; lia)))).
Defined.

(** C2. Starting from a loaded image, after any sequence of commits,
    undos and redos (and of jumps and resets) the history is non-empty and
    the cursor is at least 0 and below the number of entries; undo at
    cursor 0 and redo at the last entry change nothing. *)
Theorem cursor_stays_in_range :
  forall (s0 : AppState) (initial : File) (ops : list History.Op),
    let s := History.apply_all (handleImageUpload initial s0) ops in
    (history s <> [] /\ 0 <= historyIndex s < len s)
    /\ handleUndo (setHistoryIndex 0 s) = setHistoryIndex 0 s
    /\ handleRedo (setHistoryIndex (len s - 1) s) = setHistoryIndex (len s - 1) s.
Proof.
  intros s0 initial ops s. split; [| split].
  - apply HistoryFacts.apply_all_cursor, HistoryFacts.upload_cursor.
  - now apply HistoryFacts.undo_at_zero.
  - now apply HistoryFacts.redo_at_last.
Qed.

(** ** Session Persistence Manager *)

Module PersistFacts.
Import Persist.

Lemma truncatedCount_eq (s : AppState) :
  truncatedCount s = Z.max 0 (len s - MAX_HISTORY_AUTOSAVE).
Proof.
  unfold truncatedCount, historyToSave, MAX_HISTORY_AUTOSAVE.
  rewrite (length_slice_suffix (history s) 5) by lia.
  unfold len. lia.
Qed.

Lemma thumbnails_length (b : Browser) (l : list File) :
  forall us, thumbnails b l = Ok us -> List.length us = List.length l.
Proof.
  induction l as [| f l IH]; cbn; intros us E.
  - now inversion E.
  - destruct (createImageThumbnail b f); cbn in E; [| discriminate].
    destruct (thumbnails b l); cbn in E; [| discriminate].
    inversion E; subst. cbn. now rewrite (IH _ eq_refl).
Qed.

Lemma decode_all_length (l : list value) :
  forall n fs, decode_all l n = Ok fs -> List.length fs = List.length l.
Proof.
  induction l as [| d l IH]; cbn; intros n fs E.
  - now inversion E.
  - destruct (decode d n); cbn in E; [| discriminate].
    destruct (decode_all l (S n)) eqn:El; cbn in E; [| discriminate].
    inversion E; subst. cbn. now rewrite (IH _ _ El).
Qed.


Lemma saveData_fulfils (b : Browser) (s : AppState) (ls : Storage) :
  exists ls', saveData b s ls = Ok ls'.
Proof.
  unfold saveData. destruct (0 <? len s); [| eauto].
  destruct (save_try b s ls) as [ls' | e]; [eauto |].
  unfold save_catch. destruct (is_quota_error e); eauto.
Qed.


End PersistFacts.



(** C8. When the write of the autosave throws a quota-exceeded
    DOMException, the key of the saved session is removed, and no
    exception leaves [saveData], whatever happens in it. *)
Theorem quota_failure_removes_snapshot :
  forall (b : Persist.Browser) (s : AppState) (ls : Persist.Storage)
         (urls : list string) (e : Thrown),
    Persist.thumbnails b (Persist.historyToSave s) = Ok urls ->
    Persist.setItem_throws b (Persist.stateToSave s urls) = Some e ->
    Persist.is_quota_error e = true ->
    Persist.saveData b s ls = Ok None
    /\ (forall b' s' ls', exists ls'', Persist.saveData b' s' ls' = Ok ls'').
Proof.
  intros b s ls urls e Ht Hq He. split.
  - unfold Persist.saveData, Persist.save_try.
    destruct (0 <? len s); [| reflexivity].
    rewrite Ht. cbn. rewrite Hq. unfold Persist.save_catch. now rewrite He.
  - intros. apply PersistFacts.saveData_fulfils.
Qed.

Lemma quota_failure_removes_snapshot_witness :
  Persist.saveData full seven
    (Some (Persist.Json (Persist.stateToSave seven []))) = Ok None.
Proof.
  exact (proj1
    (quota_failure_removes_snapshot full seven
       (Some (Persist.Json (Persist.stateToSave seven [])))
       ["data:image/jpeg;base64,Qw=="; "data:image/jpeg;base64,RA==";
        "data:image/jpeg;base64,RQ=="; "data:image/jpeg;base64,Rg==";
        "data:image/jpeg;base64,Rw=="]
       (ErrorObj (DOMExceptionC "QuotaExceededError")
                 "The quota has been exceeded.")
       eq_refl eq_refl eq_refl)).
Defined.

(** ** Restore at startup *)

Lemma mount_nothing (s : AppState) (ls : Persist.Storage) :
  Persist.restore ls = Persist.Nothing ->
  Persist.mount s ls = Some (setIsLoading false s, ls).
Proof. intros E. unfold Persist.mount. now rewrite E. Qed.

Lemma mount_caught (s : AppState) (ls : Persist.Storage) e :
  Persist.restore ls = Persist.Caught e ->
  Persist.mount s ls = Some (setIsLoading false s, None).
Proof. intros E. unfold Persist.mount. now rewrite E. Qed.

Lemma restore_unusable (ls : Persist.Storage) :
  Unusable ls ->
  Persist.restore ls = Persist.Nothing
  \/ exists e, Persist.restore ls = Persist.Caught e.
Proof.
  intros U. destruct U as [ | | | v Hno | v urls e Hget Hdec]; cbn.
  - now left.
  - now left.
  - right. eauto.
  - unfold Persist.restore_parsed.
    destruct (Persist.get v "history") as [h | e] eqn:Eh; cbn.
    + destruct h as [h |]; [| now left].
      destruct h; try (now left).
      exfalso. eapply Hno. reflexivity.
    + right. eauto.
  - unfold Persist.restore_parsed. rewrite Hget. cbn. rewrite Hdec. cbn.
    right. eauto.
Qed.

(** Every stored text is one from which nothing is restored, or a
    record with an array under [history] whose entries all decode: the
    restore effect then installs as many entries as the array has. *)
Lemma unusable_or_installed (ls : Persist.Storage) :
  Unusable ls
  \/ exists v urls files i p t,
       ls = Some (Persist.Json v)
       /\ Persist.get v "history" = Ok (Some (Persist.JArr urls))
       /\ Persist.decode_all urls 0 = Ok files
       /\ List.length files = List.length urls
       /\ Persist.get v "historyIndex" = Ok i
       /\ Persist.get v "prompt" = Ok p
       /\ Persist.get v "activeTab" = Ok t
       /\ Persist.restore ls
          = Persist.Install files
              (Persist.nullish i (Persist.JNum (-1)))
              (Persist.nullish p (Persist.JStr ""))
              (Persist.nullish t (Persist.JStr "retouch")).
Proof.
  destruct ls as [[| | v] |]; try (left; constructor; fail).
  destruct (Persist.get v "history") as [[h |] | e] eqn:Eh;
    try (left; apply unusable_no_history; intros urls C;
         rewrite Eh in C; discriminate).
  destruct h as [| b | n | x | urls | fs];
    try (left; apply unusable_no_history; intros urls C;
         rewrite Eh in C; discriminate).
  destruct (Persist.decode_all urls 0) as [files | e] eqn:Ed;
    [| left; now apply (unusable_undecodable v urls e)].
  right.
  assert (Hv : forall k, exists o, Persist.get v k = Ok o).
  { intros k. destruct v; cbn in *; try discriminate; eauto. }
  destruct (Hv "historyIndex") as [oi Ei].
  destruct (Hv "prompt") as [op Ep].
  destruct (Hv "activeTab") as [ot Et].
  exists v, urls, files, oi, op, ot.
  split; [reflexivity |]. split; [exact Eh |]. split; [exact Ed |].
  split; [exact (PersistFacts.decode_all_length _ _ _ Ed) |].
  split; [exact Ei |]. split; [exact Ep |]. split; [exact Et |].
  unfold Persist.restore, Persist.restore_parsed, bind.
  rewrite Eh, Ed, Ei, Ep, Et. reflexivity.
Qed.

(** C9, as the code has it.  From an absent or empty text, a text that
    does not parse, a record that is null or has no array under
    [history], and a record with an entry that does not decode, the
    restore effect completes with the empty history of a cold start:
    cursor -1, no error shown, the loading flag cleared, the start
    screen rendered.  Every other record, however malformed, is
    installed: the history gets one entry for each element of the
    array, and the cursor, the prompt and the tab get the values of the
    record, or -1, the empty string and "retouch" where it has none. *)
Theorem cold_start_on_unusable_record :
  forall ls : Persist.Storage,
    (Unusable ls ->
     exists s' ls',
       Persist.mount initialState ls = Some (s', ls')
       /\ history s' = [] /\ historyIndex s' = -1
       /\ error s' = None /\ isLoading s' = false
       /\ renderContent s' = StartScreen)
    /\ (~ Unusable ls ->
        exists v urls files i p t,
          ls = Some (Persist.Json v)
          /\ Persist.get v "history" = Ok (Some (Persist.JArr urls))
          /\ Persist.decode_all urls 0 = Ok files
          /\ List.length files = List.length urls
          /\ Persist.get v "historyIndex" = Ok i
          /\ Persist.get v "prompt" = Ok p
          /\ Persist.get v "activeTab" = Ok t
          /\ Persist.restore ls
             = Persist.Install files
                 (Persist.nullish i (Persist.JNum (-1)))
                 (Persist.nullish p (Persist.JStr ""))
                 (Persist.nullish t (Persist.JStr "retouch"))).
Proof.
  intros ls. split.
  - intros U. destruct (restore_unusable ls U) as [E | [e E]].
    + exists (setIsLoading false initialState), ls.
      split; [now apply mount_nothing | repeat split].
    + exists (setIsLoading false initialState), None.
      split; [now apply (mount_caught _ _ e) | repeat split].
  - intros N. destruct (unusable_or_installed ls) as [U | H];
      [now contradiction N | exact H].
Qed.

Lemma cold_start_on_unusable_record_witness :
  exists s' ls',
    Persist.mount initialState
      (Some (Persist.Json (Persist.JObj
         [("history", Persist.JArr [Persist.JStr "data:image/jpeg;base64,@@@@"]);
          ("historyIndex", Persist.JNum 0)])))
    = Some (s', ls')
    /\ history s' = [] /\ historyIndex s' = -1
    /\ error s' = None /\ isLoading s' = false
    /\ renderContent s' = StartScreen.
Proof.
  apply (proj1 (cold_start_on_unusable_record _)).
  apply (unusable_undecodable _
           [Persist.JStr "data:image/jpeg;base64,@@@@"] JS.atob_error);
    reflexivity.
Defined.

(** C9 as stated fails: a malformed record (no cursor, no prompt, no
    tab, a thumbnail that is no image) whose one entry decodes is not
    discarded; the restore effect installs a history of one entry. *)
Lemma malformed_record_is_restored :
  exists s',
    Persist.mount initialState
      (Some (Persist.Json (Persist.JObj
         [("history", Persist.JArr [Persist.JStr ":x;,"])])))
    = Some (s', Some (Persist.Json (Persist.JObj
         [("history", Persist.JArr [Persist.JStr ":x;,"])])))
    /\ history s' = [mkFile "saved-image-0.png" "x" ""]
    /\ history s' <> []
    /\ historyIndex s' = -1
    /\ error s' = None.
Proof.
  eexists. split; [vm_compute; reflexivity |].
  split; [reflexivity |]. split; [discriminate |]. split; reflexivity.
Qed.

(** C10. The restore effect installs the [historyIndex] of the record
    (or -1 when the record has none) without comparing it with the number
    of restored entries; when it lies outside [0, length) the current
    image is null.  Some record that decodes to a non-empty history does
    carry such a cursor. *)
Theorem restore_installs_cursor_unchecked :
  (forall (fields : list (string * Persist.value)) urls files
          (idx : option Z) (p t : option string),
      Persist.assoc "history" fields = Some (Persist.JArr urls) ->
      Persist.decode_all urls 0 = Ok files ->
      Persist.assoc "historyIndex" fields = option_map Persist.JNum idx ->
      Persist.assoc "prompt" fields = option_map Persist.JStr p ->
      Persist.assoc "activeTab" fields = option_map Persist.JStr t ->
      exists s',
        Persist.mount initialState (Some (Persist.Json (Persist.JObj fields)))
        = Some (s', Some (Persist.Json (Persist.JObj fields)))
        /\ history s' = files
        /\ historyIndex s' = match idx with Some i => i | None => -1 end
        /\ (~ (0 <= historyIndex s' < len s') -> currentImage s' = None))
  /\ (exists record s',
        Persist.mount initialState (Some (Persist.Json record))
        = Some (s', Some (Persist.Json record))
        /\ history s' <> []
        /\ ~ (0 <= historyIndex s' < len s')
        /\ currentImage s' = None).
Proof.
  split.
  - intros fields urls files idx p t Hh Hd Hi Hp Ht.
    exists (initialState |> setHistory files
              |> setHistoryIndex (match idx with Some i => i | None => -1 end)
              |> setPrompt (match p with Some x => x | None => "" end)
              |> setActiveTab (match t with Some x => x | None => "retouch" end)
              |> setIsLoading false).
    split; [| repeat split].
    + unfold Persist.mount, Persist.restore, Persist.restore_parsed.
      cbn [Persist.get bind]. rewrite Hh, Hd. cbn [bind].
      rewrite Hi, Hp, Ht. now destruct idx, p, t.
    + intros Hout. apply index_out_of_range. exact Hout.
  - exists (Persist.JObj
              [("history", Persist.JArr [Persist.JStr "data:image/jpeg;base64,QQ=="]);
               ("historyIndex", Persist.JNum 5);
               ("prompt", Persist.JStr "");
               ("activeTab", Persist.JStr "retouch")]).
    eexists. split; [reflexivity |].
    split; [discriminate |]. split; [cbn; lia | reflexivity].
Qed.

(** ** Handlers, one by one *)

Ltac unfold_handlers :=
  unfold handleGenerate, handleApplyFilter, handleApplyAdjustment,
    handleApplyTryOn, handleApplyStyle, handleGeneratePersona,
    handleApplyCrop, handleUndo, handleRedo, handleReset,
    handleHistoryStepClick, handleImageClick, handleUploadNew,
    handleImageUpload, handleSetReferenceImage, commit, start, bind in *.

Ltac break_match :=
  repeat match goal with
    | H : context [match ?x with _ => _ end] |- _ =>
        destruct x eqn:?; try discriminate
    end.

Ltac invert_outcome :=
  repeat match goal with
    | H : Returned _ = Returned _ |- _ => inversion H; subst; clear H
    | H : Awaiting _ _ = Awaiting _ _ |- _ => inversion H; subst; clear H
    | H : (_, _) = (_, _) |- _ => inversion H; subst; clear H
    | H : Ok _ = Ok _ |- _ => inversion H; subst; clear H
    end.

Ltac handler_cases c :=
  destruct c; cbn [handler] in *; unfold_handlers; break_match;
  invert_outcome.

(** A handler that returns does not touch the loading flag. *)
Lemma handler_returned_loading (c : Control) (s s' : AppState) :
  handler c s = Returned s' -> isLoading s' = isLoading s.
Proof. intros H. handler_cases c; reflexivity. Qed.

(** A handler that awaits has found a current image, sets the loading
    flag and leaves the history alone; its continuation holds the history
    and the cursor of the state it ran in. *)
Lemma handler_awaiting (c : Control) (s s' : AppState) (p : Pending) :
  handler c s = Awaiting s' p ->
  is_submit c = true
  /\ isLoading s' = true /\ error s' = None
  /\ history s' = history s /\ historyIndex s' = historyIndex s
  /\ seen_history p = history s /\ seen_index p = historyIndex s
  /\ currentImage s <> None.
Proof.
  intros H. handler_cases c; cbn; repeat split; congruence.
Qed.

Section WorldFacts.

(** Whether the apply control of FilterPanel is enabled, given its
    [isLoading] prop. *)
Variable FP : bool -> bool.

(** The apply control of FilterPanel is disabled while [isLoading], as
    the submit controls of the panels at hand are. *)
Hypothesis FP_gated : FP true = false.

(** No submit control is enabled while the loading flag is set. *)
Lemma submit_disabled_while_loading (s : AppState) (c : Control) :
  isLoading s = true -> is_submit c = true -> enabled FP s c = false.
Proof.
  intros L S. destruct c; try discriminate; cbn [enabled];
    destruct (renderContent s); try reflexivity; rewrite L;
    rewrite ?FP_gated; cbn;
    rewrite ?andb_false_r; reflexivity.
Qed.

Lemma step_single_flight (w : World) (e : Event) :
  single_flight w -> single_flight (step FP w e).
Proof.
  intros H. pose proof H as [Hm Hf].
  destruct e as [| c | n now outcome | b |]; cbn [step].
  - destruct (mounted w) eqn:M; [exact H |].
    destruct (Persist.mount (app w) (storage w)) as [[s ls] |]; [| exact H].
    rewrite (Hm eq_refl). split; cbn; [discriminate | exact I].
  - destruct (mounted w && enabled FP (app w) c) eqn:E; [| exact H].
    apply andb_prop in E as [M E].
    destruct (handler c (app w)) as [s | s p] eqn:Hh.
    + split; cbn; [discriminate |].
      rewrite (handler_returned_loading _ _ _ Hh). exact Hf.
    + destruct (handler_awaiting _ _ _ _ Hh)
        as (S & L & _ & _ & _ & Hh1 & Hi1 & Hcur).
      assert (Hidle : isLoading (app w) = false).
      { destruct (isLoading (app w)) eqn:L0; [| reflexivity].
        rewrite (submit_disabled_while_loading _ _ L0 S) in E. discriminate. }
      split; cbn; [discriminate |].
      destruct (inflight w) as [| p0 [| p1 r]]; cbn.
      * split; [exact L |]. rewrite Hh1, Hi1.
        destruct (currentImage (app w)) as [img |] eqn:Ec; [| congruence].
        apply (index_some_range _ _ _ Ec).
      * destruct Hf. congruence.
      * contradiction.
  - destruct (nth_error (inflight w) n) as [p |] eqn:En; [| exact H].
    destruct (inflight w) as [| p0 [| p1 r]].
    + destruct n; discriminate.
    + split; cbn; [intros M; now rewrite (Hm M) in En; destruct n |].
      destruct n as [| n]; cbn; [exact I | destruct n; discriminate].
    + contradiction.
  - destruct (mounted w) eqn:M; [| exact H].
    destruct (Persist.saveData b (app w) (storage w)); [| exact H].
    split; cbn; [discriminate | exact Hf].
  - split; cbn; [reflexivity | exact I].
Qed.

Lemma run_single_flight (es : list Event) :
  forall w, single_flight w -> single_flight (run FP w es).
Proof.
  induction es as [| e es IH]; intros w H; [exact H |].
  cbn. apply IH. now apply step_single_flight.
Qed.

Lemma reachable_single_flight (w : World) :
  reachable FP w -> single_flight w.
Proof.
  intros (ls & es & ->). apply run_single_flight.
  split; cbn; [reflexivity | exact I].
Qed.

(** A submit control used while a request is pending changes nothing. *)
Lemma submit_rejected (w : World) (c : Control) :
  single_flight w -> inflight w <> [] -> is_submit c = true ->
  step FP w (Use c) = w.
Proof.
  intros [_ Hf] Hp S. cbn [step].
  destruct (inflight w) as [| p0 [| p1 r]]; [congruence | | contradiction].
  rewrite (submit_disabled_while_loading _ _ (proj1 Hf) S).
  now rewrite andb_false_r.
Qed.

Lemma submits_rejected (w : World) (cs : list Control) :
  single_flight w -> inflight w <> [] -> forallb is_submit cs = true ->
  run FP w (map Use cs) = w.
Proof.
  intros Hs Hp. induction cs as [| c cs IH]; cbn; intros Hc; [reflexivity |].
  apply andb_prop in Hc as [Hc Hcs].
  unfold run in IH. cbn [step] in *.
  fold (step FP w (Use c)). rewrite (submit_rejected w c Hs Hp Hc).
  now apply IH.
Qed.

End WorldFacts.

(** The handlers themselves do not look at the loading flag: it is the
    disabled controls that keep a second request from being made. *)
Example handler_reads_no_loading_flag :
  isLoading (app filtering) = true
  /\ inflight filtering <> []
  /\ call_of (handleApplyFilter "sepia" (app filtering))
     = Some (generateFilteredImage imgA "sepia")
  /\ enabled negb (app filtering) (FilterButton "sepia") = false.
Proof. vm_compute. repeat split; discriminate. Qed.

(** C4. While an edit request is pending, using the submit control of
    any edit kind changes nothing and starts no generation call, and the
    success of the pending request commits its image after the entries
    [0..c] of the history it was submitted on; in no reachable world are
    two requests in flight.  (The controls are disabled by the loading
    flag; FilterPanel is taken to do as its sibling panels.) *)
Theorem one_request_in_flight :
  forall FilterPanel_enabled : bool -> bool,
    FilterPanel_enabled true = false ->
    forall w : World,
      reachable FilterPanel_enabled w ->
      (List.length (inflight w) <= 1)%nat
      /\ (forall c,
            inflight w <> [] -> is_submit c = true ->
            step FilterPanel_enabled w (Use c) = w
            /\ started FilterPanel_enabled w (Use c) = None)
      /\ (forall p cs now url f,
            inflight w = [p] -> forallb is_submit cs = true ->
            dataURLtoFile url (filename (request p) now) = Ok f ->
            let w' := run FilterPanel_enabled w
                        (map Use cs ++ [Settled 0 now (Ok url)]) in
            history (app w')
              = firstn (Z.to_nat (seen_index p + 1)) (seen_history p) ++ [f]
            /\ historyIndex (app w') = len (app w') - 1
            /\ inflight w' = [] /\ isLoading (app w') = false)
      /\ (forall c r,
            started FilterPanel_enabled w (Use c) = Some r ->
            inflight w = []
            /\ exists p,
                 inflight (step FilterPanel_enabled w (Use c)) = [p]
                 /\ request p = r
                 /\ seen_history p = history (app w)
                 /\ seen_index p = historyIndex (app w)).
Proof.
  intros FP Hg w Hr.
  pose proof (reachable_single_flight FP Hg w Hr) as Hs.
  pose proof Hs as [Hm Hf].
  split; [| split; [| split]].
  - destruct (inflight w) as [| p0 [| p1 r]]; cbn; [lia | lia | contradiction].
  - intros c Hp S. split; [now apply submit_rejected |].
    cbn [started]. destruct (inflight w) as [| p0 [| p1 r]];
      [congruence | | contradiction].
    rewrite (submit_disabled_while_loading FP Hg _ _ (proj1 Hf) S).
    now rewrite andb_false_r.
  - intros p cs now url f Hp Hcs Hd w'. subst w'.
    unfold run. rewrite fold_left_app.
    fold (run FP w (map Use cs)).
    rewrite (submits_rejected FP Hg w cs Hs) by (assumption || congruence).
    cbn [fold_left step]. rewrite Hp in *. cbn [nth_error remove_nth].
    unfold settle. cbn [bind]. rewrite Hd.
    assert (Hh : history
                   (addImageToHistory (seen_history p) (seen_index p) f (app w))
                 = firstn (Z.to_nat (seen_index p + 1)) (seen_history p) ++ [f]).
    { unfold addImageToHistory. cbn. rewrite slice_prefix by lia. reflexivity. }
    destruct (clears_hotspot (request p));
      (split; [exact Hh | repeat split; reflexivity]).
  - intros c r Hst. cbn [started] in Hst.
    destruct (mounted w && enabled FP (app w) c) eqn:E; [| discriminate].
    destruct (handler c (app w)) as [s | s p] eqn:Hh; [discriminate |].
    cbn in Hst. inversion Hst; subst r.
    destruct (handler_awaiting _ _ _ _ Hh) as (S & L & _ & _ & _ & Hh1 & Hi1 & _).
    apply andb_prop in E as [M E].
    assert (Hidle : inflight w = []).
    { destruct (inflight w) as [| p0 [| p1 r]]; [reflexivity | | contradiction].
      rewrite (submit_disabled_while_loading FP Hg _ _ (proj1 Hf) S) in E.
      discriminate. }
    split; [exact Hidle |]. exists p. cbn [step].
    rewrite M, E, Hh. cbn. rewrite Hidle. repeat split; assumption.
Qed.

Lemma one_request_in_flight_witness :
  reachable negb filtering
  /\ (List.length (inflight filtering) <= 1)%nat
  /\ step negb filtering (Use (FilterButton "sepia")) = filtering.
Proof.
  assert (R : reachable negb filtering).
  { exists None,
      [Mount; Use (FileSelect imgA); Use (TabButton "filters");
       Use (FilterButton "vintage")]. reflexivity. }
  split; [exact R |].
  split.
  - exact (proj1 (one_request_in_flight negb eq_refl filtering R)).
  - exact (proj1 (proj1 (proj2 (one_request_in_flight negb eq_refl filtering R))
                    (FilterButton "sepia") ltac:(discriminate) eq_refl)).
Defined.

(** ** Failures of the generation call *)

Lemma handleApiResponse_failure (response : Service.GenerateContentResponse)
    (context : string) (f : Service.Failure) :
  Service.classify response = Some f ->
  Service.handleApiResponse response context
  = Throw (ErrorObj PlainError (Service.failure_message response context f)).
Proof.
  unfold Service.classify, Service.handleApiResponse, Service.failure_message.
  intros H.
  destruct (Service.truthy_opt (Service.blockReason response));
    [now inversion H |].
  destruct (Service.imagePartFromResponse response); [discriminate |].
  destruct (Service.candidates response) as [| c r]; cbn in *;
    [now inversion H |].
  destruct (Service.truthy_opt (Service.finishReason c)
            && negb (Service.interpolate (Service.finishReason c) =? "STOP")%string);
    now inversion H.
Qed.

Lemma handleApiResponse_image (response : Service.GenerateContentResponse)
    (context : string) :
  Service.classify response = None ->
  exists url, Service.handleApiResponse response context = Ok url.
Proof.
  unfold Service.classify, Service.handleApiResponse. intros H.
  destruct (Service.truthy_opt (Service.blockReason response));
    [discriminate |].
  destruct (Service.imagePartFromResponse response); [eauto |].
  destruct (Service.candidates response) as [| c r]; [discriminate |].
  destruct (Service.truthy_opt (Service.finishReason c)
            && negb (Service.interpolate (Service.finishReason c) =? "STOP")%string);
    discriminate.
Qed.

(** The three messages differ from their first letter on. *)
Lemma failure_messages_differ
    (r1 r2 : Service.GenerateContentResponse) (c1 c2 : string)
    (f1 f2 : Service.Failure) :
  f1 <> f2 ->
  Service.failure_message r1 c1 f1 <> Service.failure_message r2 c2 f2.
Proof.
  intros Hne. destruct f1, f2; try congruence; cbn; discriminate.
Qed.

Lemma settle_throw (p : Pending) (now : Z) (e : Thrown) (s : AppState) :
  settle p now (Throw e) s
  = s |> setError (Some (failure_prefix (request p) ++ errorMessage e)%string)
      |> setIsLoading false.
Proof. reflexivity. Qed.

Lemma resume_after_failure (s : AppState) msg :
  isLoading s = false -> error s = None ->
  setError None
    (s |> setIsLoading true |> setError None |> setError (Some msg)
       |> setIsLoading false) = s.
Proof. destruct s; cbn; intros; subst; reflexivity. Qed.

Lemma enabled_editor (FP : bool -> bool) (s : AppState) (c : Control) :
  is_submit c = true -> enabled FP s c = true ->
  error s = None /\ renderContent s = EditorScreen.
Proof.
  intros S E.
  assert (R : renderContent s = EditorScreen).
  { destruct c; try discriminate; cbn [enabled] in E;
      destruct (renderContent s); congruence. }
  split; [| exact R]. unfold renderContent in R.
  destruct (isLoading s && (len s =? 0)); [discriminate |].
  destruct (error s); [discriminate | reflexivity].
Qed.

Lemma handler_restart (c : Control) (s0 s : AppState) (p : Pending) :
  handler c s0 = Awaiting s p ->
  exists s1,
    s = setError None (setIsLoading true s1)
    /\ handler c s1 = Awaiting s p
    /\ history s1 = history s0 /\ historyIndex s1 = historyIndex s0
    /\ isLoading s1 = isLoading s0 /\ error s1 = error s0
    /\ (forall FP, enabled FP s1 c = enabled FP s0 c).
Proof.
  intros H. destruct c; cbn [handler] in H; try discriminate;
    unfold handleGenerate, handleApplyFilter, handleApplyAdjustment,
      handleApplyTryOn, handleApplyStyle, handleGeneratePersona,
      handleApplyCrop, start, bind in H;
    break_match; invert_outcome.
  all: try (exists s0; split; [reflexivity |]; split;
      [ cbn [handler];
        unfold handleGenerate, handleApplyFilter, handleApplyAdjustment,
          handleApplyTryOn, handleApplyStyle, handleGeneratePersona, start;
        repeat match goal with E : _ = _ |- _ => rewrite E end; reflexivity
      | repeat split ]).
  all: match goal with
       | |- exists s1, setError None (setIsLoading true ?x) = _ /\ _ =>
           exists x
       end; (split; [reflexivity |]); split;
    [ cbn [handler]; unfold handleApplyStyle, currentImage in *; cbn;
      repeat match goal with E : _ = _ |- _ => rewrite E end;
      try (destruct (random =? 0)); reflexivity
    | repeat split ].
Qed.


Lemma retry_after_failure FP (w : World) (c : Control) (r : Request)
    (now : Z) (e : Thrown) :
  mounted w = true -> isLoading (app w) = false -> inflight w = [] ->
  started FP w (Use c) = Some r ->
  let w3 := run FP w [Use c; Settled 0 now (Throw e); Use TryAgain] in
  started FP w3 (Use c) = Some r
  /\ history (app w3) = history (app w)
  /\ historyIndex (app w3) = historyIndex (app w)
  /\ inflight w3 = [] /\ isLoading (app w3) = false /\ error (app w3) = None.
Proof.
  intros M L I St. cbn [started] in St. rewrite M in St. cbn [andb] in St.
  destruct (enabled FP (app w) c) eqn:E; [| discriminate].
  destruct (handler c (app w)) as [s | s p] eqn:Hh; [discriminate |].
  cbn in St. inversion St; subst r. clear St.
  destruct (handler_restart _ _ _ _ Hh) as (s1 & Es & Hh1 & H1 & H2 & H3 & H4 & H5).
  destruct (handler_awaiting _ _ _ _ Hh) as (S & _).
  destruct (enabled_editor FP _ _ S E) as [Err _].
  assert (E3 : run FP w [Use c; Settled 0 now (Throw e); Use TryAgain]
               = mkWorld s1 [] (storage w) true (match c with FileSelect f => Some f | _ => uploaded w end)).
  { unfold run. cbn [fold_left]. cbn [step]. rewrite M, E. cbn [andb].
    rewrite Hh, I. cbn [app inflight List.app nth_error remove_nth mounted storage uploaded].
    rewrite settle_throw. subst s.
    cbn [step mounted app]. 
    replace (enabled FP _ TryAgain) with true by reflexivity.
    cbn [andb handler inflight storage uploaded].
    rewrite resume_after_failure by congruence. reflexivity. }
  intros w3. subst w3. rewrite E3. cbn [started app mounted inflight andb].
  rewrite H5, E, Hh1. cbn. rewrite H3, H4. repeat split; congruence.
Qed.

(** C6. When the generation call of an edit request fails (the prompt was
    blocked, no image came back, or generation stopped abnormally; any
    rejection, in fact), the entries and the cursor are unchanged, the
    error holds the message of that failure after the text of the edit
    kind, and the loading flag is cleared with nothing in flight; once
    the error is dismissed the same request can be submitted again. *)
Theorem failed_generation_leaves_history :
  forall (p : Pending) (now : Z) (s : AppState),
    (forall e : Thrown,
        let s' := settle p now (Throw e) s in
        history s' = history s /\ historyIndex s' = historyIndex s
        /\ error s'
           = Some (failure_prefix (request p) ++ errorMessage e)%string
        /\ isLoading s' = false)
    /\ (forall response context f,
          context_of (request p) = Some context ->
          Service.classify response = Some f ->
          let s' := settle p now
                      (Service.handleApiResponse response context) s in
          history s' = history s /\ historyIndex s' = historyIndex s
          /\ error s'
             = Some (failure_prefix (request p)
                     ++ Service.failure_message response context f)%string
          /\ isLoading s' = false)
    /\ (forall r1 r2 c1 c2 f1 f2,
          f1 <> f2 ->
          Service.failure_message r1 c1 f1 <> Service.failure_message r2 c2 f2)
    /\ (forall FilterPanel_enabled (w : World) e,
          inflight w = [p] ->
          let w' := step FilterPanel_enabled w (Settled 0 now (Throw e)) in
          inflight w' = [] /\ isLoading (app w') = false
          /\ history (app w') = history (app w)
          /\ historyIndex (app w') = historyIndex (app w))
    /\ (forall FilterPanel_enabled (w : World) c r e,
          mounted w = true -> isLoading (app w) = false -> inflight w = [] ->
          started FilterPanel_enabled w (Use c) = Some r ->
          let w3 := run FilterPanel_enabled w
                      [Use c; Settled 0 now (Throw e); Use TryAgain] in
          started FilterPanel_enabled w3 (Use c) = Some r
          /\ history (app w3) = history (app w)
          /\ historyIndex (app w3) = historyIndex (app w)
          /\ inflight w3 = [] /\ isLoading (app w3) = false
          /\ error (app w3) = None).
Proof.
  intros p now s. split; [| split; [| split; [| split]]].
  - intros e s'. subst s'. rewrite settle_throw. repeat split.
  - intros response context f _ Hc s'. subst s'.
    rewrite (handleApiResponse_failure _ _ _ Hc), settle_throw.
    repeat split.
  - intros. now apply failure_messages_differ.
  - intros FP w e Hp w'. subst w'. cbn [step]. rewrite Hp.
    cbn [nth_error remove_nth inflight app]. rewrite settle_throw.
    repeat split.
  - intros FP w c r e. apply retry_after_failure.
Qed.

Lemma failed_generation_leaves_history_witness :
  let p := mkPending (generateFilteredImage imgA "vintage") [imgA] 0 in
  let s' := settle p 0 (Service.handleApiResponse stopped_response "filter")
              (app filtering) in
  history s' = [imgA] /\ historyIndex s' = 0
  /\ error s'
     = Some "Failed to apply the filter. Image generation for filter stopped unexpectedly. Reason: SAFETY. This often relates to safety settings."
  /\ isLoading s' = false.
Proof.
  exact (proj1 (proj2 (failed_generation_leaves_history
                         (mkPending (generateFilteredImage imgA "vintage")
                                    [imgA] 0) 0 (app filtering)))
           stopped_response "filter" Service.AbnormalStop eq_refl eq_refl).
Defined.

(** ** One visit of the page *)

Lemma original_is_head (s : AppState) :
  originalImage s = hd_error (history s).
Proof. unfold originalImage, JS.index. cbn. now destruct (history s). Qed.

Lemma hd_error_prefix {A} (l : list A) (n : nat) (x : A) :
  l <> [] -> (0 < n)%nat -> hd_error (firstn n l ++ [x]) = hd_error l.
Proof.
  intros Hl Hn. destruct l as [| a l]; [congruence |].
  destruct n; [lia | reflexivity].
Qed.

Ltac bool_to_prop :=
  repeat match goal with
    | H : (_ && _) = true |- _ => apply andb_prop in H as [? ?]
    | H : (_ <=? _) = true |- _ => apply Z.leb_le in H
    | H : (_ <? _) = true |- _ => apply Z.ltb_lt in H
    end.

(** What a returning handler can do to the history. *)
Lemma handler_returned_history (c : Control) (s s' : AppState) :
  handler c s = Returned s' ->
  (history s' = history s
   /\ (historyIndex s' = historyIndex s \/ 0 <= historyIndex s' < len s))
  \/ (history s' = [] /\ historyIndex s' = -1)
  \/ (exists f, c = FileSelect f /\ history s' = [f] /\ historyIndex s' = 0)
  \/ (exists f canvas now, c = CropButton canvas now /\ s' = commit f s).
Proof.
  intros H. handler_cases c; cbn;
    try (left; split; [reflexivity | (left; reflexivity) || (right; bool_to_prop; lia)]).
  - right; left; split; reflexivity.
  - right; right; left. eexists. repeat split.
  - right; right; right. do 3 eexists. split; reflexivity.
  - right; left; split; reflexivity.
Qed.

Lemma remove_nth_Forall {A} (P : A -> Prop) (l : list A) :
  forall n, Forall P l -> Forall P (remove_nth n l).
Proof.
  induction l as [| a l IH]; intros n H; destruct n; cbn; auto;
    inversion H; subst; auto.
Qed.

Lemma commit_keeps_original (h : list File) (i : Z) (f : File) (s : AppState) :
  0 <= i < Z.of_nat (List.length h) ->
  let s' := addImageToHistory h i f s in
  0 <= historyIndex s' < len s' /\ hd_error (history s') = hd_error h.
Proof.
  intros Hi s'. subst s'. unfold addImageToHistory, len. cbn.
  rewrite slice_prefix by lia. split.
  - rewrite length_app. cbn. lia.
  - apply hd_error_prefix; [| lia]. destruct h; cbn in *; [lia | discriminate].
Qed.

Lemma settle_history (p : Pending) (now : Z) (o : result string) (s : AppState) :
  (history (settle p now o s) = history s
   /\ historyIndex (settle p now o s) = historyIndex s)
  \/ exists f,
       history (settle p now o s)
         = history (addImageToHistory (seen_history p) (seen_index p) f s)
       /\ historyIndex (settle p now o s)
         = historyIndex (addImageToHistory (seen_history p) (seen_index p) f s).
Proof.
  unfold settle.
  destruct (bind o (fun url => dataURLtoFile url (filename (request p) now)))
    as [f | e].
  - right. exists f. destruct (clears_hotspot (request p)); split; reflexivity.
  - left. split; reflexivity.
Qed.

Section SessionFacts.

Variable FP : bool -> bool.
Hypothesis FP_gated : FP true = false.

Lemma upload_or_not (c : Control) :
  (exists f, c = FileSelect f) \/ (forall f, c <> FileSelect f).
Proof.
  destruct c; ((left; eexists; reflexivity) || (right; intros; discriminate)).
Qed.

Lemma ghost_unchanged (c : Control) (up : option File) :
  (forall f, c <> FileSelect f) ->
  match c with FileSelect f => Some f | _ => up end = up.
Proof.
  intros H. destruct c; try reflexivity. now contradiction (H file).
Qed.

Lemma editor_in_range (s : AppState) :
  renderContent s = EditorScreen -> 0 <= historyIndex s < len s.
Proof.
  unfold renderContent. intros R.
  destruct (isLoading s && (len s =? 0)); [discriminate |].
  destruct (error s); [discriminate |].
  destruct (currentImage s) eqn:C; [| discriminate].
  apply (index_some_range _ _ _ C).
Qed.

Lemma in_range_not_nil (s : AppState) :
  0 <= historyIndex s < len s -> history s <> [].
Proof.
  unfold len. intros Hr. destruct (history s); [cbn in Hr; lia | discriminate].
Qed.

Lemma step_visit_ok (w : World) (e : Event) :
  session_event e = true -> single_flight w -> visit_ok w ->
  visit_ok (step FP w e).
Proof.
  intros He Hs H. pose proof H as (Hboot & Hhist & Hbusy & Hpend).
  pose proof Hs as [Hm Hf].
  destruct e as [| c | n now outcome | b |]; cbn [step]; try discriminate.
  - destruct (mounted w) eqn:M; [exact H |].
    destruct (Hboot eq_refl) as (Ei & Hst & Hrf). rewrite Ei.
    unfold Persist.mount. unfold stored_typed in Hst.
    unfold restored_first in Hrf.
    destruct (Persist.restore (storage w)) as [| e | files i p t].
    + split; [discriminate |]. split; cbn; [congruence |].
      rewrite (Hm eq_refl). split; [congruence | constructor].
    + split; [discriminate |]. split; cbn; [congruence |].
      rewrite (Hm eq_refl). split; [congruence | constructor].
    + destruct i; try contradiction. destruct p; try contradiction.
      destruct t; try contradiction.
      split; [discriminate |]. split; cbn; [intros _; exact Hrf |].
      rewrite (Hm eq_refl). split; [congruence | constructor].
  - destruct (mounted w && enabled FP (app w) c) eqn:E; [| exact H].
    apply andb_prop in E as [M E].
    destruct (upload_or_not c) as [[f ->] | Hc].
    + (* an upload: the start screen is shown, nothing is pending *)
      assert (Hidle : inflight w = []).
      { cbn [enabled] in E.
        destruct (renderContent (app w)) eqn:R; try discriminate.
        unfold renderContent in R.
        destruct (isLoading (app w)) eqn:L; cbn [andb] in R.
        - destruct (Z.eqb_spec (len (app w)) 0) as [Z0 | NZ]; [discriminate |].
          destruct (error (app w)); [discriminate |].
          destruct (currentImage (app w)) eqn:C; [discriminate |].
          destruct (inflight w) as [| p0 r] eqn:Ein; [reflexivity |].
          assert (Hne : history (app w) <> []).
          { unfold len in NZ.
            destruct (history (app w)); [cbn in NZ; lia | discriminate]. }
          assert (Hr : 0 <= historyIndex (app w) < len (app w))
            by (apply Hbusy; [discriminate | exact Hne]).
          destruct (index_in_range _ _ Hr) as [x Hx].
          unfold currentImage in C. congruence.
        - destruct (inflight w) as [| p0 [| p1 r]];
            [reflexivity | destruct Hf; congruence | contradiction]. }
      cbn [handler]. rewrite Hidle.
      split; [discriminate |]. cbn [app inflight uploaded].
      split; [intros _; reflexivity |].
      split; [intros C; now contradiction C | constructor].
    + rewrite (ghost_unchanged c (uploaded w) Hc).
      destruct (handler c (app w)) as [s | s p] eqn:Hh.
      * split; [discriminate |]. cbn [app inflight uploaded].
        destruct (handler_returned_history _ _ _ Hh)
          as [[Eh Ei] | [[Eh Ei] | [(f & -> & _) | (f & cv & nw & -> & ->)]]].
        -- split; [rewrite Eh; exact Hhist |]. split; [| exact Hpend].
           intros Hb Hne. rewrite Eh in Hne. specialize (Hbusy Hb Hne).
           unfold len in *. rewrite Eh. destruct Ei as [-> | Ei]; lia.
        -- split; [congruence |]. split; [congruence | exact Hpend].
        -- now contradiction (Hc f).
        -- assert (Hr : 0 <= historyIndex (app w) < len (app w)).
           { cbn [enabled] in E.
             destruct (renderContent (app w)) eqn:R; try discriminate.
             exact (editor_in_range _ R). }
           pose proof (in_range_not_nil _ Hr) as Hne.
           destruct (commit_keeps_original (history (app w))
                       (historyIndex (app w)) f (app w) Hr) as [Hr' Hh'].
           split; [intros _; unfold commit; rewrite Hh'; exact (Hhist Hne) |].
           split; [intros _ _; exact Hr' | exact Hpend].
      * destruct (handler_awaiting _ _ _ _ Hh)
          as (S & L & _ & Eh & Ei & Hh1 & Hi1 & Hcur).
        split; [discriminate |]. cbn [app inflight uploaded].
        assert (Hr : 0 <= historyIndex (app w) < len (app w)).
        { destruct (currentImage (app w)) eqn:C; [| congruence].
          apply (index_some_range _ _ _ C). }
        pose proof (in_range_not_nil _ Hr) as Hne.
        split; [rewrite Eh; exact Hhist |]. split.
        -- intros _ _. unfold len. rewrite Eh, Ei. exact Hr.
        -- apply Forall_app. split; [exact Hpend |]. constructor; [| constructor].
           unfold pending_ok. rewrite Hh1, Hi1. split; [exact Hr | exact (Hhist Hne)].
  - destruct (nth_error (inflight w) n) as [p |] eqn:En; [| exact H].
    assert (Hp : pending_ok (uploaded w) p).
    { rewrite Forall_forall in Hpend. apply Hpend. eapply nth_error_In; eauto. }
    destruct Hp as [Hr Hh0].
    assert (Hnone : remove_nth n (inflight w) = []).
    { destruct (inflight w) as [| p0 [| p1 r]];
        [destruct n; discriminate | | contradiction].
      destruct n as [| n]; [reflexivity | destruct n; discriminate]. }
    rewrite Hnone.
    split; [| split; [| split]]; cbn [app inflight uploaded mounted storage].
    + intros M. rewrite (Hm M) in En. destruct n; discriminate.
    + destruct (settle_history p now outcome (app w)) as [[Eh Ei] | (f & Eh & Ei)].
      * rewrite Eh. exact Hhist.
      * intros _. rewrite Eh.
        destruct (commit_keeps_original _ _ f (app w) Hr) as [Hr' Hh'].
        congruence.
    + intros C. now contradiction C.
    + constructor.
  - destruct (mounted w) eqn:M; [| exact H].
    destruct (Persist.saveData b (app w) (storage w)); [| exact H].
    split; [discriminate |].
    split; [exact Hhist |]. split; [exact Hbusy | exact Hpend].
Qed.

Lemma run_visit_ok (es : list Event) :
  forall w, forallb session_event es = true ->
            single_flight w -> visit_ok w ->
            visit_ok (run FP w es).
Proof.
  induction es as [| e es IH]; intros w He Hs H; [exact H |].
  cbn in He. apply andb_prop in He as [He Hes]. cbn.
  apply IH; [exact Hes | now apply step_single_flight
            | now apply step_visit_ok].
Qed.

Lemma in_visit_ok (w : World) : in_visit FP w -> visit_ok w.
Proof.
  intros (ls & es & U & He & ->). apply run_visit_ok; [exact He | |].
  - split; cbn; [reflexivity | exact I].
  - split; [| split; [| split]]; cbn;
      [intros _; split; [reflexivity | split; [exact U | reflexivity]]
      | congruence | congruence | constructor].
Qed.

End SessionFacts.


Lemma dataURLtoFile_name (u n : string) (f : File) :
  dataURLtoFile u n = Ok f -> file_name f = n.
Proof.
  unfold dataURLtoFile, bind. intros H.
  destruct (List.length (JS.split "," u) <? 2)%nat; [discriminate |].
  destruct (JS.match_mime (nth 0 (JS.split "," u) "")) as [m |]; [| discriminate].
  destruct m; [discriminate |].
  destruct (JS.atob (nth 1 (JS.split "," u) "")); [| discriminate].
  now inversion H.
Qed.

(** What a restore that installs entries puts first: the file decoded
    from the first stored thumbnail. *)
Lemma restored_first_entry (ls ls' : Persist.Storage) (s' : AppState) :
  Persist.mount initialState ls = Some (s', ls') ->
  history s' <> [] ->
  exists v u rest f0,
    ls = Some (Persist.Json v)
    /\ Persist.get v "history" = Ok (Some (Persist.JArr (Persist.JStr u :: rest)))
    /\ dataURLtoFile u "saved-image-0.png" = Ok f0
    /\ originalImage s' = Some f0
    /\ file_name f0 = "saved-image-0.png".
Proof.
  unfold Persist.mount. intros Hm Hne.
  destruct (Persist.restore ls) as [| e | files i p t] eqn:Er.
  - inversion Hm; subst. cbn in Hne. congruence.
  - inversion Hm; subst. cbn in Hne. congruence.
  - destruct i; try discriminate. destruct p; try discriminate.
    destruct t; try discriminate. inversion Hm; subst s' ls'. clear Hm.
    cbn in Hne.
    unfold Persist.restore in Er.
    destruct ls as [[| | v] |]; try discriminate.
    destruct (Persist.restore_parsed v) as [r |] eqn:Ep; [| discriminate].
    subst r. unfold Persist.restore_parsed, bind in Ep.
    destruct (Persist.get v "history") as [[h |] |] eqn:Eh; try discriminate.
    destruct h as [| | | | urls |]; try discriminate.
    destruct (Persist.decode_all urls 0) as [fs |] eqn:Ed; [| discriminate].
    destruct (Persist.get v "historyIndex"); [| discriminate].
    destruct (Persist.get v "prompt"); [| discriminate].
    destruct (Persist.get v "activeTab"); [| discriminate].
    inversion Ep; subst fs.
    destruct urls as [| d rest]; cbn in Ed; [inversion Ed; congruence |].
    unfold bind in Ed.
    destruct (Persist.decode d 0) as [f0 |] eqn:E0; [| discriminate].
    destruct (Persist.decode_all rest 1); [| discriminate].
    inversion Ed; subst files.
    destruct d as [| | | u | |]; try discriminate. cbn in E0.
    exists v, u, rest, f0.
    split; [reflexivity |]. split; [exact Eh |]. split; [exact E0 |].
    split; [reflexivity |]. eapply dataURLtoFile_name; eauto.
Qed.

Lemma apply_keeps_first (s : AppState) (o : History.Op) :
  history s <> [] ->
  (forall f, o = History.OpCommit f -> 0 <= historyIndex s) ->
  originalImage (History.apply s o) = originalImage s.
Proof.
  intros Hne Hc. rewrite !original_is_head.
  destruct o; cbn [History.apply].
  - specialize (Hc next eq_refl).
    unfold commit, addImageToHistory, JS.slice, JS.relative. cbn.
    destruct (Z.ltb_spec (historyIndex s + 1) 0); [lia |].
    rewrite (Z.min_l 0) by lia. cbn [Z.to_nat skipn].
    apply hd_error_prefix; [exact Hne |].
    destruct (history s); [congruence | cbn [List.length]; lia].
  - unfold handleUndo, handleHistoryStepClick.
    destruct (canUndo s); [| reflexivity].
    now destruct ((0 <=? historyIndex s - 1) && (historyIndex s - 1 <? len s)).
  - unfold handleRedo, handleHistoryStepClick.
    destruct (canRedo s); [| reflexivity].
    now destruct ((0 <=? historyIndex s + 1) && (historyIndex s + 1 <? len s)).
  - unfold handleHistoryStepClick.
    now destruct ((0 <=? index) && (index <? len s)).
  - unfold handleReset, handleHistoryStepClick.
    destruct (0 <? len s); [| reflexivity].
    now destruct ((0 <=? 0) && (0 <? len s)).
Qed.

(** C7, as the code has it.  In every visit of the page (one that began
    without a record from which anything is restored, or with a restored
    session) the first entry of every non-empty history is the file that
    began the history: the file of the last upload, or, while there was
    no upload, the first restored entry.  Undo, redo, jump and reset
    leave the first entry of any non-empty history in place, and so does
    a commit whenever the cursor is not negative.  A restore installs
    the files decoded from the saved thumbnails: the first entry is then
    the file saved-image-0.png decoded from the first thumbnail of the
    record. *)
Theorem original_kept_within_session :
  forall FilterPanel_enabled : bool -> bool,
    FilterPanel_enabled true = false ->
    (forall w : World,
        in_visit FilterPanel_enabled w ->
        history (app w) <> [] ->
        originalImage (app w) = uploaded w)
    /\ (forall (s : AppState) (o : History.Op),
          history s <> [] ->
          (forall f, o = History.OpCommit f -> 0 <= historyIndex s) ->
          originalImage (History.apply s o) = originalImage s)
    /\ (forall ls ls' s',
          Persist.mount initialState ls = Some (s', ls') ->
          history s' <> [] ->
          exists v u rest f0,
            ls = Some (Persist.Json v)
            /\ Persist.get v "history"
               = Ok (Some (Persist.JArr (Persist.JStr u :: rest)))
            /\ dataURLtoFile u "saved-image-0.png" = Ok f0
            /\ originalImage s' = Some f0
            /\ file_name f0 = "saved-image-0.png").
Proof.
  intros FP Hg. split; [| split].
  - intros w Hw Hne.
    destruct (in_visit_ok FP Hg w Hw) as (_ & Hhist & _).
    rewrite original_is_head. exact (Hhist Hne).
  - intros s o. apply apply_keeps_first.
  - apply restored_first_entry.
Qed.

Lemma original_kept_within_session_witness :
  originalImage
    (app (run negb (boot seven_saved (restored_first seven_saved))
            restored_edit))
  = uploaded (run negb (boot seven_saved (restored_first seven_saved))
                restored_edit).
Proof.
  apply (proj1 (original_kept_within_session negb eq_refl)).
  - exists seven_saved, restored_edit.
    split; [| split; reflexivity].
    unfold stored_typed. vm_compute. exact I.
  - vm_compute. discriminate.
Defined.

(** C7 as stated fails: after an upload of [imgA], six edits, the
    autosave and a second visit, the history is restored from the last
    five thumbnails, and its first entry is the file decoded from the
    thumbnail of the second edit. *)
Lemma original_lost_on_restore :
  reachable negb revisit
  /\ history (app revisit) <> []
  /\ uploaded revisit = Some imgA
  /\ originalImage (app revisit)
     = Some (mkFile "saved-image-0.png" "image/jpeg" "C")
  /\ originalImage (app revisit) <> uploaded revisit.
Proof.
  split; [| split; [| split; [| split]]].
  - exists None, (six_filters ++ [Autosave roomy; Reload; Mount]). reflexivity.
  - vm_compute. discriminate.
  - vm_compute. reflexivity.
  - vm_compute. reflexivity.
  - vm_compute. discriminate.
Qed.

(** ** Style lock *)

Lemma mount_keeps_style (s s' : AppState) (ls ls' : Persist.Storage) :
  Persist.mount s ls = Some (s', ls') ->
  designSeed s' = designSeed s /\ referenceImage s' = referenceImage s
  /\ isStyleLocked s' = isStyleLocked s.
Proof.
  unfold Persist.mount. intros H.
  destruct (Persist.restore ls) as [| e | files i p t].
  - inversion H; subst. repeat split.
  - inversion H; subst. repeat split.
  - destruct i; try discriminate. destruct p; try discriminate.
    destruct t; try discriminate. inversion H; subst. repeat split.
Qed.

Lemma settle_keeps_style (p : Pending) (now : Z) (o : result string)
    (s : AppState) :
  designSeed (settle p now o s) = designSeed s
  /\ referenceImage (settle p now o s) = referenceImage s
  /\ isStyleLocked (settle p now o s) = isStyleLocked s.
Proof.
  unfold settle.
  destruct (bind o (fun url => dataURLtoFile url (filename (request p) now)));
    [destruct (clears_hotspot (request p)) |]; repeat split.
Qed.

Lemma handler_keeps_seed (c : Control) (s : AppState) (seed : Z) :
  keeps_seed s (Use c) = true ->
  designSeed s = Some seed -> seed <> 0 ->
  designSeed (state_of (handler c s)) = Some seed
  /\ referenceImage (state_of (handler c s)) = referenceImage s.
Proof.
  intros K D NZ.
  destruct c; cbn [keeps_seed] in K; try discriminate; cbn [handler];
    unfold_handlers;
    repeat match goal with
      | |- context [match ?x with _ => _ end] => destruct x eqn:?
      end; cbn; try (split; [assumption | reflexivity]);
    try congruence.
  all: try (rewrite K, D in *;
            destruct (Z.eqb_spec seed 0); [contradiction |];
            invert_outcome; split; congruence).
  all: try (split; congruence).
  break_match; invert_outcome; split; assumption || reflexivity.
Qed.

Section StyleFacts.

Variable FP : bool -> bool.

Lemma step_keeps_seed (w : World) (e : Event) (seed : Z) :
  keeps_seed (app w) e = true ->
  designSeed (app w) = Some seed -> seed <> 0 ->
  designSeed (app (step FP w e)) = Some seed
  /\ referenceImage (app (step FP w e)) = referenceImage (app w).
Proof.
  intros K D NZ. destruct e as [| c | n now outcome | b |]; cbn [step].
  - destruct (mounted w); [now split |].
    destruct (Persist.mount (app w) (storage w)) as [[s ls] |] eqn:Em;
      [| now split].
    destruct (mount_keeps_style _ _ _ _ Em) as (H1 & H2 & _).
    cbn [app]. split; congruence.
  - destruct (mounted w && enabled FP (app w) c); [| now split].
    pose proof (handler_keeps_seed c (app w) seed K D NZ) as H.
    destruct (handler c (app w)); exact H.
  - destruct (nth_error (inflight w) n) as [p |]; [| now split].
    destruct (settle_keeps_style p now outcome (app w)) as (H1 & H2 & _).
    cbn [app]. split; congruence.
  - destruct (mounted w); [| now split].
    destruct (Persist.saveData b (app w) (storage w)); now split.
  - discriminate.
Qed.

Lemma run_keeps_seed (es : list Event) (seed : Z) :
  forall w,
    seed_kept FP w es = true ->
    designSeed (app w) = Some seed -> seed <> 0 ->
    designSeed (app (run FP w es)) = Some seed
    /\ referenceImage (app (run FP w es)) = referenceImage (app w).
Proof.
  induction es as [| e es IH]; intros w K D NZ; [now split |].
  cbn in K. apply andb_prop in K as [K Ks].
  destruct (step_keeps_seed w e seed K D NZ) as [D1 R1].
  destruct (IH _ Ks D1 NZ) as [D2 R2].
  change (run FP w (e :: es)) with (run FP (step FP w e) es).
  split; congruence.
Qed.

(** A style request that was started, read off the handler. *)
Lemma started_style (w : World) p r img ref sd :
  started FP w (Use (StyleButton p r)) = Some (generateStyledImage img ref p sd) ->
  referenceImage (app w) = Some ref
  /\ sd = (if isStyleLocked (app w) then
             match designSeed (app w) with
             | Some z => if z =? 0 then Some r else Some z
             | None => Some r
             end
           else None)
  /\ designSeed (app (step FP w (Use (StyleButton p r))))
     = (if isStyleLocked (app w) then sd else None).
Proof.
  cbn [started step]. intros H.
  destruct (mounted w && enabled FP (app w) (StyleButton p r)); [| discriminate].
  cbn [handler] in *. unfold handleApplyStyle in *.
  destruct (currentImage (app w)); [| discriminate].
  destruct (referenceImage (app w)); [| discriminate].
  destruct (isStyleLocked (app w)).
  - destruct (designSeed (app w)) as [z |] eqn:D.
    + destruct (z =? 0); cbn in *; inversion H; subst; repeat split; assumption.
    + cbn in *; inversion H; subst; repeat split.
  - cbn in *; inversion H; subst; repeat split.
Qed.

Lemma style_keeps_reference (w : World) p r :
  referenceImage (app (step FP w (Use (StyleButton p r))))
  = referenceImage (app w).
Proof.
  cbn [step].
  destruct (mounted w && enabled FP (app w) (StyleButton p r)); [| reflexivity].
  cbn [handler]. unfold handleApplyStyle.
  destruct (currentImage (app w)); [| reflexivity].
  destruct (referenceImage (app w)) eqn:R; [| cbn; now rewrite R].
  destruct (isStyleLocked (app w)); [| cbn; now rewrite R].
  destruct (designSeed (app w)) as [z |]; [destruct (z =? 0) |];
    cbn; now rewrite R.
Qed.

End StyleFacts.


(** A stored seed of 0 counts as no seed: the next locked request draws
    again. *)
Example zero_seed_drawn_again :
  let w1 := step negb designing (Use (StyleButton "" 0)) in
  let w2 := step negb w1 (Settled 0 1 (Ok "data:image/png;base64,Qw==")) in
  seed_of (started negb designing (Use (StyleButton "" 0))) = Some (Some 0)
  /\ designSeed (app w2) = Some 0
  /\ seed_of (started negb w2 (Use (StyleButton "" 7))) = Some (Some 7).
Proof. vm_compute. repeat split. Qed.

(** C5, as the code has it.  A locked style request uses the stored seed
    when there is one other than 0 and otherwise draws a seed and stores
    it; a later locked request uses that same seed (when it is not 0) and
    the same reference image, provided that in between the reference
    image was not set, no new session was started and no style request
    was made with the lock off.  A style request with the lock off clears
    the stored seed, and so does setting the reference image: the next
    locked request then draws a fresh seed. *)
Theorem locked_style_seed_reused :
  forall (FilterPanel_enabled : bool -> bool) (w : World)
         p1 r1 img ref sd,
    isStyleLocked (app w) = true ->
    started FilterPanel_enabled w (Use (StyleButton p1 r1))
    = Some (generateStyledImage img ref p1 sd) ->
    let w1 := step FilterPanel_enabled w (Use (StyleButton p1 r1)) in
    exists seed,
      sd = Some seed /\ designSeed (app w1) = Some seed
      /\ (designSeed (app w) = None -> seed = r1)
      /\ (forall z, designSeed (app w) = Some z -> z <> 0 -> seed = z)
      /\ (seed <> 0 ->
          forall es p2 r2 img2 ref2 sd2,
            seed_kept FilterPanel_enabled w1 es = true ->
            isStyleLocked (app (run FilterPanel_enabled w1 es)) = true ->
            started FilterPanel_enabled (run FilterPanel_enabled w1 es)
              (Use (StyleButton p2 r2))
            = Some (generateStyledImage img2 ref2 p2 sd2) ->
            sd2 = Some seed /\ ref2 = ref)
      /\ (forall f s, designSeed (handleSetReferenceImage f s) = None)
      /\ (forall p r s s' q,
            isStyleLocked s = false ->
            handleApplyStyle p r s = Awaiting s' q ->
            designSeed s' = None
            /\ seed_of (Some (request q)) = Some None).
Proof.
  intros FP w p1 r1 img ref sd L St w1.
  destruct (started_style FP w p1 r1 img ref sd St) as (R & Esd & D1).
  rewrite L in Esd, D1. fold w1 in D1.
  assert (Hseed : exists seed, sd = Some seed
            /\ (designSeed (app w) = None -> seed = r1)
            /\ (forall z, designSeed (app w) = Some z -> z <> 0 -> seed = z)).
  { destruct (designSeed (app w)) as [z |].
    - destruct (z =? 0) eqn:Ez0.
      + apply Z.eqb_eq in Ez0. exists r1.
        split; [exact Esd |]. split; [discriminate |].
        intros z' Ez NZ. inversion Ez. congruence.
      + exists z. split; [exact Esd |]. split; [discriminate |].
        intros z' Ez _. now inversion Ez.
    - exists r1. split; [exact Esd |]. split; [reflexivity | discriminate]. }
  destruct Hseed as (seed & -> & Hnone & Hsome).
  exists seed. split; [reflexivity |]. split; [exact D1 |].
  split; [exact Hnone |]. split; [exact Hsome |]. split; [| split].
  - intros NZ es p2 r2 img2 ref2 sd2 K L2 St2.
    destruct (run_keeps_seed FP es seed w1 K D1 NZ) as [D2 R2].
    destruct (started_style FP _ p2 r2 img2 ref2 sd2 St2) as (R3 & Esd2 & _).
    rewrite L2, D2 in Esd2.
    destruct (Z.eqb_spec seed 0); [contradiction |].
    split; [exact Esd2 |].
    unfold w1 in *. rewrite style_keeps_reference in R2. congruence.
  - reflexivity.
  - intros p r s s' q Lf H. unfold handleApplyStyle in H.
    destruct (currentImage s); [| discriminate].
    destruct (referenceImage s); [| discriminate].
    rewrite Lf in H. cbn in H. inversion H; subst. split; reflexivity.
Qed.

Lemma locked_style_seed_reused_witness :
  isStyleLocked (app designing) = true
  /\ started negb designing (Use (StyleButton "" 111))
     = Some (generateStyledImage imgA imgB "" (Some 111))
  /\ exists seed,
       Some 111 = Some seed
       /\ designSeed (app (step negb designing (Use (StyleButton "" 111))))
          = Some seed
       /\ (seed <> 0 -> Some 111 = Some seed /\ imgB = imgB).
Proof.
  split; [reflexivity |]. split; [reflexivity |].
  destruct (locked_style_seed_reused negb designing "" 111 imgA imgB (Some 111)
              eq_refl eq_refl)
    as (seed & E1 & E2 & _ & _ & Hre & _).
  exists seed. split; [exact E1 |]. split; [exact E2 |].
  intros NZ.
  exact (Hre NZ [Settled 0 1 (Ok "data:image/png;base64,Qw==")]
             "warm" 222 (mkFile "styled-1.png" "image/png" "C") imgB
             (Some 111) eq_refl eq_refl eq_refl).
Defined.

(** C5 as stated fails: two locked style requests with the same
    reference image, no change of the reference image between them, and
    different seeds; between them a style request was made with the lock
    off. *)
Lemma style_seed_reset_by_unlocked_request :
  let w1 := step negb designing (Use (StyleButton "" 111)) in
  let w2 := run negb w1 unlocked_between in
  isStyleLocked (app designing) = true
  /\ started negb designing (Use (StyleButton "" 111))
     = Some (generateStyledImage imgA imgB "" (Some 111))
  /\ existsb changes_reference unlocked_between = false
  /\ referenceImage (app w2) = referenceImage (app designing)
  /\ isStyleLocked (app w2) = true
  /\ started negb w2 (Use (StyleButton "" 222))
     = Some (generateStyledImage (mkFile "styled-2.png" "image/png" "D")
               imgB "" (Some 222))
  /\ Some 111 <> Some 222.
Proof.
  vm_compute. repeat split; discriminate.
Qed.

(** Upload New between two locked requests resets the seed as well, the
    reference image staying as it is. *)
Example style_seed_reset_by_upload_new :
  let w1 := step negb designing (Use (StyleButton "" 111)) in
  let w2 := run negb w1 upload_new_between in
  seed_of (started negb designing (Use (StyleButton "" 111)))
  = Some (Some 111)
  /\ existsb changes_reference upload_new_between = false
  /\ referenceImage (app w2) = Some imgB
  /\ isStyleLocked (app w2) = true
  /\ seed_of (started negb w2 (Use (StyleButton "" 222))) = Some (Some 222).
Proof. vm_compute. repeat split. Qed.

(** ** Undo, redo, jump and reset as operations on the cursor *)

Lemma step_click_in_range (i : Z) (s : AppState) :
  0 <= i < len s ->
  handleHistoryStepClick i s
  = s |> setHistoryIndex i |> setEditHotspot None |> setDisplayHotspot None
      |> setCompletedCrop None.
Proof.
  intros Hi. unfold handleHistoryStepClick.
  destruct (Z.leb_spec 0 i); [| lia].
  destruct (Z.ltb_spec i (len s)); [reflexivity | lia].
Qed.

Lemma step_click_out_of_range (i : Z) (s : AppState) :
  ~ (0 <= i < len s) -> handleHistoryStepClick i s = s.
Proof.
  intros Hi. unfold handleHistoryStepClick.
  destruct (Z.leb_spec 0 i); [| reflexivity].
  destruct (Z.ltb_spec i (len s)); [lia | reflexivity].
Qed.

Lemma undo_cursor (s : AppState) :
  History.cursor_ok s ->
  history (handleUndo s) = history s
  /\ historyIndex (handleUndo s) = Z.max 0 (historyIndex s - 1).
Proof.
  intros [_ Hr]. unfold handleUndo, canUndo.
  destruct (Z.ltb_spec 0 (historyIndex s)).
  - rewrite step_click_in_range by lia. cbn. split; [reflexivity | lia].
  - split; [reflexivity | lia].
Qed.

Lemma redo_cursor (s : AppState) :
  History.cursor_ok s ->
  history (handleRedo s) = history s
  /\ historyIndex (handleRedo s) = Z.min (len s - 1) (historyIndex s + 1).
Proof.
  intros [_ Hr]. unfold handleRedo, canRedo.
  destruct (Z.ltb_spec (historyIndex s) (len s - 1)).
  - rewrite step_click_in_range by lia. cbn. split; [reflexivity | lia].
  - split; [reflexivity | lia].
Qed.

Lemma cursor_ok_same_history (s s' : AppState) :
  History.cursor_ok s -> history s' = history s ->
  0 <= historyIndex s' < len s -> History.cursor_ok s'.
Proof.
  intros [Hne _] Eh Hr. split; [congruence |]. unfold len in *. now rewrite Eh.
Qed.

(** X1. On a history whose cursor is in range, redo undoes an undo and
    undo undoes a redo: the entries and the cursor are those before. *)
Theorem undo_redo_inverse :
  forall s : AppState,
    History.cursor_ok s ->
    (canUndo s = true ->
     history (handleRedo (handleUndo s)) = history s
     /\ historyIndex (handleRedo (handleUndo s)) = historyIndex s)
    /\ (canRedo s = true ->
        history (handleUndo (handleRedo s)) = history s
        /\ historyIndex (handleUndo (handleRedo s)) = historyIndex s).
Proof.
  intros s H. pose proof H as [Hne Hr].
  destruct (undo_cursor s H) as [Uh Ui].
  destruct (redo_cursor s H) as [Rh Ri].
  split.
  - intros C. apply Z.ltb_lt in C.
    assert (H' : History.cursor_ok (handleUndo s))
      by (apply (cursor_ok_same_history s); [assumption | assumption | lia]).
    destruct (redo_cursor _ H') as [Rh' Ri'].
    split; [congruence |]. rewrite Ri', Ui. unfold len. rewrite Uh.
    fold (len s). lia.
  - intros C. apply Z.ltb_lt in C.
    assert (H' : History.cursor_ok (handleRedo s))
      by (apply (cursor_ok_same_history s); [assumption | assumption | lia]).
    destruct (undo_cursor _ H') as [Uh' Ui'].
    split; [congruence |]. rewrite Ui', Ri. lia.
Qed.

Lemma undo_redo_inverse_witness :
  history (handleRedo (handleUndo
     (initialState |> setHistory [imgA; imgB; imgC] |> setHistoryIndex 1)))
  = history (initialState |> setHistory [imgA; imgB; imgC] |> setHistoryIndex 1)
  /\ historyIndex (handleRedo (handleUndo
     (initialState |> setHistory [imgA; imgB; imgC] |> setHistoryIndex 1)))
  = historyIndex
      (initialState |> setHistory [imgA; imgB; imgC] |> setHistoryIndex 1).
Proof.
  apply undo_redo_inverse.
  - split; [discriminate | vm_compute; split; [discriminate | reflexivity]].
  - vm_compute. reflexivity.
Defined.

Lemma undo_iter (s : AppState) (k : nat) :
  History.cursor_ok s ->
  history (Nat.iter k handleUndo s) = history s
  /\ historyIndex (Nat.iter k handleUndo s)
     = Z.max 0 (historyIndex s - Z.of_nat k).
Proof.
  intros H. pose proof H as [Hne Hr].
  induction k as [| k [IHh IHi]]; [cbn; split; [reflexivity | lia] |].
  change (Nat.iter (S k) handleUndo s)
    with (handleUndo (Nat.iter k handleUndo s)).
  assert (H' : History.cursor_ok (Nat.iter k handleUndo s))
    by (apply (cursor_ok_same_history s); [assumption | assumption | lia]).
  destruct (undo_cursor _ H') as [Uh Ui].
  split; [congruence |]. rewrite Ui, IHi. lia.
Qed.

Lemma redo_iter (s : AppState) (k : nat) :
  History.cursor_ok s ->
  history (Nat.iter k handleRedo s) = history s
  /\ historyIndex (Nat.iter k handleRedo s)
     = Z.min (len s - 1) (historyIndex s + Z.of_nat k).
Proof.
  intros H. pose proof H as [Hne Hr].
  induction k as [| k [IHh IHi]]; [cbn; split; [reflexivity | lia] |].
  change (Nat.iter (S k) handleRedo s)
    with (handleRedo (Nat.iter k handleRedo s)).
  assert (H' : History.cursor_ok (Nat.iter k handleRedo s))
    by (apply (cursor_ok_same_history s); [assumption | assumption | lia]).
  destruct (redo_cursor _ H') as [Rh Ri].
  split; [congruence |]. rewrite Ri, IHi.
  unfold len. rewrite IHh. fold (len s). lia.
Qed.

(** X2. On a history whose cursor [c] is in range, [n] undos leave the
    entries alone and put the cursor at max(0, c - n), and [n] redos put
    it at min(length - 1, c + n): exactly [c] undos and
    [length - 1 - c] redos are available. *)
Theorem repeated_undo_redo :
  forall (s : AppState) (n : nat),
    History.cursor_ok s ->
    (history (Nat.iter n handleUndo s) = history s
     /\ historyIndex (Nat.iter n handleUndo s)
        = Z.max 0 (historyIndex s - Z.of_nat n))
    /\ (history (Nat.iter n handleRedo s) = history s
        /\ historyIndex (Nat.iter n handleRedo s)
           = Z.min (len s - 1) (historyIndex s + Z.of_nat n))
    /\ canUndo (Nat.iter (Z.to_nat (historyIndex s)) handleUndo s) = false
    /\ canRedo (Nat.iter (Z.to_nat (len s - 1 - historyIndex s)) handleRedo s)
       = false.
Proof.
  intros s n H. pose proof H as [Hne Hr].
  split; [now apply undo_iter |]. split; [now apply redo_iter |]. split.
  - unfold canUndo.
    destruct (undo_iter s (Z.to_nat (historyIndex s)) H) as [_ ->].
    apply Z.ltb_ge. lia.
  - unfold canRedo.
    destruct (redo_iter s (Z.to_nat (len s - 1 - historyIndex s)) H) as [Eh Ei].
    remember (Z.to_nat (len s - 1 - historyIndex s)) as k eqn:Ek.
    assert (El : len (Nat.iter k handleRedo s) = len s)
      by (unfold len; now rewrite Eh).
    rewrite Ei, El. apply Z.ltb_ge. lia.
Qed.

Lemma repeated_undo_redo_witness :
  history (Nat.iter 5 handleUndo seven) = history seven
  /\ historyIndex (Nat.iter 5 handleUndo seven)
     = Z.max 0 (historyIndex seven - Z.of_nat 5).
Proof.
  apply repeated_undo_redo.
  split; [discriminate | vm_compute; split; [discriminate | reflexivity]].
Defined.

(** X3. After a commit on a history whose cursor is in range the new
    image is current, nothing can be redone, the history holds [c + 2]
    entries; undo shows the image that was current before, and redo the
    new one again. *)
Theorem commit_then_undo :
  forall (s : AppState) (f : File),
    History.cursor_ok s ->
    currentImage (commit f s) = Some f
    /\ canRedo (commit f s) = false
    /\ canUndo (commit f s) = true
    /\ len (commit f s) = historyIndex s + 2
    /\ currentImage (handleUndo (commit f s)) = currentImage s
    /\ currentImage (handleRedo (handleUndo (commit f s))) = Some f.
Proof.
  intros s f H. pose proof H as [Hne Hr].
  assert (Eh : history (commit f s)
               = firstn (Z.to_nat (historyIndex s + 1)) (history s) ++ [f])
    by (apply HistoryFacts.commit_history; lia).
  assert (Ln : List.length (firstn (Z.to_nat (historyIndex s + 1)) (history s))
               = Z.to_nat (historyIndex s + 1)).
  { apply firstn_length_le. unfold len in Hr. lia. }
  assert (El : len (commit f s) = historyIndex s + 2).
  { unfold len at 1. rewrite Eh, length_app, Ln. cbn. lia. }
  assert (Ei : historyIndex (commit f s) = historyIndex s + 1).
  { rewrite HistoryFacts.commit_index, El. lia. }
  assert (Hc : History.cursor_ok (commit f s)).
  { split; [rewrite Eh; intros E; now apply app_eq_nil in E as [_ E] | lia]. }
  assert (Cur : currentImage (commit f s) = Some f).
  { unfold currentImage, JS.index. rewrite Ei, Eh.
    destruct (Z.ltb_spec (historyIndex s + 1) 0); [lia |].
    rewrite nth_error_app2 by lia. rewrite Ln, Nat.sub_diag. reflexivity. }
  destruct (undo_cursor _ Hc) as [Uh Ui].
  assert (Hu : History.cursor_ok (handleUndo (commit f s)))
    by (apply (cursor_ok_same_history (commit f s)); [assumption | assumption | lia]).
  destruct (redo_cursor _ Hu) as [Rh Ri].
  split; [exact Cur |]. split; [unfold canRedo; apply Z.ltb_ge; lia |].
  split; [unfold canUndo; apply Z.ltb_lt; lia |]. split; [exact El |]. split.
  - unfold currentImage, JS.index. rewrite Uh, Ui, Ei, Eh.
    replace (Z.max 0 (historyIndex s + 1 - 1)) with (historyIndex s) by lia.
    destruct (Z.ltb_spec (historyIndex s) 0); [lia |].
    rewrite nth_error_app1 by lia.
    rewrite nth_error_firstn.
    destruct (Nat.ltb_spec (Z.to_nat (historyIndex s))
                (Z.to_nat (historyIndex s + 1))); [reflexivity | lia].
  - unfold currentImage in *. rewrite Rh, Uh, Ri, Ui.
    unfold len at 1. rewrite Uh. fold (len (commit f s)).
    replace (Z.min (len (commit f s) - 1)
               (Z.max 0 (historyIndex (commit f s) - 1) + 1))
      with (historyIndex (commit f s)) by lia.
    exact Cur.
Qed.

Lemma commit_then_undo_witness :
  currentImage (commit imgD
     (initialState |> setHistory [imgA; imgB; imgC] |> setHistoryIndex 1))
  = Some imgD.
Proof.
  apply commit_then_undo.
  split; [discriminate | vm_compute; split; [discriminate | reflexivity]].
Defined.

(** X4. Reset does nothing on an empty history.  On a non-empty one it
    keeps the entries, puts the cursor on entry 0 whatever it was, shows
    the original image, clears the error and leaves nothing to undo; with
    the cursor in range it ends where as many undos as the cursor counts
    end. *)
Theorem reset_shows_original :
  forall s : AppState,
    (history s = [] -> handleReset s = s)
    /\ (history s <> [] ->
        history (handleReset s) = history s
        /\ historyIndex (handleReset s) = 0
        /\ currentImage (handleReset s) = originalImage s
        /\ error (handleReset s) = None
        /\ canUndo (handleReset s) = false)
    /\ (History.cursor_ok s ->
        history (handleReset s)
          = history (Nat.iter (Z.to_nat (historyIndex s)) handleUndo s)
        /\ historyIndex (handleReset s)
          = historyIndex (Nat.iter (Z.to_nat (historyIndex s)) handleUndo s)).
Proof.
  intros s.
  assert (N : history s <> [] ->
              handleReset s
              = s |> setHistoryIndex 0 |> setEditHotspot None
                  |> setDisplayHotspot None |> setCompletedCrop None
                  |> setError None).
  { intros Hne. unfold handleReset.
    assert (0 < len s) by (unfold len; destruct (history s); [congruence | cbn; lia]).
    destruct (Z.ltb_spec 0 (len s)); [| lia].
    now rewrite step_click_in_range by lia. }
  split; [| split].
  - intros E. unfold handleReset, len. now rewrite E.
  - intros Hne. rewrite (N Hne). repeat split.
  - intros H. pose proof H as [Hne Hr]. rewrite (N Hne). cbn.
    destruct (undo_iter s (Z.to_nat (historyIndex s)) H) as [Eh Ei].
    split; [now rewrite Eh | rewrite Ei; lia].
Qed.

(** X5. A jump to an index inside the history makes that entry the
    current image and leaves the entries alone, and of two jumps in a row
    the last one decides the whole state; a jump to an index outside the
    history changes nothing. *)
Theorem last_jump_wins :
  forall (s : AppState) (i j : Z),
    (0 <= j < len s ->
     handleHistoryStepClick j (handleHistoryStepClick i s)
       = handleHistoryStepClick j s
     /\ history (handleHistoryStepClick j s) = history s
     /\ currentImage (handleHistoryStepClick j s)
        = nth_error (history s) (Z.to_nat j))
    /\ (~ (0 <= j < len s) -> handleHistoryStepClick j s = s).
Proof.
  intros s i j. split; [| apply step_click_out_of_range].
  intros Hj. split; [| split].
  - destruct (Z.lt_ge_cases i 0) as [Hi | Hi];
      [rewrite (step_click_out_of_range i) by lia; reflexivity |].
    destruct (Z.lt_ge_cases i (len s)) as [Hi' | Hi'];
      [| rewrite (step_click_out_of_range i) by lia; reflexivity].
    rewrite (step_click_in_range i s) by lia.
    rewrite !step_click_in_range by (unfold len in *; cbn; lia).
    reflexivity.
  - rewrite step_click_in_range by lia. reflexivity.
  - rewrite step_click_in_range by lia. unfold currentImage, JS.index. cbn.
    destruct (Z.ltb_spec j 0); [lia | reflexivity].
Qed.

(** ** What the autosave writes and what comes back *)




Lemma saved_window (s : AppState) :
  History.cursor_ok s ->
  (1 <= List.length (Persist.historyToSave s) <= 5)%nat
  /\ Z.of_nat (List.length (Persist.historyToSave s))
     = Z.min 5 (len s)
  /\ 0 <= Persist.historyIndexToSave s
       < Z.of_nat (List.length (Persist.historyToSave s)).
Proof.
  intros [Hne Hr].
  assert (L : Z.of_nat (List.length (Persist.historyToSave s)) = Z.min 5 (len s)).
  { unfold Persist.historyToSave, Persist.MAX_HISTORY_AUTOSAVE.
    now rewrite (length_slice_suffix (history s) 5) by lia. }
  unfold Persist.historyIndexToSave. rewrite PersistFacts.truncatedCount_eq.
  unfold Persist.MAX_HISTORY_AUTOSAVE. lia.
Qed.

(** X6. With the cursor in range, a save that goes through writes a
    record with as many thumbnails as min(5, entries), at least one, and
    a cursor inside them; whatever happens, the storage afterwards holds
    that record, the record it held before, or none.  A failure that is
    no quota failure leaves the stored record as it was. *)
Theorem saved_record_fits_window :
  forall (b : Persist.Browser) (s : AppState) (ls ls' : Persist.Storage),
    History.cursor_ok s ->
    Persist.saveData b s ls = Ok ls' ->
    (ls' = ls \/ ls' = None
     \/ exists urls,
          ls' = Some (Persist.Json (Persist.stateToSave s urls))
          /\ Persist.thumbnails b (Persist.historyToSave s) = Ok urls
          /\ Z.of_nat (List.length urls) = Z.min 5 (len s)
          /\ (1 <= List.length urls)%nat
          /\ 0 <= Persist.historyIndexToSave s < Z.of_nat (List.length urls))
    /\ (forall e,
          Persist.save_try b s ls = Throw e ->
          Persist.is_quota_error e = false -> ls' = ls).
Proof.
  intros b s ls ls' H E. pose proof H as [Hne Hr].
  destruct (saved_window s H) as (W1 & W2 & W3).
  unfold Persist.saveData in E.
  destruct (Z.ltb_spec 0 (len s)); [| lia].
  destruct (Persist.save_try b s ls) as [w | e] eqn:Et.
  - inversion E; subst w. split; [| discriminate].
    right; right. unfold Persist.save_try, bind in Et.
    destruct (Persist.thumbnails b (Persist.historyToSave s)) as [urls |] eqn:Eu;
      [| discriminate].
    destruct (Persist.setItem_throws b (Persist.stateToSave s urls));
      [discriminate |].
    inversion Et; subst ls'. exists urls.
    rewrite (PersistFacts.thumbnails_length _ _ _ Eu).
    repeat split; try reflexivity; lia.
  - unfold Persist.save_catch in E. split.
    + destruct (Persist.is_quota_error e); inversion E; auto.
    + intros e' Ee' Q. inversion Ee'; subst e'. rewrite Q in E. now inversion E.
Qed.

Lemma saved_record_fits_window_witness :
  exists urls,
    seven_saved = Some (Persist.Json (Persist.stateToSave seven urls))
    /\ Persist.thumbnails roomy (Persist.historyToSave seven) = Ok urls
    /\ Z.of_nat (List.length urls) = Z.min 5 (len seven)
    /\ (1 <= List.length urls)%nat
    /\ 0 <= Persist.historyIndexToSave seven < Z.of_nat (List.length urls).
Proof.
  assert (Hc : History.cursor_ok seven)
    by (split; [discriminate | vm_compute; split; [discriminate | reflexivity]]).
  assert (Hs : Persist.saveData roomy seven None = Ok seven_saved)
    by (vm_compute; reflexivity).
  destruct (proj1 (saved_record_fits_window roomy seven None seven_saved Hc Hs))
    as [E | [E | E]].
  - discriminate E.
  - discriminate E.
  - exact E.
Defined.



(** ** The cursor across visits *)

Lemma restore_saved (s : AppState) (urls : list string) :
  Persist.restore (Some (Persist.Json (Persist.stateToSave s urls)))
  = match Persist.decode_all (map Persist.JStr urls) 0 with
    | Ok files =>
        Persist.Install files (Persist.JNum (Persist.historyIndexToSave s))
          (Persist.JStr (prompt s)) (Persist.JStr (activeTab s))
    | Throw e => Persist.Caught e
    end.
Proof.
  unfold Persist.restore, Persist.restore_parsed, Persist.stateToSave.
  cbn [Persist.get Persist.assoc String.eqb Ascii.eqb Bool.eqb bind].
  destruct (Persist.decode_all (map Persist.JStr urls) 0); reflexivity.
Qed.

Lemma saveData_in_range (b : Persist.Browser) (s : AppState)
    (ls ls' : Persist.Storage) :
  (history s <> [] -> 0 <= historyIndex s < len s) ->
  stored_in_range ls ->
  Persist.saveData b s ls = Ok ls' -> stored_in_range ls'.
Proof.
  intros Hs Hls E. unfold Persist.saveData in E.
  destruct (Z.ltb_spec 0 (len s)) as [Hn | Hn];
    [| inversion E; exact I].
  assert (Hc : History.cursor_ok s).
  { assert (Hne : history s <> [])
      by (unfold len in Hn; destruct (history s); [cbn in Hn; lia | discriminate]).
    split; [exact Hne | exact (Hs Hne)]. }
  destruct (Persist.save_try b s ls) as [w | e] eqn:Et.
  - inversion E; subst w. unfold Persist.save_try, bind in Et.
    destruct (Persist.thumbnails b (Persist.historyToSave s)) as [urls |] eqn:Eu;
      [| discriminate].
    destruct (Persist.setItem_throws b (Persist.stateToSave s urls));
      [discriminate |].
    inversion Et; subst ls'. unfold stored_in_range. rewrite restore_saved.
    destruct (Persist.decode_all (map Persist.JStr urls) 0) as [files |] eqn:Ed;
      [| exact I].
    intros _. apply PersistFacts.decode_all_length in Ed.
    rewrite length_map in Ed.
    rewrite Ed, (PersistFacts.thumbnails_length _ _ _ Eu).
    apply (saved_window s Hc).
  - unfold Persist.save_catch in E.
    destruct (Persist.is_quota_error e); inversion E; subst;
      [exact I | exact Hls].
Qed.

Lemma commit_cursor (h : list File) (i : Z) (f : File) (s : AppState) :
  history (addImageToHistory h i f s) <> []
  /\ 0 <= historyIndex (addImageToHistory h i f s)
       < len (addImageToHistory h i f s).
Proof.
  unfold addImageToHistory, len. cbn. split.
  - intros E. apply (f_equal (@List.length File)) in E.
    rewrite length_app in E. cbn in E. lia.
  - rewrite length_app. cbn. lia.
Qed.

Lemma step_cursor_kept (FP : bool -> bool) (w : World) (e : Event) :
  cursor_kept w -> cursor_kept (step FP w e).
Proof.
  intros [Ha Hs]. destruct e as [| c | n now outcome | b |]; cbn [step].
  - destruct (mounted w); [split; assumption |].
    unfold Persist.mount.
    pose proof Hs as Hs'. unfold stored_in_range in Hs'.
    destruct (Persist.restore (storage w)) as [| e | files i p t] eqn:R.
    + split; [exact Ha | exact Hs].
    + split; [exact Ha | exact I].
    + destruct i, p, t; try (split; [exact Ha | exact Hs]).
      split; [| exact Hs]. cbn. unfold len. cbn. exact Hs'.
  - destruct (mounted w && enabled FP (app w) c); [| split; assumption].
    destruct (handler c (app w)) as [s | s p] eqn:Hh.
    + split; [| exact Hs]. cbn [app].
      destruct (handler_returned_history _ _ _ Hh)
        as [[Eh Ei] | [[Eh Ei] | [(f & _ & Eh & Ei) | (f & cv & nw & _ & ->)]]].
      * rewrite Eh. intros Hne. specialize (Ha Hne).
        unfold len in *. rewrite Eh. destruct Ei as [-> | Ei]; lia.
      * congruence.
      * intros _. unfold len. rewrite Eh, Ei. cbn. lia.
      * intros _. apply commit_cursor.
    + split; [| exact Hs]. cbn [app].
      destruct (handler_awaiting _ _ _ _ Hh) as (_ & _ & _ & Eh & Ei & _).
      unfold len. rewrite Eh, Ei. exact Ha.
  - destruct (nth_error (inflight w) n) as [p |]; [| split; assumption].
    split; [| exact Hs]. cbn [app].
    destruct (settle_history p now outcome (app w)) as [[Eh Ei] | (f & Eh & Ei)].
    + unfold len. rewrite Eh, Ei. exact Ha.
    + intros _. unfold len. rewrite Eh, Ei.
      apply (commit_cursor (seen_history p) (seen_index p) f (app w)).
  - destruct (mounted w); [| split; assumption].
    destruct (Persist.saveData b (app w) (storage w)) as [ls |] eqn:E;
      [| split; assumption].
    split; [exact Ha |]. exact (saveData_in_range _ _ _ _ Ha Hs E).
  - split; [intros H; now contradiction H | exact Hs].
Qed.

Lemma run_cursor_kept (FP : bool -> bool) (es : list Event) :
  forall w, cursor_kept w -> cursor_kept (run FP w es).
Proof.
  induction es as [| e es IH]; intros w H; [exact H |].
  cbn. apply IH. now apply step_cursor_kept.
Qed.

Lemma stored_in_range_mount (s : AppState) (ls : Persist.Storage) :
  stored_in_range ls -> Persist.mount s ls <> None.
Proof.
  unfold stored_in_range, Persist.mount.
  destruct (Persist.restore ls) as [| e | files i p t]; try discriminate.
  destruct i; try contradiction. destruct p; try contradiction.
  destruct t; try contradiction. discriminate.
Qed.

(** X8. The cursor stays inside the history across visits.  From a
    storage that holds no record, one from which nothing is restored,
    or one whose restore installs a number inside the history for the
    cursor and strings for prompt and tab: whatever is done on the page
    over any number of visits, with requests that succeed or fail in
    any order, with autosaves that go through or fail, a loaded history
    that is not empty has its cursor inside it, the stored record is
    again such a record, and the mount effect of the next visit installs
    values of the types of the cells.  No assumption is made on which
    controls the panels disable. *)
Theorem cursor_in_range_across_visits :
  forall (FilterPanel_enabled : bool -> bool) (ls : Persist.Storage)
         (up : option File) (es : list Event),
    stored_in_range ls ->
    (history (app (run FilterPanel_enabled (boot ls up) es)) <> [] ->
     History.cursor_ok (app (run FilterPanel_enabled (boot ls up) es)))
    /\ stored_in_range (storage (run FilterPanel_enabled (boot ls up) es))
    /\ (forall s : AppState,
          Persist.mount s (storage (run FilterPanel_enabled (boot ls up) es))
          <> None).
Proof.
  intros FP ls up es H.
  destruct (run_cursor_kept FP es (boot ls up)) as [Ha Hs].
  - split; [intros C; now contradiction C | exact H].
  - split; [| split; [exact Hs |]].
    + intros Hne. split; [exact Hne | exact (Ha Hne)].
    + intros s. now apply stored_in_range_mount.
Qed.

Lemma cursor_in_range_across_visits_witness :
  History.cursor_ok
    (app (run negb (boot seven_saved None)
            [Mount; Use (TabButton "filters"); Use (FilterButton "vintage");
             Settled 0 1 (Ok "data:image/png;base64,Qg==");
             Autosave roomy; Reload; Mount; Use UndoButton])).
Proof.
  apply (proj1 (cursor_in_range_across_visits negb seven_saved None
                  [Mount; Use (TabButton "filters");
                   Use (FilterButton "vintage");
                   Settled 0 1 (Ok "data:image/png;base64,Qg==");
                   Autosave roomy; Reload; Mount; Use UndoButton]
                  ltac:(unfold stored_in_range; vm_compute; intros _;
                        split; [discriminate | reflexivity]))).
  vm_compute. discriminate.
Defined.

(** ** The spinner *)

Lemma settle_not_loading (p : Pending) (now : Z) (o : result string)
    (s : AppState) :
  isLoading (settle p now o s) = false.
Proof.
  unfold settle.
  destruct (bind o (fun url => dataURLtoFile url (filename (request p) now)));
    [destruct (clears_hotspot (request p)) |]; reflexivity.
Qed.

Lemma step_idle_not_loading (FP : bool -> bool) (w : World) (e : Event) :
  (mounted w = true -> inflight w = [] -> isLoading (app w) = false) ->
  mounted (step FP w e) = true -> inflight (step FP w e) = [] ->
  isLoading (app (step FP w e)) = false.
Proof.
  intros H. destruct e as [| c | n now outcome | b |]; cbn [step].
  - destruct (mounted w) eqn:M; [intros _; exact (H eq_refl) |].
    unfold Persist.mount.
    destruct (Persist.restore (storage w)) as [| e | files i p t];
      try reflexivity.
    destruct i, p, t; cbn; rewrite ?M; try discriminate; reflexivity.
  - destruct (mounted w && enabled FP (app w) c) eqn:E; [| exact H].
    apply andb_prop in E as [M E].
    destruct (handler c (app w)) as [s | s p] eqn:Hh; cbn.
    + intros _ I0. rewrite (handler_returned_loading _ _ _ Hh). now apply H.
    + intros _ I0. now destruct (inflight w).
  - destruct (nth_error (inflight w) n) as [p |] eqn:N; [| exact H].
    cbn. intros _ _. apply settle_not_loading.
  - destruct (mounted w) eqn:M; [| rewrite M; discriminate].
    destruct (Persist.saveData b (app w) (storage w));
      [| rewrite M; intros _; exact (H eq_refl)].
    cbn. intros _. exact (H eq_refl).
  - cbn. discriminate.
Qed.

(** X9. The spinner tells the truth.  With the apply control of the
    filter panel disabled while loading, on every page that has run its
    mount effect the loading flag is set exactly when a request is
    pending: no failure, autosave or use of a control leaves the flag set
    with nothing pending, or a request pending behind an idle page. *)
Theorem loading_iff_pending :
  forall (FilterPanel_enabled : bool -> bool) (w : World),
    FilterPanel_enabled true = false ->
    reachable FilterPanel_enabled w ->
    mounted w = true ->
    (isLoading (app w) = true <-> inflight w <> []).
Proof.
  intros FP w G R M.
  pose proof (reachable_single_flight FP G w R) as [_ Hf].
  destruct R as (ls & es & ->).
  assert (Hidle : mounted (run FP (boot ls None) es) = true ->
                  inflight (run FP (boot ls None) es) = [] ->
                  isLoading (app (run FP (boot ls None) es)) = false).
  { clear M Hf.
    assert (Hgen : forall es w0,
              (mounted w0 = true -> inflight w0 = [] ->
               isLoading (app w0) = false) ->
              mounted (run FP w0 es) = true -> inflight (run FP w0 es) = [] ->
              isLoading (app (run FP w0 es)) = false).
    { clear es. induction es as [| e es IH]; intros w0 H0; [exact H0 |].
      change (run FP w0 (e :: es)) with (run FP (step FP w0 e) es).
      apply IH. now apply step_idle_not_loading. }
    apply Hgen. discriminate. }
  split.
  - intros L E. rewrite (Hidle M E) in L. discriminate.
  - intros Hne. destruct (inflight (run FP (boot ls None) es)) as [| p [| q r]];
      [now contradiction Hne | exact (proj1 Hf) | contradiction].
Qed.

Lemma loading_iff_pending_witness :
  isLoading (app filtering) = true <-> inflight filtering <> [].
Proof.
  apply (loading_iff_pending negb filtering).
  - reflexivity.
  - exists None. eexists. reflexivity.
  - vm_compute. reflexivity.
Defined.

(** ** Guards of the handlers and the controls in front of them *)

Lemma editor_screen (s : AppState) :
  renderContent s = EditorScreen ->
  error s = None /\ exists img, currentImage s = Some img.
Proof.
  unfold renderContent. intros R.
  destruct (isLoading s && (len s =? 0)); [discriminate |].
  destruct (error s); [discriminate |].
  destruct (currentImage s) as [img |]; [| discriminate].
  split; [reflexivity | now exists img].
Qed.

(** X10. The guards at the head of the handlers never fire from the
    page.  A submit control that is enabled finds its handler's
    preconditions met: the six asynchronous handlers start their
    request, with the loading flag set and the error cleared, and none
    of the submit handlers leaves an error message, the crop handler
    without a 2d context apart. *)
Theorem enabled_submit_is_accepted :
  forall (FilterPanel_enabled : bool -> bool) (s : AppState) (c : Control),
    is_submit c = true ->
    enabled FilterPanel_enabled s c = true ->
    ((forall canvas now, c <> CropButton canvas now) ->
     exists s' p,
       handler c s = Awaiting s' p
       /\ isLoading s' = true
       /\ seen_history p = history s /\ seen_index p = historyIndex s)
    /\ ((forall now, c <> CropButton None now) ->
        error (state_of (handler c s)) = None).
Proof.
  intros FP s c S E.
  assert (R : renderContent s = EditorScreen).
  { destruct c; try discriminate S; cbn [enabled] in E;
      destruct (renderContent s); try discriminate E; reflexivity. }
  destruct (editor_screen s R) as [Err [img Cur]].
  assert (Aw : (forall canvas now, c <> CropButton canvas now) ->
               exists s' p, handler c s = Awaiting s' p).
  { intros NC. destruct c; try discriminate S; cbn [enabled] in E;
      rewrite R in E; cbn [handler];
      unfold handleGenerate, handleApplyTryOn, handleApplyStyle,
        handleGeneratePersona, handleApplyAdjustment, handleApplyFilter, start;
      try rewrite Cur.
    - apply andb_prop in E as [_ E]. apply negb_true_iff in E.
      apply orb_false_elim in E as [E E3]. apply orb_false_elim in E as [_ E2].
      rewrite E2. destruct (editHotspot s); [eauto | discriminate].
    - apply andb_prop in E as [_ E]. apply andb_prop in E as [E _].
      apply andb_prop in E as [E _].
      destruct (editHotspot s); [eauto | discriminate].
    - apply andb_prop in E as [E _]. apply andb_prop in E as [E _].
      apply andb_prop in E as [_ E]. apply andb_prop in E as [_ E].
      destruct (referenceImage s); [| discriminate].
      destruct (isStyleLocked s); [| eauto].
      destruct (designSeed s) as [seed |]; [| eauto].
      destruct (seed =? 0); eauto.
    - eauto.
    - exfalso. now apply (NC canvas now).
    - eauto.
    - eauto. }
  split.
  - intros NC. destruct (Aw NC) as (s' & p & Hh). exists s', p.
    destruct (handler_awaiting _ _ _ _ Hh) as (_ & L & _ & _ & _ & Sh & Si & _).
    repeat split; assumption.
  - intros NC. destruct c; try discriminate S;
      try (destruct Aw as (s' & p & Hh); [intros; discriminate |];
           rewrite Hh; cbn;
           now destruct (handler_awaiting _ _ _ _ Hh) as (_ & _ & Er & _)).
    cbn [enabled] in E. rewrite R in E.
    apply andb_prop in E as [_ E]. apply negb_true_iff in E.
    apply orb_false_elim in E as [_ E]. apply negb_false_iff in E.
    unfold isCropping in E. cbn [handler]. unfold handleApplyCrop.
    destruct (completedCrop s); [| discriminate].
    destruct canvas as [url |]; [| now contradiction (NC now)].
    unfold bind.
    destruct (dataURLtoFile url
                ("cropped-" ++ JS.decimal (Z.to_nat now) ++ ".png")%string);
      cbn; exact Err.
Qed.

Lemma enabled_submit_is_accepted_witness :
  error (state_of (handler GenerateButton
    (initialState |> setIsLoading false |> setHistory [imgA]
       |> setHistoryIndex 0 |> setPrompt "make it blue"
       |> setEditHotspot (Some (3, 4))))) = None.
Proof.
  apply (enabled_submit_is_accepted negb).
  - reflexivity.
  - vm_compute. reflexivity.
  - discriminate.
Defined.

(** ** Results that arrive late *)

Lemma use_keeps_pending (FP : bool -> bool) (w : World) (c : Control)
    (p : Pending) :
  FP true = false ->
  single_flight w -> inflight w = [p] ->
  inflight (step FP w (Use c)) = [p]
  /\ mounted (step FP w (Use c)) = mounted w.
Proof.
  intros G Hs Hi. destruct (is_submit c) eqn:S.
  - rewrite (submit_rejected FP G w c Hs); [auto | | exact S].
    rewrite Hi. discriminate.
  - cbn [step]. destruct (mounted w && enabled FP (app w) c) eqn:E; [| auto].
    apply andb_prop in E as [M _].
    destruct (handler c (app w)) as [s | s q] eqn:Hh; cbn.
    + rewrite M. auto.
    + destruct (handler_awaiting _ _ _ _ Hh) as [S' _]. congruence.
Qed.

Lemma uses_keep_pending (FP : bool -> bool) (cs : list Control) :
  FP true = false ->
  forall (w : World) (p : Pending),
    single_flight w -> inflight w = [p] ->
    inflight (run FP w (map Use cs)) = [p].
Proof.
  intros G. induction cs as [| c cs IH]; intros w p Hs Hi; [exact Hi |].
  change (run FP w (map Use (c :: cs)))
    with (run FP (step FP w (Use c)) (map Use cs)).
  apply IH; [now apply step_single_flight |].
  now apply use_keeps_pending.
Qed.

(** X11. A result that arrives late is committed onto the history the
    request started from.  With the apply control of the filter panel
    disabled while loading: a request is started from a reachable world,
    then any controls are used while it is pending (undo, a click on a
    history step, Upload New, ...), then the request succeeds with a
    data URL that decodes.  The history is then the entries up to the
    cursor the handler saw at the start, followed by the new image, the
    cursor is on the new image, nothing is pending and the loading flag
    is cleared: what the controls used in between did to the history and
    the cursor is gone. *)
Theorem late_result_commits_on_seen_history :
  forall (FilterPanel_enabled : bool -> bool) (w : World) (c : Control)
         (r : Request) (cs : list Control) (now : Z) (url : string)
         (f : File),
    FilterPanel_enabled true = false ->
    reachable FilterPanel_enabled w ->
    inflight w = [] ->
    started FilterPanel_enabled w (Use c) = Some r ->
    dataURLtoFile url (filename r now) = Ok f ->
    let w' := run FilterPanel_enabled w
                (Use c :: map Use cs ++ [Settled 0 now (Ok url)]) in
    history (app w')
    = JS.slice (history (app w)) 0 (Some (historyIndex (app w) + 1)) ++ [f]
    /\ currentImage (app w') = Some f
    /\ inflight w' = [] /\ isLoading (app w') = false.
Proof.
  intros FP w c r cs now url f G R I0 St D w'.
  pose proof (reachable_single_flight FP G w R) as Hs.
  unfold started in St.
  destruct (mounted w && enabled FP (app w) c) eqn:E; [| discriminate].
  destruct (handler c (app w)) as [s | s p] eqn:Hh; [discriminate |].
  cbn in St. inversion St; subst r.
  destruct (handler_awaiting _ _ _ _ Hh) as (_ & _ & _ & _ & _ & Sh & Si & _).
  set (w1 := step FP w (Use c)).
  assert (I1 : inflight w1 = [p])
    by (unfold w1; cbn [step]; rewrite E, Hh, I0; reflexivity).
  assert (S1 : single_flight w1) by (now apply step_single_flight).
  pose proof (uses_keep_pending FP cs G w1 p S1 I1) as I2.
  assert (Ew : w' = step FP (run FP w1 (map Use cs)) (Settled 0 now (Ok url))).
  { unfold w', run, w1. cbn [fold_left]. now rewrite fold_left_app. }
  rewrite Ew. cbn [step]. rewrite I2. cbn [nth_error app inflight remove_nth].
  unfold settle. cbn [bind]. rewrite D.
  assert (Hc : forall (l : list File) (s0 : AppState),
            history s0 = l ++ [f] ->
            historyIndex s0 = Z.of_nat (List.length (l ++ [f])) - 1 ->
            currentImage s0 = Some f).
  { intros l s0 Eh Ei. unfold currentImage, JS.index. rewrite Eh, Ei.
    rewrite length_app. cbn.
    destruct (Z.ltb_spec (Z.of_nat (List.length l + 1) - 1) 0); [lia |].
    rewrite nth_error_app2 by lia.
    replace (Z.to_nat (Z.of_nat (List.length l + 1) - 1) - List.length l)%nat
      with 0%nat by lia.
    reflexivity. }
  rewrite <- Sh, <- Si.
  destruct (clears_hotspot (request p));
    (split; [reflexivity
            | split; [eapply Hc; reflexivity | split; reflexivity]]).
Qed.

Lemma late_result_commits_on_seen_history_witness :
  history (app (run negb
     (run negb (boot None None)
        [Mount; Use (FileSelect imgA); Use (TabButton "filters")])
     (Use (FilterButton "vintage")
      :: map Use [UploadNewButton]
      ++ [Settled 0 1 (Ok "data:image/png;base64,Qg==")])))
  = JS.slice
      (history (app (run negb (boot None None)
         [Mount; Use (FileSelect imgA); Use (TabButton "filters")])))
      0
      (Some (historyIndex (app (run negb (boot None None)
         [Mount; Use (FileSelect imgA); Use (TabButton "filters")])) + 1))
    ++ [mkFile "filtered-1.png" "image/png" "B"].
Proof.
  apply (late_result_commits_on_seen_history negb
           (run negb (boot None None)
              [Mount; Use (FileSelect imgA); Use (TabButton "filters")])
           (FilterButton "vintage")
           (generateFilteredImage imgA "vintage")
           [UploadNewButton] 1 "data:image/png;base64,Qg=="
           (mkFile "filtered-1.png" "image/png" "B")).
  - reflexivity.
  - exists None. eexists. reflexivity.
  - vm_compute. reflexivity.
  - vm_compute. reflexivity.
  - vm_compute. reflexivity.
Defined.

(** ** Data URLs between the service and the history *)

Lemma append_nil_r (s : string) : (s ++ "")%string = s.
Proof. induction s as [| c s IH]; cbn; [reflexivity | now rewrite IH]. Qed.

Lemma append_assoc (a b c : string) :
  ((a ++ b) ++ c)%string = (a ++ (b ++ c))%string.
Proof. induction a as [| x a IH]; cbn; [reflexivity | now rewrite IH]. Qed.

Lemma chars_append (a b : string) :
  JS.chars (a ++ b) = JS.chars a ++ JS.chars b.
Proof. induction a as [| x a IH]; cbn; [reflexivity | now rewrite IH]. Qed.

Lemma split_not_nil (sep : ascii) (s : string) : JS.split sep s <> [].
Proof.
  induction s as [| c s IH]; cbn; [discriminate |].
  destruct (Ascii.eqb c sep); [discriminate |].
  destruct (JS.split sep s); [contradiction | discriminate].
Qed.

Lemma split_at_first (sep : ascii) (a b : string) :
  forallb (fun c => negb (Ascii.eqb c sep)) (JS.chars a) = true ->
  JS.split sep (a ++ String sep b) = a :: JS.split sep b.
Proof.
  induction a as [| c a IH]; cbn; intros H.
  - now rewrite Ascii.eqb_refl.
  - apply andb_prop in H as [Hc Ha]. apply negb_true_iff in Hc.
    rewrite Hc, (IH Ha). reflexivity.
Qed.

Lemma split_without (sep : ascii) (a : string) :
  forallb (fun c => negb (Ascii.eqb c sep)) (JS.chars a) = true ->
  JS.split sep a = [a].
Proof.
  induction a as [| c a IH]; cbn; intros H; [reflexivity |].
  apply andb_prop in H as [Hc Ha]. apply negb_true_iff in Hc.
  rewrite Hc, (IH Ha). reflexivity.
Qed.

Lemma split_pieces (sep : ascii) (s : string) :
  Forall (fun x => forallb (fun c => negb (Ascii.eqb c sep)) (JS.chars x) = true)
         (JS.split sep s).
Proof.
  induction s as [| c s IH]; cbn; [repeat constructor |].
  destruct (Ascii.eqb c sep) eqn:E; [constructor; [reflexivity | exact IH] |].
  destruct (JS.split sep s) as [| hd tl]; [repeat constructor; cbn; now rewrite E |].
  inversion IH; subst. constructor; [cbn; now rewrite E | assumption].
Qed.

Lemma lazy_until_semicolon_stops (m r : string) :
  forallb mime_char (JS.chars m) = true ->
  JS.lazy_until_semicolon (m ++ String ";" r) = Some m.
Proof.
  induction m as [| c m IH]; cbn; intros H; [reflexivity |].
  apply andb_prop in H as [Hc Hm]. unfold mime_char in Hc.
  apply andb_prop in Hc as [Hc Hl]. apply andb_prop in Hc as [_ Hs].
  apply negb_true_iff in Hs, Hl. rewrite Hs, Hl, (IH Hm). reflexivity.
Qed.

Lemma lazy_until_semicolon_capture (P : ascii -> bool) (s cap : string) :
  JS.lazy_until_semicolon s = Some cap ->
  forallb P (JS.chars s) = true ->
  forallb P (JS.chars cap) = true
  /\ forallb (fun c => negb (Ascii.eqb c ";") && negb (JS.is_line_terminator c))
       (JS.chars cap) = true.
Proof.
  revert cap. induction s as [| c s IH]; cbn; intros cap E H; [discriminate |].
  apply andb_prop in H as [Hc Hs].
  destruct (Ascii.eqb c ";") eqn:Es; [inversion E; split; reflexivity |].
  destruct (JS.is_line_terminator c) eqn:El; [discriminate |].
  destruct (JS.lazy_until_semicolon s) as [cap' |]; [| discriminate].
  inversion E; subst cap. destruct (IH cap' eq_refl Hs) as [H1 H2].
  cbn. now rewrite Hc, Es, El, H1, H2.
Qed.

Lemma match_mime_capture (P : ascii -> bool) (s cap : string) :
  JS.match_mime s = Some cap ->
  forallb P (JS.chars s) = true ->
  forallb P (JS.chars cap) = true
  /\ forallb (fun c => negb (Ascii.eqb c ";") && negb (JS.is_line_terminator c))
       (JS.chars cap) = true.
Proof.
  induction s as [| c s IH]; cbn; intros E H; [discriminate |].
  apply andb_prop in H as [Hc Hs].
  destruct (Ascii.eqb c ":"); [| now apply IH].
  destruct (JS.lazy_until_semicolon s) as [cap' |] eqn:El; [| now apply IH].
  inversion E; subst cap'. exact (lazy_until_semicolon_capture P s cap El Hs).
Qed.

(** The URL [handleApiResponse] builds from a MIME type and a payload is
    read back by [dataURLtoFile] as just these two. *)
Lemma decode_built_url (m d name : string) :
  m <> EmptyString ->
  forallb mime_char (JS.chars m) = true ->
  forallb payload_char (JS.chars d) = true ->
  dataURLtoFile (Service.concat ["data:"; m; ";base64,"; d]) name
  = (bstr <- JS.atob d ;; Ok (FileCtor.new_File bstr name m)).
Proof.
  intros Hne Hm Hd.
  assert (Eu : Service.concat ["data:"; m; ";base64,"; d]
               = (("data:" ++ m ++ ";base64") ++ String "," d)%string).
  { unfold Service.concat. cbn [fold_right].
    rewrite append_nil_r. cbn. f_equal. f_equal. f_equal. f_equal. f_equal.
    rewrite append_assoc. reflexivity. }
  assert (Hh : forallb (fun c => negb (Ascii.eqb c ","))
                 (JS.chars ("data:" ++ m ++ ";base64")) = true).
  { rewrite !chars_append, !forallb_app. cbn.
    rewrite andb_true_r. apply forallb_forall. intros c Hc.
    pose proof (proj1 (forallb_forall _ _) Hm c Hc) as Mc. unfold mime_char in Mc.
    apply andb_prop in Mc as [Mc _]. now apply andb_prop in Mc as [Mc _]. }
  unfold dataURLtoFile. rewrite Eu, (split_at_first _ _ _ Hh).
  rewrite (split_without "," d Hd). cbn [List.length Nat.ltb Nat.leb nth].
  assert (Em : JS.match_mime ("data:" ++ m ++ ";base64") = Some m).
  { cbn. change (m ++ ";base64")%string with (m ++ String ";" "base64")%string.
    now rewrite (lazy_until_semicolon_stops m "base64" Hm). }
  rewrite Em. destruct m; [now contradiction Hne | reflexivity].
Qed.

(** X12. The image a response carries is the file that is committed.
    For a response that is not blocked and whose first image part has a
    MIME type (not empty, without comma, semicolon or line break) and a
    payload without comma, the URL [handleApiResponse] returns decodes
    with [dataURLtoFile] to the file that holds the base64-decoded
    payload under the given name, with the lower-cased MIME type; it
    fails exactly when the payload is no base64 text.  Context, text,
    finish reason and further candidates of the response play no part. *)
Theorem generated_image_decodes :
  forall (response : Service.GenerateContentResponse) (context name : string)
         (img : Service.InlineData) (m d : string),
    Service.truthy_opt (Service.blockReason response) = false ->
    Service.imagePartFromResponse response = Some img ->
    Service.mimeType img = Some m -> Service.data img = Some d ->
    m <> EmptyString ->
    forallb mime_char (JS.chars m) = true ->
    forallb payload_char (JS.chars d) = true ->
    (url <- Service.handleApiResponse response context ;;
     dataURLtoFile url name)
    = (bstr <- JS.atob d ;; Ok (FileCtor.new_File bstr name m)).
Proof.
  intros response context name img m d Hb Hi Em Ed Hne Hm Hd.
  unfold Service.handleApiResponse. rewrite Hb, Hi, Em, Ed.
  cbn [bind Service.interpolate]. now apply decode_built_url.
Qed.

Lemma generated_image_decodes_witness :
  (url <- Service.handleApiResponse
            (image_response (Service.mkInline (Some "image/PNG") (Some "SGk=")))
            "edit" ;;
   dataURLtoFile url "edited-1.png")
  = (bstr <- JS.atob "SGk=" ;;
     Ok (FileCtor.new_File bstr "edited-1.png" "image/PNG")).
Proof.
  apply (generated_image_decodes _ _ _
           (Service.mkInline (Some "image/PNG") (Some "SGk="))).
  - reflexivity.
  - reflexivity.
  - reflexivity.
  - reflexivity.
  - discriminate.
  - vm_compute. reflexivity.
  - vm_compute. reflexivity.
Defined.

(** X13. The request part and the decoded file read a data URL the same
    way.  [fileToPart] fails on a data URL with the error [dataURLtoFile]
    throws for it; when it returns a part, [dataURLtoFile] decodes the
    payload of that part and types the file with its MIME type, and a
    response that hands the very part back yields a URL that decodes as
    the original URL does. *)
Theorem part_and_file_agree :
  forall (readAsDataURL : File -> result string) (file : File)
         (url name context : string),
    readAsDataURL file = Ok url ->
    match fileToPart readAsDataURL file with
    | Ok part =>
        exists m d,
          part = Service.mkInline (Some m) (Some d)
          /\ dataURLtoFile url name
             = (bstr <- JS.atob d ;; Ok (FileCtor.new_File bstr name m))
          /\ (u <- Service.handleApiResponse (image_response part) context ;;
              dataURLtoFile u name)
             = dataURLtoFile url name
    | Throw e =>
        dataURLtoFile url name = Throw e
        /\ e <> JS.atob_error
    end.
Proof.
  intros reader file url name context Hr.
  unfold fileToPart, dataURLtoFile. rewrite Hr. cbn [bind].
  pose proof (split_pieces "," url) as Hp.
  destruct (JS.split "," url) as [| head [| payload rest]] eqn:Es.
  - cbn. split; [reflexivity | discriminate].
  - cbn. split; [reflexivity | discriminate].
  - cbn [List.length Nat.ltb Nat.leb nth].
    inversion Hp as [| ? ? Hhead Hp']; subst.
    inversion Hp' as [| ? ? Hpay _]; subst.
    destruct (JS.match_mime head) as [m |] eqn:Em;
      [| split; [reflexivity | discriminate]].
    destruct m as [| c m]; [split; [reflexivity | discriminate] |].
    exists (String c m), payload. split; [reflexivity |].
    split; [reflexivity |].
    destruct (match_mime_capture _ _ _ Em Hhead) as [H1 H2].
    assert (Hm : forallb mime_char (JS.chars (String c m)) = true).
    { apply forallb_forall. intros x Hx.
      pose proof (proj1 (forallb_forall _ _) H1 x Hx) as A1.
      pose proof (proj1 (forallb_forall _ _) H2 x Hx) as A2.
      cbn beta in A1, A2. apply andb_prop in A2 as [A2 A3].
      unfold mime_char. now rewrite A1, A2, A3. }
    unfold Service.handleApiResponse, image_response. cbn [bind].
    change (Service.truthy_opt (Service.blockReason _)) with false.
    cbn iota.
    change (dataURLtoFile
              (Service.concat ["data:"; String c m; ";base64,"; payload]) name
            = (bstr <- JS.atob payload ;;
               Ok (FileCtor.new_File bstr name (String c m)))).
    apply decode_built_url; [discriminate | exact Hm | exact Hpay].
Qed.

Lemma part_and_file_agree_witness :
  match fileToPart (fun _ => Ok "data:image/png;base64,QQ==") imgA with
  | Ok part =>
      exists m d,
        part = Service.mkInline (Some m) (Some d)
        /\ dataURLtoFile "data:image/png;base64,QQ==" "a.png"
           = (bstr <- JS.atob d ;; Ok (FileCtor.new_File bstr "a.png" m))
        /\ (u <- Service.handleApiResponse (image_response part) "edit" ;;
            dataURLtoFile u "a.png")
           = dataURLtoFile "data:image/png;base64,QQ==" "a.png"
  | Throw e =>
      dataURLtoFile "data:image/png;base64,QQ==" "a.png" = Throw e
      /\ e <> JS.atob_error
  end.
Proof.
  apply (part_and_file_agree (fun _ => Ok "data:image/png;base64,QQ==") imgA).
  reflexivity.
Defined.

(** ** The range of the design seed *)

Lemma handler_seed (c : Control) (s : AppState) (o : Outcome) :
  handler c s = o ->
  designSeed (state_of o) = designSeed s
  \/ designSeed (state_of o) = None
  \/ exists p random,
       c = StyleButton p random /\ designSeed (state_of o) = Some random.
Proof.
  intros H. subst o.
  destruct c; cbn [handler]; unfold_handlers;
    repeat match goal with
      | |- context [match ?x with _ => _ end] => destruct x eqn:?
      end;
    break_match; invert_outcome; cbn; eauto;
    right; right; do 2 eexists; split; reflexivity.
Qed.

Lemma settle_seed (p : Pending) (now : Z) (o : result string) (s : AppState) :
  designSeed (settle p now o s) = designSeed s.
Proof.
  unfold settle.
  destruct (bind o (fun url => dataURLtoFile url (filename (request p) now)));
    [destruct (clears_hotspot (request p)) |]; reflexivity.
Qed.

Lemma enabled_style_random (FP : bool -> bool) (s : AppState) (p : string)
    (random : Z) :
  enabled FP s (StyleButton p random) = true -> 0 <= random < 1000000000.
Proof.
  cbn [enabled]. destruct (renderContent s); try discriminate.
  intros E. bool_to_prop. lia.
Qed.

Lemma step_seed_range (FP : bool -> bool) (w : World) (e : Event) :
  (forall n, designSeed (app w) = Some n -> 0 <= n < 1000000000) ->
  forall n, designSeed (app (step FP w e)) = Some n -> 0 <= n < 1000000000.
Proof.
  intros H. destruct e as [| c | k now outcome | b |]; cbn [step].
  - destruct (mounted w); [exact H |]. unfold Persist.mount.
    destruct (Persist.restore (storage w)) as [| e | files i p t];
      [exact H | exact H |].
    destruct i, p, t; exact H.
  - destruct (mounted w && enabled FP (app w) c) eqn:E; [| exact H].
    apply andb_prop in E as [_ E].
    assert (Hs : forall n,
              designSeed (state_of (handler c (app w))) = Some n ->
              0 <= n < 1000000000).
    { intros n Hn.
      destruct (handler_seed c (app w) _ eq_refl)
        as [Eq | [Eq | (p & random & -> & Eq)]].
      - apply H. congruence.
      - congruence.
      - rewrite Eq in Hn. inversion Hn; subst.
        exact (enabled_style_random FP _ _ _ E). }
    destruct (handler c (app w)); exact Hs.
  - destruct (nth_error (inflight w) k); [| exact H].
    cbn [app]. intros n. rewrite settle_seed. apply H.
  - destruct (mounted w); [| exact H].
    destruct (Persist.saveData b (app w) (storage w)); exact H.
  - cbn. discriminate.
Qed.

(** X14. The seed of the style lock is a draw of
    [Math.floor(Math.random() * 1_000_000_000)].  On every reachable
    page the design seed is absent or lies in [0, 10^9), and the seed
    that a style request puts in the configuration of the call is absent
    or lies in [1, 10^9): a zero draw is never sent.  No assumption is
    made on which controls the panels disable. *)
Theorem seed_within_draw_range :
  forall (FilterPanel_enabled : bool -> bool) (w : World) (e : Event)
         (seed : option Z),
    reachable FilterPanel_enabled w ->
    (forall n, designSeed (app w) = Some n -> 0 <= n < 1000000000)
    /\ (seed_of (started FilterPanel_enabled w e) = Some seed ->
        forall n, config_seed seed = Some n -> 0 < n < 1000000000).
Proof.
  intros FP w e seed (ls & es & ->).
  assert (Hinv : forall n,
            designSeed (app (run FP (boot ls None) es)) = Some n ->
            0 <= n < 1000000000).
  { assert (Hgen : forall es w0,
              (forall n, designSeed (app w0) = Some n -> 0 <= n < 1000000000) ->
              forall n, designSeed (app (run FP w0 es)) = Some n ->
                        0 <= n < 1000000000).
    { clear es. induction es as [| e0 es IH]; intros w0 H0; [exact H0 |].
      change (run FP w0 (e0 :: es)) with (run FP (step FP w0 e0) es).
      apply IH. now apply step_seed_range. }
    apply Hgen. cbn. discriminate. }
  split; [exact Hinv |].
  set (w := run FP (boot ls None) es) in *.
  intros St n Hn. unfold started in St.
  destruct e as [| c | | |]; try discriminate St.
  destruct (mounted w && enabled FP (app w) c) eqn:E; [| discriminate St].
  apply andb_prop in E as [_ E].
  destruct c; cbn [handler] in St;
    try (unfold_handlers; cbn in St;
         repeat match type of St with
           | context [match ?x with _ => _ end] => destruct x; cbn in St
           end; discriminate St).
  pose proof (enabled_style_random FP _ _ _ E) as Hr.
  unfold handleApplyStyle in St.
  destruct (currentImage (app w)); [| discriminate St].
  destruct (referenceImage (app w)); [| discriminate St].
  destruct (isStyleLocked (app w)).
  - destruct (designSeed (app w)) as [sd |] eqn:Ed.
    + destruct (sd =? 0) eqn:Z0; cbn in St; inversion St; subst seed;
        cbn in Hn.
      * destruct (random =? 0) eqn:R0; inversion Hn; subst.
        apply Z.eqb_neq in R0. lia.
      * rewrite Z0 in Hn. inversion Hn; subst. apply Z.eqb_neq in Z0.
        specialize (Hinv _ eq_refl). lia.
    + cbn in St. inversion St; subst seed. cbn in Hn.
      destruct (random =? 0) eqn:R0; inversion Hn; subst.
      apply Z.eqb_neq in R0. lia.
  - cbn in St. inversion St; subst seed. discriminate Hn.
Qed.

Lemma seed_within_draw_range_witness :
  designSeed (app (run negb designing
                     [Use (StyleButton "watercolor" 42)])) = Some 42
  /\ 0 <= 42 < 1000000000.
Proof.
  split; [vm_compute; reflexivity |].
  apply (proj1 (seed_within_draw_range negb
                  (run negb designing [Use (StyleButton "watercolor" 42)])
                  Mount None
                  (ex_intro _ None (ex_intro _
                     ([Mount; Use (FileSelect imgA); Use (TabButton "design");
                       Use (ReferenceInput imgB); Use (LockSwitch true)]
                      ++ [Use (StyleButton "watercolor" 42)])
                     (eq_sym (fold_left_app _ _ _ _)))))
               42).
  vm_compute. reflexivity.
Defined.

Lemma split_with_sep (sep : ascii) (s : string) :
  forallb (fun c => negb (Ascii.eqb c sep)) (JS.chars s) = false ->
  (2 <= List.length (JS.split sep s))%nat.
Proof.
  induction s as [| c s IH]; cbn; intros H; [discriminate |].
  destruct (Ascii.eqb c sep) eqn:E; cbn in H.
  - pose proof (split_not_nil sep s).
    destruct (JS.split sep s); [contradiction | cbn; lia].
  - specialize (IH H). destruct (JS.split sep s); cbn in *; lia.
Qed.

(** X15. [dataURLtoFile] throws "Invalid data URL" exactly for the
    texts without a comma, and reads nothing past a second comma: the
    head up to the first comma and the payload up to the second one
    decide the result. *)
Theorem data_url_needs_one_comma :
  forall (url name : string),
    (dataURLtoFile url name = Throw (ErrorObj PlainError "Invalid data URL")
     <-> forallb payload_char (JS.chars url) = true)
    /\ (forall head payload rest : string,
          forallb payload_char (JS.chars head) = true ->
          forallb payload_char (JS.chars payload) = true ->
          url = (head ++ String "," (payload ++ String "," rest))%string ->
          dataURLtoFile url name
          = dataURLtoFile (head ++ String "," payload) name).
Proof.
  intros url name. split; [split |].
  - intros E.
    destruct (forallb payload_char (JS.chars url)) eqn:C; [reflexivity |].
    pose proof (split_with_sep "," url C) as L.
    unfold dataURLtoFile in E.
    destruct (Nat.ltb_spec (List.length (JS.split "," url)) 2); [lia |].
    destruct (JS.match_mime (nth 0 (JS.split "," url) "")) as [[| c m] |];
      try discriminate E.
    unfold bind in E.
    destruct (JS.atob (nth 1 (JS.split "," url) "")) as [b | e] eqn:A;
      [discriminate E |].
    unfold JS.atob in A.
    repeat match type of A with
      | context [if ?b then _ else _] => destruct b
      | context [match ?x with _ => _ end] => destruct x
      end; inversion A; subst; discriminate E.
  - intros C. unfold dataURLtoFile.
    now rewrite (split_without "," url C).
  - intros head payload rest Hh Hp ->. unfold dataURLtoFile.
    rewrite (split_at_first "," head _ Hh), (split_at_first "," payload _ Hp).
    rewrite (split_at_first "," head _ Hh), (split_without "," payload Hp).
    pose proof (split_not_nil "," rest).
    destruct (JS.split "," rest); [contradiction | reflexivity].
Qed.

(** ** Zoom and pan *)

Module ViewportFacts.
Import QArith Qminmax Lqa.
Import Viewport.
Local Open Scope Q_scope.

Lemma zoom_in_value (v : View) :
  zoom (handleZoomIn v) = Qmin (zoom v + ZOOM_STEP) MAX_ZOOM
  /\ pan (handleZoomIn v) = pan v.
Proof. split; reflexivity. Qed.

Lemma zoom_out_value (v : View) :
  MIN_ZOOM <= zoom v ->
  zoom (handleZoomOut v) == Qmax (zoom v - ZOOM_STEP) MIN_ZOOM
  /\ (zoom (handleZoomOut v) <= MIN_ZOOM -> pan (handleZoomOut v) = (0, 0))
  /\ (MIN_ZOOM < zoom (handleZoomOut v) -> pan (handleZoomOut v) = pan v).
Proof.
  unfold handleZoomOut, MIN_ZOOM, ZOOM_STEP. intros H.
  destruct (Qle_bool (Qmax (zoom v - 0.5) 1) 1) eqn:E; cbn.
  - apply Qle_bool_iff in E. split; [| split].
    + destruct (Q.max_spec (zoom v - 0.5) 1) as [[L M] | [L M]];
        rewrite M in *; lra.
    + reflexivity.
    + intros C. lra.
  - assert (N : ~ Qmax (zoom v - 0.5) 1 <= 1)
      by (intros C; apply Qle_bool_iff in C; congruence).
    split; [reflexivity | split; [intros C; contradiction | reflexivity]].
Qed.

Lemma gesture_at_rest (v : View) (g : Gesture) :
  at_rest v -> at_rest (gesture v g).
Proof.
  intros (R & (k & K) & P). unfold MIN_ZOOM, MAX_ZOOM, ZOOM_STEP in *.
  destruct g as [| | | x y | w i x y |]; cbn [gesture].
  - unfold at_rest, handleZoomIn, MIN_ZOOM, MAX_ZOOM, ZOOM_STEP. cbn.
    destruct (Q.min_spec (zoom v + 0.5) 5) as [[L M] | [L M]]; rewrite M.
    + split; [lra |]. split; [| intros C; lra].
      exists (k + 1)%Z. rewrite inject_Z_plus. change (inject_Z 1) with 1. lra.
    + split; [lra |]. split; [| intros C; lra].
      exists 10%Z. change (inject_Z 10) with 10. lra.
  - destruct (zoom_out_value v (proj1 R)) as (Z & P0 & P1).
    unfold MIN_ZOOM, ZOOM_STEP in *.
    split; [| split; [| exact P0]].
    + unfold MIN_ZOOM, MAX_ZOOM. rewrite Z.
      destruct (Q.max_spec (zoom v - 0.5) 1) as [[L M] | [L M]]; rewrite M; lra.
    + unfold ZOOM_STEP.
      destruct (Q.max_spec (zoom v - 0.5) 1) as [[L M] | [L M]].
      * exists 2%Z. rewrite Z, M. change (inject_Z 2) with 2. lra.
      * exists (k - 1)%Z. rewrite Z, M. unfold Z.sub.
        rewrite inject_Z_plus. change (inject_Z (- (1))) with (- (1)). lra.
  - unfold at_rest, resetZoomAndPan, MIN_ZOOM, MAX_ZOOM, ZOOM_STEP. cbn.
    split; [lra |]. split; [| reflexivity].
    exists 2%Z. change (inject_Z 2) with 2. lra.
  - unfold handlePanMouseDown.
    destruct (Qle_bool (zoom v) 1); (split; [exact R | split; [now exists k | exact P]]).
  - unfold handlePanMouseMove.
    destruct (negb (isPanning v) || Qle_bool (zoom v) 1)%bool eqn:E;
      [split; [exact R | split; [now exists k | exact P]] |].
    apply orb_false_elim in E as [_ E].
    assert (N : ~ zoom v <= 1)
      by (intros C; apply Qle_bool_iff in C; congruence).
    destruct w as [[ww wh] |], i as [[iw ih] |];
      (split; [exact R | split; [now exists k |]]); try exact P.
    cbn. intros C. contradiction.
  - split; [exact R | split; [now exists k | exact P]].
Qed.

Lemma gestures_at_rest (gs : list Gesture) :
  forall v, at_rest v -> at_rest (gestures v gs).
Proof.
  induction gs as [| g gs IH]; intros v H; [exact H |].
  cbn. apply IH. now apply gesture_at_rest.
Qed.

(** X16. The zoom moves on half steps between 1x and 5x, and an image
    at 1x is never displaced.  After any sequence of zoom buttons, view
    resets and mouse gestures on the image, whether or not the buttons
    were enabled: the zoom is a multiple of 0.5 between MIN_ZOOM and
    MAX_ZOOM, the pan is (0, 0) whenever the zoom is 1, zoom out is
    disabled exactly at 1x and zoom in exactly at 5x. *)
Theorem zoom_on_half_steps :
  forall (gs : list Gesture),
    at_rest (gestures initialView gs)
    /\ (canZoomOut (gestures initialView gs) = false
        <-> zoom (gestures initialView gs) == MIN_ZOOM)
    /\ (canZoomIn (gestures initialView gs) = false
        <-> zoom (gestures initialView gs) == MAX_ZOOM).
Proof.
  intros gs.
  assert (H : at_rest (gestures initialView gs)).
  { apply gestures_at_rest. unfold at_rest, MIN_ZOOM, MAX_ZOOM, ZOOM_STEP. cbn.
    split; [lra |]. split; [| reflexivity]. exists 2%Z. change (inject_Z 2) with 2. lra. }
  split; [exact H |]. destruct H as (R & _ & _).
  unfold canZoomOut, canZoomIn, MIN_ZOOM, MAX_ZOOM in *.
  split; rewrite negb_false_iff, Qle_bool_iff; split; intros C; lra.
Qed.

Ltac case_min a b :=
  let m := fresh "m" in
  destruct (Q.min_spec a b) as [[? ?] | [? ?]];
  set (m := Qmin a b) in *; clearbody m.

Ltac case_max a b :=
  let m := fresh "m" in
  destruct (Q.max_spec a b) as [[? ?] | [? ?]];
  set (m := Qmax a b) in *; clearbody m.

Ltac qminmax :=
  repeat match goal with
    | |- context [Qmin ?a ?b] => case_min a b
    | |- context [Qmax ?a ?b] => case_max a b
    | H : context [Qmin ?a ?b] |- _ => case_min a b
    | H : context [Qmax ?a ?b] |- _ => case_max a b
    end;
  try lra.

Lemma zoom_in_iter (n : nat) (v : View) :
  zoom v <= MAX_ZOOM ->
  zoom (Nat.iter n handleZoomIn v)
  == Qmin MAX_ZOOM (zoom v + inject_Z (Z.of_nat n) * ZOOM_STEP).
Proof.
  unfold MAX_ZOOM, ZOOM_STEP. intros H.
  induction n as [| n IH].
  - change (Nat.iter 0 handleZoomIn v) with v.
    change (inject_Z (Z.of_nat 0)) with 0. qminmax.
  - change (Nat.iter (S n) handleZoomIn v)
      with (handleZoomIn (Nat.iter n handleZoomIn v)).
    rewrite (proj1 (zoom_in_value _)). unfold MAX_ZOOM, ZOOM_STEP.
    rewrite IH. rewrite Nat2Z.inj_succ. unfold Z.succ.
    rewrite inject_Z_plus. change (inject_Z 1) with 1. qminmax.
Qed.

Lemma zoom_out_iter (n : nat) (v : View) :
  MIN_ZOOM <= zoom v ->
  zoom (Nat.iter n handleZoomOut v)
  == Qmax MIN_ZOOM (zoom v - inject_Z (Z.of_nat n) * ZOOM_STEP).
Proof.
  unfold MIN_ZOOM, ZOOM_STEP. intros H.
  induction n as [| n IH].
  - change (Nat.iter 0 handleZoomOut v) with v.
    change (inject_Z (Z.of_nat 0)) with 0. qminmax.
  - change (Nat.iter (S n) handleZoomOut v)
      with (handleZoomOut (Nat.iter n handleZoomOut v)).
    assert (G : 1 <= zoom (Nat.iter n handleZoomOut v))
      by (rewrite IH; qminmax).
    rewrite (proj1 (zoom_out_value _ G)). unfold MIN_ZOOM, ZOOM_STEP.
    rewrite IH. rewrite Nat2Z.inj_succ. unfold Z.succ.
    rewrite inject_Z_plus. change (inject_Z 1) with 1. qminmax.
Qed.

(** X17. Counting zoom steps.  From a zoom between 1x and 5x, n uses
    of zoom in give min(5, zoom + n/2) and n uses of zoom out give
    max(1, zoom - n/2); from the initial view, as many zoom outs as zoom
    ins lead back to 1x with the pan at (0, 0), and 8 zoom ins reach 5x. *)
Theorem zoom_steps_count :
  forall (n : nat) (v : View),
    MIN_ZOOM <= zoom v <= MAX_ZOOM ->
    zoom (Nat.iter n handleZoomIn v)
    == Qmin MAX_ZOOM (zoom v + inject_Z (Z.of_nat n) * ZOOM_STEP)
    /\ zoom (Nat.iter n handleZoomOut v)
       == Qmax MIN_ZOOM (zoom v - inject_Z (Z.of_nat n) * ZOOM_STEP)
    /\ (zoom v == MIN_ZOOM ->
        zoom (Nat.iter n handleZoomOut (Nat.iter n handleZoomIn v))
        == MIN_ZOOM)
    /\ (zoom v == MIN_ZOOM -> (8 <= n)%nat ->
        zoom (Nat.iter n handleZoomIn v) == MAX_ZOOM).
Proof.
  intros n v [Lo Hi].
  pose proof (zoom_in_iter n v Hi) as In.
  split; [exact In |]. split; [now apply zoom_out_iter |].
  unfold MIN_ZOOM, MAX_ZOOM, ZOOM_STEP in *.
  assert (Pn : 0 <= inject_Z (Z.of_nat n)).
  { change 0 with (inject_Z 0). rewrite <- Zle_Qle. lia. }
  split.
  - intros E.
    assert (G : 1 <= zoom (Nat.iter n handleZoomIn v))
      by (rewrite In; qminmax).
    rewrite (zoom_out_iter n _ G). unfold MIN_ZOOM, ZOOM_STEP. rewrite In.
    qminmax.
  - intros E N. rewrite In.
    assert (P8 : 8 <= inject_Z (Z.of_nat n)).
    { change 8 with (inject_Z 8). rewrite <- Zle_Qle. lia. }
    qminmax.
Qed.

Lemma zoom_steps_count_witness :
  zoom (Nat.iter 3 handleZoomIn initialView)
  == Qmin MAX_ZOOM (zoom initialView + inject_Z (Z.of_nat 3) * ZOOM_STEP).
Proof.
  apply (zoom_steps_count 3 initialView).
  unfold MIN_ZOOM, MAX_ZOOM. cbn. split; lra.
Defined.

End ViewportFacts.

(** ** The panels in front of the handlers *)

(** X18. What a panel submits is a control the page has enabled.  On
    the editor screen, with the props [App] hands to the panel shown on
    the active tab: when the submit button of the adjustment, try-on,
    design or persona panel is enabled, its handler calls the callback
    of [App], and the argument makes the corresponding control of the
    page an enabled one.  The adjustment prompt passed is not blank, the
    colour presets pass a prompt whenever the page is not loading, and
    the try-on panel calls back exactly when its button would be enabled
    on an idle page with a hotspot. *)
Theorem panel_submits_are_enabled_controls :
  forall (FilterPanel_enabled : bool -> bool) (s : AppState),
    renderContent s = EditorScreen ->
    (on_tab "adjust" s = true ->
     (forall st,
         AdjustmentPanel.apply_enabled (isLoading s) st = true ->
         exists p,
           AdjustmentPanel.handleApply st = Some p
           /\ JS.truthy (JS.trim p) = true
           /\ enabled FilterPanel_enabled s (AdjustButton p) = true)
     /\ (forall st name p,
            isLoading s = false ->
            In (name, p) (AdjustmentPanel.colorPresets st) ->
            enabled FilterPanel_enabled s (AdjustButton p) = true))
    /\ (on_tab "try-on" s = true ->
        forall st,
          (TryOnPanel.canGenerate (has (editHotspot s)) (isLoading s) st = true ->
           exists d,
             TryOnPanel.handleGenerate st = Some d
             /\ enabled FilterPanel_enabled s (TryOnButton d) = true)
          /\ (TryOnPanel.canGenerate true false st = true
              <-> TryOnPanel.handleGenerate st <> None))
    /\ (on_tab "design" s = true ->
        forall st random,
          0 <= random < 1000000000 ->
          DesignPanel.canGenerate (isLoading s) (referenceImage s) = true ->
          exists p,
            DesignPanel.handleGenerate (referenceImage s) st = Some p
            /\ enabled FilterPanel_enabled s (StyleButton p random) = true)
    /\ (on_tab "persona" s = true ->
        forall st,
          PersonaPanel.submit_enabled (isLoading s) st = true ->
          enabled FilterPanel_enabled s
            (PersonaButton (PersonaPanel.handleGenerate st)) = true).
Proof.
  intros FP s R.
  split; [intros H; split | split; [intros H st; split; [| split]
                                   | split; intros H]].
  - intros st E. unfold AdjustmentPanel.apply_enabled in E.
    apply andb_prop in E as [A E]. apply negb_true_iff in E.
    apply orb_false_elim in E as [L T]. apply negb_false_iff in T.
    exists (AdjustmentPanel.activePrompt st).
    unfold AdjustmentPanel.handleApply. rewrite A.
    split; [reflexivity |]. split; [exact T |].
    cbn [enabled]. now rewrite R, H, L, A.
  - intros st name p L I. cbn [enabled]. rewrite R, H, L.
    destruct I as [I | [I | []]]; inversion I; subst; reflexivity.
  - intros E. unfold TryOnPanel.canGenerate in E.
    apply andb_prop in E as [E M]. apply andb_prop in E as [Hs L].
    apply negb_true_iff in L.
    unfold TryOnPanel.handleGenerate. cbn [enabled]. rewrite R, H, Hs, L.
    destruct (TryOnPanel.mode st).
    + rewrite orb_false_r in M. rewrite M. eexists. split; [reflexivity |].
      cbn. exact M.
    + cbn in M. destruct (TryOnPanel.garmentFile st); [| discriminate].
      eexists. split; reflexivity.
  - unfold TryOnPanel.canGenerate, TryOnPanel.handleGenerate. cbn.
    destruct (TryOnPanel.mode st).
    + rewrite orb_false_r. intros ->. discriminate.
    + cbn. destruct (TryOnPanel.garmentFile st); discriminate.
  - unfold TryOnPanel.canGenerate, TryOnPanel.handleGenerate. cbn.
    destruct (TryOnPanel.mode st).
    + rewrite orb_false_r.
      destruct (JS.truthy (JS.trim (TryOnPanel.prompt st)));
        [reflexivity | intros C; now contradiction C].
    + cbn. destruct (TryOnPanel.garmentFile st);
        [reflexivity | intros C; now contradiction C].
  - intros st random Hr E. unfold DesignPanel.canGenerate in E.
    apply andb_prop in E as [L Ref]. apply negb_true_iff in L.
    unfold DesignPanel.handleGenerate. cbn [enabled]. rewrite R, H, L.
    destruct (referenceImage s); [| discriminate].
    eexists. split; [reflexivity |]. cbn.
    destruct (Z.leb_spec 0 random); [| lia].
    destruct (Z.ltb_spec random 1000000000); [reflexivity | lia].
  - intros st E. unfold PersonaPanel.submit_enabled in E.
    apply negb_true_iff in E. apply orb_false_elim in E as [E _].
    apply negb_false_iff in E. unfold PersonaPanel.canGenerate in E.
    apply andb_prop in E as [L _]. apply negb_true_iff in L.
    cbn [enabled]. now rewrite R, H, L.
Qed.

Lemma panel_submits_are_enabled_controls_witness :
  enabled negb
    (initialState |> setIsLoading false |> setHistory [imgA]
       |> setHistoryIndex 0 |> setActiveTab "persona")
    (PersonaButton (PersonaPanel.handleGenerate PersonaPanel.initial)) = true.
Proof.
  apply (panel_submits_are_enabled_controls negb
           (initialState |> setIsLoading false |> setHistory [imgA]
              |> setHistoryIndex 0 |> setActiveTab "persona")).
  - vm_compute. reflexivity.
  - reflexivity.
  - vm_compute. reflexivity.
Defined.

Lemma preset_prompts_truthy (n : nat) (name p : string) :
  nth_error AdjustmentPanel.presets n = Some (name, p) -> JS.truthy p = true.
Proof.
  intros H. do 4 (destruct n as [| n]; [inversion H; reflexivity |]).
  destruct n; discriminate.
Qed.

Lemma adjustment_steps (acts : list AdjustmentPanel.Action) :
  forall (st : AdjustmentPanel.State) (acc : string),
    (AdjustmentPanel.selectedPresetPrompt st = None
     \/ AdjustmentPanel.customPrompt st = EmptyString) ->
    AdjustmentPanel.activePrompt st = acc ->
    let st' := fold_left AdjustmentPanel.act acts st in
    (AdjustmentPanel.selectedPresetPrompt st' = None
     \/ AdjustmentPanel.customPrompt st' = EmptyString)
    /\ AdjustmentPanel.activePrompt st'
       = fold_left (fun acc a =>
                      match a with
                      | AdjustmentPanel.PresetClick n =>
                          match nth_error AdjustmentPanel.presets n with
                          | Some (_, p) => p
                          | None => acc
                          end
                      | AdjustmentPanel.CustomChange value => value
                      | AdjustmentPanel.ColorChange _ => acc
                      end) acts acc.
Proof.
  induction acts as [| a acts IH]; intros st acc Hx Ha; [split; assumption |].
  cbn [fold_left]. apply IH.
  - destruct a as [n | v | c]; cbn.
    + destruct (nth_error AdjustmentPanel.presets n) as [[nm p] |];
        [right; reflexivity | exact Hx].
    + left; reflexivity.
    + exact Hx.
  - destruct a as [n | v | c]; cbn.
    + destruct (nth_error AdjustmentPanel.presets n) as [[nm p] |] eqn:E;
        [| exact Ha].
      unfold AdjustmentPanel.activePrompt. cbn.
      now rewrite (preset_prompts_truthy _ _ _ E).
    + reflexivity.
    + exact Ha.
Qed.

(** X19. The adjustment panel holds one prompt at a time.  After any
    sequence of preset clicks, typing and colour changes, the selected
    preset and the typed text are never both set, the active prompt is
    the prompt of the last preset clicked or text typed, and the apply
    handler passes exactly that prompt on, or nothing when it is empty. *)
Theorem adjustment_prompt_is_last_choice :
  forall (acts : list AdjustmentPanel.Action),
    (AdjustmentPanel.selectedPresetPrompt
       (fold_left AdjustmentPanel.act acts AdjustmentPanel.initial) = None
     \/ AdjustmentPanel.customPrompt
          (fold_left AdjustmentPanel.act acts AdjustmentPanel.initial)
        = EmptyString)
    /\ AdjustmentPanel.activePrompt
         (fold_left AdjustmentPanel.act acts AdjustmentPanel.initial)
       = AdjustmentPanel.last_choice acts
    /\ AdjustmentPanel.handleApply
         (fold_left AdjustmentPanel.act acts AdjustmentPanel.initial)
       = if JS.truthy (AdjustmentPanel.last_choice acts)
         then Some (AdjustmentPanel.last_choice acts) else None.
Proof.
  intros acts.
  destruct (adjustment_steps acts AdjustmentPanel.initial EmptyString)
    as [Hx Ha]; [left; reflexivity | reflexivity |].
  fold (AdjustmentPanel.last_choice acts) in Ha.
  split; [exact Hx |]. split; [exact Ha |].
  unfold AdjustmentPanel.handleApply. now rewrite Ha.
Qed.

Lemma persona_setField_loading (t : PersonaPanel.SuggestionType) (v : string)
    (st : PersonaPanel.State) :
  PersonaPanel.suggestionLoading (PersonaPanel.setField t v st)
  = PersonaPanel.suggestionLoading st.
Proof. destruct t; reflexivity. Qed.

Lemma persona_act_single (img : option File) (w : PersonaPanel.Panel)
    (a : PersonaPanel.Action) :
  PersonaPanel.suggestionLoading (PersonaPanel.state w)
  = hd_error (PersonaPanel.pending w) ->
  (List.length (PersonaPanel.pending w) <= 1)%nat ->
  PersonaPanel.suggestionLoading (PersonaPanel.state (PersonaPanel.act img w a))
  = hd_error (PersonaPanel.pending (PersonaPanel.act img w a))
  /\ (List.length (PersonaPanel.pending (PersonaPanel.act img w a)) <= 1)%nat.
Proof.
  intros H L. destruct a as [f v | t | n o]; cbn [PersonaPanel.act].
  - cbn. now rewrite persona_setField_loading.
  - unfold PersonaPanel.handleGenerateSuggestion.
    destruct (negb (has img)
              || has (PersonaPanel.suggestionLoading (PersonaPanel.state w)))
      eqn:E; cbn; [split; assumption |].
    apply orb_false_elim in E as [_ E]. rewrite H in E.
    destruct (PersonaPanel.pending w); [cbn; split; [reflexivity | lia] |].
    discriminate.
  - destruct (nth_error (PersonaPanel.pending w) n) as [t |] eqn:N;
      [| split; assumption].
    destruct (PersonaPanel.pending w) as [| x [| y r]];
      [destruct n; discriminate | | cbn in L; lia].
    destruct n as [| n]; [| destruct n; discriminate].
    cbn. split; [destruct o; reflexivity | lia].
Qed.

(** X20. The persona panel asks for one suggestion at a time.  Whatever
    is typed, however often the suggestion buttons are used (their
    handler is run whether or not the button is enabled) and in whatever
    way the suggestion requests settle: at most one request is pending,
    [suggestionLoading] names it and is null when none is, and while one
    is pending the submit button is disabled. *)
Theorem suggestion_single_flight :
  forall (currentImage : option File) (acts : list PersonaPanel.Action)
         (isLoading : bool),
    PersonaPanel.suggestionLoading
      (PersonaPanel.state
         (fold_left (PersonaPanel.act currentImage) acts
            (PersonaPanel.mkPanel PersonaPanel.initial [])))
    = hd_error
        (PersonaPanel.pending
           (fold_left (PersonaPanel.act currentImage) acts
              (PersonaPanel.mkPanel PersonaPanel.initial [])))
    /\ (List.length
          (PersonaPanel.pending
             (fold_left (PersonaPanel.act currentImage) acts
                (PersonaPanel.mkPanel PersonaPanel.initial []))) <= 1)%nat
    /\ (PersonaPanel.pending
          (fold_left (PersonaPanel.act currentImage) acts
             (PersonaPanel.mkPanel PersonaPanel.initial [])) <> [] ->
        PersonaPanel.submit_enabled isLoading
          (PersonaPanel.state
             (fold_left (PersonaPanel.act currentImage) acts
                (PersonaPanel.mkPanel PersonaPanel.initial []))) = false).
Proof.
  intros img acts ld.
  assert (G : forall acts w,
            PersonaPanel.suggestionLoading (PersonaPanel.state w)
            = hd_error (PersonaPanel.pending w) ->
            (List.length (PersonaPanel.pending w) <= 1)%nat ->
            PersonaPanel.suggestionLoading
              (PersonaPanel.state (fold_left (PersonaPanel.act img) acts w))
            = hd_error
                (PersonaPanel.pending (fold_left (PersonaPanel.act img) acts w))
            /\ (List.length
                  (PersonaPanel.pending
                     (fold_left (PersonaPanel.act img) acts w)) <= 1)%nat).
  { clear acts. induction acts as [| a acts IH]; intros w H L;
      [split; assumption |].
    cbn [fold_left].
    destruct (persona_act_single img w a H L) as [H' L']. now apply IH. }
  destruct (G acts (PersonaPanel.mkPanel PersonaPanel.initial []))
    as [H L]; [reflexivity | cbn; lia |].
  split; [exact H |]. split; [exact L |].
  intros Hne. unfold PersonaPanel.submit_enabled, PersonaPanel.isSuggesting.
  rewrite H.
  destruct (PersonaPanel.pending
              (fold_left (PersonaPanel.act img) acts
                 (PersonaPanel.mkPanel PersonaPanel.initial [])));
    [now contradiction Hne |].
  cbn. now rewrite orb_true_r.
Qed.

(** ** A page without history forgets the saved session *)

Lemma autosave_empty (FP : bool -> bool) (b : Persist.Browser) (w : World) :
  mounted w = true -> history (app w) = [] ->
  step FP w (Autosave b)
  = mkWorld (app w) (inflight w) None true (uploaded w).
Proof.
  intros M E. cbn [step]. rewrite M. unfold Persist.saveData, len.
  rewrite E. reflexivity.
Qed.

(** X21. A page without history forgets the saved session.  On a page
    that has run its mount effect, an autosave that finds the history
    empty removes the stored record: so does the autosave after Upload
    New, whatever was stored, and the autosave of a visit that began
    with a record from which nothing could be restored, also when the
    restore effect itself left that record in place.  The visit after
    that is a cold start. *)
Theorem empty_page_forgets_session :
  forall (FilterPanel_enabled : bool -> bool) (b : Persist.Browser)
         (w : World),
    mounted w = true ->
    (history (app w) = [] ->
     storage (step FilterPanel_enabled w (Autosave b)) = None)
    /\ (enabled FilterPanel_enabled (app w) UploadNewButton = true ->
        storage (run FilterPanel_enabled w [Use UploadNewButton; Autosave b])
        = None
        /\ app (run FilterPanel_enabled w
                  [Use UploadNewButton; Autosave b; Reload; Mount])
           = setIsLoading false initialState)
    /\ (forall (ls : Persist.Storage) (up : option File),
          Unusable ls ->
          storage (run FilterPanel_enabled (boot ls up) [Mount; Autosave b])
          = None).
Proof.
  intros FP b w M. split; [| split].
  - intros E. now rewrite autosave_empty.
  - intros En.
    assert (E1 : step FP w (Use UploadNewButton)
                 = mkWorld (handleUploadNew (app w)) (inflight w) (storage w)
                     true (uploaded w))
      by (cbn [step handler]; now rewrite M, En).
    unfold run. cbn [fold_left]. rewrite E1.
    rewrite autosave_empty by reflexivity. split; reflexivity.
  - intros ls up U. unfold run. cbn [fold_left].
    assert (Em : exists ls',
               step FP (boot ls up) Mount
               = mkWorld (setIsLoading false initialState) [] ls' true up).
    { cbn [step boot mounted app storage inflight uploaded].
      destruct (restore_unusable ls U) as [E | [e E]].
      - exists ls. now rewrite (mount_nothing _ _ E).
      - exists None. now rewrite (mount_caught _ _ e E). }
    destruct Em as [ls' ->]. now rewrite autosave_empty.
Qed.

Lemma empty_page_forgets_session_witness :
  storage (run negb
             (run negb (boot None None)
                [Mount; Use (FileSelect imgA); Autosave roomy])
             [Use UploadNewButton; Autosave roomy])
  = None.
Proof.
  apply (empty_page_forgets_session negb roomy
           (run negb (boot None None)
              [Mount; Use (FileSelect imgA); Autosave roomy])).
  - vm_compute. reflexivity.
  - vm_compute. reflexivity.
Defined.
